(** * Chat hub service: conversation orchestration core

    A shallow embedding of [ChatHubService]
    (packages/cli/src/modules/chat-hub/chat-hub.service.ts) and the
    properties of its history builder, its send / edit / regenerate / stop
    entry points, its stream reconnection and its conversation listing.

    Conventions of the embedding:
    - JavaScript strings are [string]; [.length] is [String.length] taken
      into [Z]; numbers that the code only compares and adds are [Z];
    - nullable fields are [option]; the truthiness tests of the source
      ([if (!x)], [x && ...]) are written out, so that the empty string and
      the number zero are falsy exactly as in the source;
    - message and session identifiers are UUID strings, so the plain object
      built by [Object.fromEntries] is a [gmap string _];
    - a service method is a computation in the monad [M]: it reads and
      writes the rows of the store, appends the calls it makes to external
      collaborators to a trace, and either returns or throws. *)

From Stdlib Require Import ZArith String Ascii.
From stdpp Require Import gmap strings list fin_maps pretty sorting.

Set Warnings "-clear-no-such-hyp".

Local Open Scope string_scope.
Local Open Scope Z_scope.

(** ** Data model *)

Inductive ChatHubMessageType := TyHuman | TyAi | TySystem | TyOther.

Inductive ChatHubMessageStatus :=
  StPending | StRunning | StSuccess | StError | StCancelled | StWaiting.

Record IBinaryData := {
  bd_id : option string;
  bd_fileName : option string;
  bd_mimeType : string;
  bd_data : string;
}.

Record ExecutionEntity := {
  exec_id : string;
  exec_workflowId : string;
}.

(** Modelled from the spec: the message entity is declared outside the
    sources at hand; these are the fields the spec lists for a message and
    the service reads. [msg_execution] is the execution relation as loaded
    with the row. *)
Record ChatHubMessage := {
  msg_id : string;
  msg_sessionId : string;
  msg_type : ChatHubMessageType;
  msg_content : string;
  msg_previousMessageId : option string;
  msg_retryOfMessageId : option string;
  msg_revisionOfMessageId : option string;
  msg_status : ChatHubMessageStatus;
  msg_executionId : option Z;
  msg_execution : option ExecutionEntity;
  msg_attachments : option (list IBinaryData);
}.

#[global] Instance ChatHubMessageType_eq_dec : EqDecision ChatHubMessageType.
Proof. solve_decision. Defined.
#[global] Instance ChatHubMessageStatus_eq_dec : EqDecision ChatHubMessageStatus.
Proof. solve_decision. Defined.
#[global] Instance IBinaryData_eq_dec : EqDecision IBinaryData.
Proof. solve_decision. Defined.
#[global] Instance ExecutionEntity_eq_dec : EqDecision ExecutionEntity.
Proof. solve_decision. Defined.
#[global] Instance ChatHubMessage_eq_dec : EqDecision ChatHubMessage.
Proof. solve_decision. Defined.

(** [x ?? d] on a nullable value. *)
Definition nullish {A} (x : option A) (d : A) : A := default d x.

(** A nullable string used as a condition: [null] and the empty string are
    falsy. *)
Definition truthy (x : option string) : bool :=
  match x with
  | Some s => bool_decide (s ≠ "")
  | None => false
  end.

(** ** Message history (buildMessageHistory) *)

Module History.

(** [Object.fromEntries(list.map((m) => [m.id, m]))]: a later entry with
    the same id replaces an earlier one. *)
Definition fromEntries (l : list ChatHubMessage) : gmap string ChatHubMessage :=
  foldl (λ acc m, <[msg_id m := m]> acc) ∅ l.

(** [messages[id]?.previousMessageId ?? null] *)
Definition parent (messages : gmap string ChatHubMessage) (id : string)
  : option string :=
  messages !! id ≫= msg_previousMessageId.

(** The [while (current && !visited.has(current))] loop. Each unit of fuel
    pays for one execution of the body; [None] means the fuel ran out
    before the loop condition became false. *)
Fixpoint walk (fuel : nat) (messages : gmap string ChatHubMessage)
    (visited : gset string) (historyIds : list string)
    (current : option string) : option (list string) :=
  match current with
  | Some c =>
      if truthy current && bool_decide (c ∉ visited) then
        match fuel with
        | O => None
        | S fuel' =>
            walk fuel' messages ({[c]} ∪ visited) (c :: historyIds)
              (parent messages c)
        end
      else Some historyIds
  | None => Some historyIds
  end.

(** The ids collected by the loop, started as the source starts it. *)
Definition historyIds (messages : gmap string ChatHubMessage)
    (lastMessageId : option string) : option (list string) :=
  walk (S (size messages)) messages ∅ [] lastMessageId.

(** [historyIds.flatMap((id) => messages[id] ?? [])] *)
Definition lookupAll (messages : gmap string ChatHubMessage)
    (ids : list string) : list ChatHubMessage :=
  omap (λ id, messages !! id) ids.

Definition buildMessageHistory (messages : gmap string ChatHubMessage)
    (lastMessageId : option string) : option (list ChatHubMessage) :=
  if negb (truthy lastMessageId) then Some []
  else ids ← historyIds messages lastMessageId;
       Some (lookupAll messages ids).

(** What the loop has collected after at least one iteration started from
    [start]: the newest id is last, and every id is the parent of the one
    after it. *)
Inductive Chain (messages : gmap string ChatHubMessage) (start : string)
  : list string → Prop :=
| Chain_start : start ≠ "" → Chain messages start [start]
| Chain_step p h t :
    Chain messages start (h :: t) →
    parent messages h = Some p →
    p ≠ "" →
    p ∉ h :: t →
    Chain messages start (p :: h :: t).

(** The loop condition is false at the head of the collected ids. *)
Definition stopped (messages : gmap string ChatHubMessage)
    (ids : list string) : Prop :=
  ∃ h, head ids = Some h ∧
    (truthy (parent messages h) = false ∨
     ∃ p, parent messages h = Some p ∧ p ∈ ids).

End History.

(** ** Errors and fallible results *)

(** The error classes the service throws itself, and [ExternalError] for
    whatever a collaborator (store, attachment service, workflow service,
    execution service) may throw. *)
Inductive Error :=
| BadRequestError (msg : string)
| NotFoundError (msg : string)
| UnexpectedError (msg : string)
| OperationalError (msg : string)
| TypeError (msg : string)
| ExternalError (msg : string).

#[global] Instance Error_eq_dec : EqDecision Error.
Proof. solve_decision. Defined.

(** The result of awaiting a promise: fulfilled or rejected. *)
Inductive Outcome (A : Type) :=
| Ok (a : A)
| Throw (e : Error).
Arguments Ok {A} a.
Arguments Throw {A} e.

#[global] Instance Outcome_ret : MRet Outcome := λ A a, Ok a.
#[global] Instance Outcome_bind : MBind Outcome := λ A B f m,
  match m with
  | Ok a => f a
  | Throw e => Throw e
  end.

#[global] Instance Outcome_fmap : FMap Outcome := λ A B f m,
  match m with
  | Ok a => Ok (f a)
  | Throw e => Throw e
  end.

(** ** Conversation history for the model (buildConversationHistory) *)

Module Conversation.

Inductive ContentBlock :=
| TextBlock (text : string)
| ImageUrlBlock (image_url : string).

Inductive RecordType := RtUser | RtAi | RtSystem.

Inductive MessageContent :=
| PlainText (text : string)
| Blocks (blocks : list ContentBlock).

Record MessageRecord := {
  mr_type : RecordType;
  mr_message : MessageContent;
  mr_hideFromUI : bool;
}.

(** ChatHubAgentKnowledgeItem: inline content or an embedded document. *)
Inductive ChatHubAgentKnowledgeItem :=
| FileItem (binaryData : IBinaryData)
| EmbeddingItem (fileName : option string) (provider : string).

Inductive Modality := MdText | MdImage | MdAudio | MdVideo | MdFile.

#[global] Instance Modality_eq_dec : EqDecision Modality.
Proof. solve_decision. Defined.

Record ChatModelMetadataDto := {
  inputModalities : list Modality;
}.

(** The collaborators the history builder calls: the attachment service
    (both fetches can fail) and the models service. *)
Record Fetch := {
  getAsBuffer : IBinaryData → Outcome string;
  getDataUrl : IBinaryData → Outcome string;
  getMimeTypeModality : string → Modality;
  getModelMetadata : string → string → ChatModelMetadataDto;
}.

(** [s.length] *)
Definition len (s : string) : Z := Z.of_nat (String.length s).

(** A nullable string inside a template literal. *)
Definition interpolate (x : option string) : string :=
  match x with
  | Some s => s
  | None => "undefined"
  end.

Definition newline : string := String "010"%char EmptyString.

(** 20 * 1024 * 1024 * 0.9 *)
Definition maxTotalPayloadSize : Z := 18874368.

Definition isTextFile (mimeType : string) : bool :=
  String.prefix "text/" mimeType
  || bool_decide (mimeType = "application/json")
  || bool_decide (mimeType = "application/xml")
  || bool_decide (mimeType = "application/csv")
  || bool_decide (mimeType = "application/x-yaml")
  || bool_decide (mimeType = "application/yaml").

(** What the [try] block of buildContentBlockForAttachment throws: one of
    its two local classes, or whatever a fetch threw. *)
Inductive Thrown :=
| TotalFileSizeExceededError
| UnsupportedMimeTypeError
| Other (e : Error).

Definition embeddingText (prefix : string) (fileName : option string) : string :=
  prefix ++ ": " ++ nullish fileName "attachment" ++ newline ++ "Content: "
    ++ newline ++ "(Use vector store question tool to query this document)".

Definition inlineText (prefix : string) (a : IBinaryData) (content : string)
  : string :=
  prefix ++ ": " ++ nullish (bd_fileName a) "attachment" ++ newline
    ++ "Content: " ++ newline ++ content.

Definition labelText (prefix : string) (a : IBinaryData) : string :=
  prefix ++ ": " ++ nullish (bd_fileName a) "attachment".

(** The [try] block. *)
Definition tryBlock (f : Fetch) (file : ChatHubAgentKnowledgeItem)
    (currentTotalSize maxTotalPayloadSize : Z)
    (modelMetadata : ChatModelMetadataDto) (prefix : string)
  : list ContentBlock + Thrown :=
  if bool_decide (maxTotalPayloadSize ≤ currentTotalSize) then
    inr TotalFileSizeExceededError
  else
    match file with
    | EmbeddingItem fileName _ => inl [TextBlock (embeddingText prefix fileName)]
    | FileItem attachment =>
        if isTextFile (bd_mimeType attachment) then
          match getAsBuffer f attachment with
          | Throw e => inr (Other e)
          | Ok content =>
              if bool_decide (maxTotalPayloadSize < currentTotalSize + len content)
              then inr TotalFileSizeExceededError
              else inl [TextBlock (inlineText prefix attachment content)]
          end
        else
          let modality := getMimeTypeModality f (bd_mimeType attachment) in
          if negb (bool_decide (modality ∈ inputModalities modelMetadata)) then
            inr UnsupportedMimeTypeError
          else
            match getDataUrl f attachment with
            | Throw e => inr (Other e)
            | Ok url =>
                if bool_decide (maxTotalPayloadSize < currentTotalSize + len url)
                then inr TotalFileSizeExceededError
                else inl [TextBlock (labelText prefix attachment);
                          ImageUrlBlock url]
            end
    end.

(** The name the [catch] block prints. *)
Definition catchFileName (file : ChatHubAgentKnowledgeItem) : string :=
  match file with
  | EmbeddingItem fileName _ => interpolate fileName
  | FileItem a => nullish (bd_fileName a) "attachment"
  end.

Definition sizePlaceholder (prefix : string) (file : ChatHubAgentKnowledgeItem)
  : ContentBlock :=
  TextBlock (prefix ++ ": " ++ catchFileName file ++ newline
               ++ "(Content omitted due to size limit)").

Definition unsupportedPlaceholder (prefix : string)
    (file : ChatHubAgentKnowledgeItem) : ContentBlock :=
  TextBlock (prefix ++ ": " ++ catchFileName file ++ newline
               ++ "(Unsupported file type)").

Definition buildContentBlockForAttachment (f : Fetch)
    (file : ChatHubAgentKnowledgeItem)
    (currentTotalSize maxTotalPayloadSize : Z)
    (modelMetadata : ChatModelMetadataDto) (prefix : string)
  : Outcome (list ContentBlock) :=
  match tryBlock f file currentTotalSize maxTotalPayloadSize modelMetadata prefix with
  | inl blocks => Ok blocks
  | inr TotalFileSizeExceededError => Ok [sizePlaceholder prefix file]
  | inr UnsupportedMimeTypeError => Ok [unsupportedPlaceholder prefix file]
  | inr (Other e) => Throw e
  end.

(** [block.type === 'text' ? block.text.length : block.image_url.length] *)
Definition blockSize (b : ContentBlock) : Z :=
  match b with
  | TextBlock text => len text
  | ImageUrlBlock url => len url
  end.

Definition blocksSize (bs : list ContentBlock) : Z :=
  foldr (λ b acc, blockSize b + acc) 0 bs.

(** [typeMap[message.type] || 'system'] *)
Definition typeMap (t : ChatHubMessageType) : RecordType :=
  match t with
  | TyHuman => RtUser
  | TyAi => RtAi
  | TySystem => RtSystem
  | TyOther => RtSystem
  end.

(** The inner [for (const attachment of attachments)] loop of one
    message: the state is the blocks pushed so far and the running
    size. *)
Fixpoint attachmentLoop (f : Fetch) (maxSize : Z)
    (metadata : ChatModelMetadataDto) (attachments : list IBinaryData)
    (blocks : list ContentBlock) (currentTotalSize : Z)
  : Outcome (list ContentBlock * Z) :=
  match attachments with
  | [] => Ok (blocks, currentTotalSize)
  | attachment :: rest =>
      attachmentBlocks ←
        buildContentBlockForAttachment f (FileItem attachment)
          currentTotalSize maxSize metadata "File";
      attachmentLoop f maxSize metadata rest (blocks ++ attachmentBlocks)
        (currentTotalSize + blocksSize attachmentBlocks)
  end.

(** The outer [for (const message of messages)] loop over the reversed
    history: the state is [messageValues] and the running size. *)
Fixpoint messageLoop (f : Fetch) (maxSize : Z)
    (metadata : ChatModelMetadataDto) (messages : list ChatHubMessage)
    (messageValues : list MessageRecord) (currentTotalSize : Z)
  : Outcome (list MessageRecord * Z) :=
  match messages with
  | [] => Ok (messageValues, currentTotalSize)
  | message :: rest =>
      if bool_decide (len (msg_content message) = 0) then
        messageLoop f maxSize metadata rest messageValues currentTotalSize
      else
        let attachments := nullish (msg_attachments message) [] in
        let type := typeMap (msg_type message) in
        let currentTotalSize := currentTotalSize + len (msg_content message) in
        match attachments with
        | [] =>
            messageLoop f maxSize metadata rest
              (messageValues ++
                 [{| mr_type := type;
                     mr_message := PlainText (msg_content message);
                     mr_hideFromUI := false |}])
              currentTotalSize
        | _ =>
            '(blocks, currentTotalSize) ←
              attachmentLoop f maxSize metadata attachments
                [TextBlock (msg_content message)] currentTotalSize;
            messageLoop f maxSize metadata rest
              (messageValues ++
                 [{| mr_type := type; mr_message := Blocks blocks;
                     mr_hideFromUI := false |}])
              currentTotalSize
        end
  end.

(** [`Context file (${i + 1} of ${contextFiles.length})`] *)
Definition contextPrefix (i total : nat) : string :=
  "Context file (" ++ pretty (S i) ++ " of " ++ pretty total ++ ")".

(** The [for (let i = 0; ...)] loop over the context files, from index
    [i]. *)
Fixpoint contextLoop (f : Fetch) (maxSize : Z)
    (metadata : ChatModelMetadataDto) (total : nat) (i : nat)
    (files : list ChatHubAgentKnowledgeItem)
    (contextFileBlocks : list ContentBlock) (currentTotalSize : Z)
  : Outcome (list ContentBlock * Z) :=
  match files with
  | [] => Ok (contextFileBlocks, currentTotalSize)
  | file :: rest =>
      blocks ←
        buildContentBlockForAttachment f file currentTotalSize maxSize
          metadata (contextPrefix i total);
      contextLoop f maxSize metadata total (S i) rest
        (contextFileBlocks ++ blocks) (currentTotalSize + blocksSize blocks)
  end.

(** The body of buildConversationHistory for a given budget; it also
    returns the final running size. *)
Definition conversationWithin (f : Fetch) (maxSize : Z)
    (metadata : ChatModelMetadataDto) (history : list ChatHubMessage)
    (contextFiles : list ChatHubAgentKnowledgeItem)
  : Outcome (list MessageRecord * Z) :=
  '(messageValues, currentTotalSize) ←
    messageLoop f maxSize metadata (reverse history) [] 0;
  '(contextFileBlocks, currentTotalSize) ←
    contextLoop f maxSize metadata (length contextFiles) 0 contextFiles []
      currentTotalSize;
  let messageValues :=
    match contextFileBlocks with
    | [] => messageValues
    | _ => (messageValues ++
             [{| mr_type := RtUser; mr_message := Blocks contextFileBlocks;
                 mr_hideFromUI := true |}])%list
    end in
  Ok (reverse messageValues, currentTotalSize).

(** [model] is the (provider, model) pair of a ChatHubBaseLLMModel. *)
Definition buildConversationHistory (f : Fetch)
    (history : list ChatHubMessage) (provider model : string)
    (contextFiles : list ChatHubAgentKnowledgeItem)
  : Outcome (list MessageRecord) :=
  fst <$> conversationWithin f maxTotalPayloadSize
            (getModelMetadata f provider model) history contextFiles.



(** *** Quantities used to state the size properties *)












End Conversation.

(** ** The service: store, collaborators, effects

    The [executionMetadata] and [trx] arguments of the source are handed
    unchanged to collaborators and are left out of the embedding. *)

Module Service.
Import Conversation.

Record User := { user_id : string }.

Inductive ChatHubProvider := ProvN8n | ProvCustomAgent | ProvLLM (name : string).

(** ChatHubConversationModel: the reply source named by a request. *)
Inductive ChatHubConversationModel :=
| N8nModel (workflowId : string)
| CustomAgentModel (agentId : string)
| LLMModel (provider model : string).

#[global] Instance ChatHubProvider_eq_dec : EqDecision ChatHubProvider.
Proof. solve_decision. Defined.
#[global] Instance ChatHubConversationModel_eq_dec :
  EqDecision ChatHubConversationModel.
Proof. solve_decision. Defined.

Definition modelProvider (m : ChatHubConversationModel) : ChatHubProvider :=
  match m with
  | N8nModel _ => ProvN8n
  | CustomAgentModel _ => ProvCustomAgent
  | LLMModel p _ => ProvLLM p
  end.

(** Modelled from the spec: the session entity is declared outside the
    sources at hand; these are the fields the spec lists for a session and
    the service reads. *)
Record ChatHubSession := {
  sess_id : string;
  sess_ownerId : string;
  sess_title : string;
  sess_provider : ChatHubProvider;
  sess_model : option string;
  sess_workflowId : option string;
  sess_agentId : option string;
  sess_credentialId : option string;
  sess_agentName : option string;
  sess_tools : list string;
}.

Record ChatInput := {
  ci_message : string;
  ci_attachments : list IBinaryData;
}.

Record PreparedChatWorkflow := {
  pw_workflowData : string;
  pw_executionData : string;
  pw_responseMode : string;
}.

Record ChatHubAgent := {
  agent_id : string;
  agent_provider : string;
  agent_model : string;
  agent_credentialId : option string;
  agent_systemPrompt : string;
  agent_files : list ChatHubAgentKnowledgeItem;
}.

Record HumanMessagePayload := {
  hp_sessionId : string;
  hp_messageId : string;
  hp_message : string;
  hp_model : ChatHubConversationModel;
  hp_credentials : gmap string (option string);
  hp_previousMessageId : option string;
  hp_tools : list string;
  hp_attachments : list IBinaryData;
  hp_timeZone : option string;
  hp_agentName : option string;
}.

Record EditMessagePayload := {
  ep_sessionId : string;
  ep_editId : string;
  ep_messageId : string;
  ep_message : string;
  ep_model : ChatHubConversationModel;
  ep_credentials : gmap string (option string);
  ep_timeZone : option string;
  ep_keepAttachmentIndices : list Z;
  ep_newAttachments : list IBinaryData;
}.

Record RegenerateMessagePayload := {
  rp_sessionId : string;
  rp_retryId : string;
  rp_model : ChatHubConversationModel;
  rp_credentials : gmap string (option string);
  rp_timeZone : option string;
}.

(** The [{id, fileName, mimeType}] triple sent to the other connections. *)
Record AttachmentInfo := {
  ai_id : option string;
  ai_fileName : string;
  ai_mimeType : string;
}.

(** A call to a collaborator that acts on the outside world. The trace of
    a run is the list of these calls in the order they were made. *)
Inductive Event :=
| StoreMessageAttachments (sessionId messageId : string)
    (attachments : list IBinaryData)
| DeleteAttachments (attachments : list IBinaryData)
| Warn (msg : string)
| Debug (msg : string)
| SendHumanMessage (userId sessionId messageId : string)
    (previousMessageId : option string) (content : string)
    (attachments : list AttachmentInfo)
| SendMessageEdit (userId sessionId revisionOfMessageId messageId : string)
    (content : string) (attachments : list AttachmentInfo)
| PrepareWorkflowAgentWorkflow (sessionId workflowId : string)
    (input : ChatInput)
| PrepareChatAgentWorkflow (sessionId agentId : string)
    (history : list MessageRecord) (input : ChatInput)
    (systemMessage : string) (vectorStore : option (string * string))
| PrepareBaseChatWorkflow (sessionId : string)
    (model : ChatHubConversationModel) (history : list MessageRecord)
    (input : ChatInput) (systemMessage : string) (tools : list string)
| ExecuteChatWorkflow (model : ChatHubConversationModel)
    (workflow : PreparedChatWorkflow) (sessionId previousMessageId : string)
    (retryOfMessageId : option string)
| ResumeChatExecution (executionId : string) (message sessionId : string)
    (messageId : string) (model : ChatHubConversationModel)
    (responseMode : string)
| StopExecution (executionId workflowId : string)
| GenerateSessionTitle (sessionId humanMessage : string)
    (attachments : list IBinaryData) (model : ChatHubConversationModel).

Record StreamChunk := {
  sequenceNumber : Z;
  chunk_content : string;
}.

(** A write to the relational store. *)
Inductive DbWrite :=
| InsertSession (s : ChatHubSession)
| InsertMessage (m : ChatHubMessage)
| UpdateMessage (id : string)
| Commit.

(** The collaborators, as far as the service depends on them. What a call
    answers is a function of the call; each call may throw. *)
Record Env := {
  fetch : Fetch;
  (** attachment service: storeMessageAttachments *)
  stored : Event → Outcome (list IBinaryData);
  (** workflow service: the three prepare...Workflow methods *)
  prepared : Event → Outcome PreparedChatWorkflow;
  (** every other collaborator call returns nothing, or throws *)
  fails : Event → option Error;
  (** a failing store write (constraint violation, lost connection) *)
  dbFails : DbWrite → option Error;
  getAgentById : string → string → option ChatHubAgent;
  getAgentMemoryKey : string → string → string;
  determineEmbeddingProvider :
    string → string → option string → string → Outcome (option string);
  (** workflowFinderService.findWorkflowForUser: the node types of the
      active version of the workflow, when the user may run it *)
  findWorkflowForUser : string → string → option (option (list string));
  findSingleExecution : Z → option string;
  (** chatStreamService *)
  hasActiveStream : string → bool;
  getCurrentMessageId : string → option string;
  getPendingChunks : string → Z → list StreamChunk;
  (** sessionRepository.getManyByUserId(userId, limit, cursor) *)
  getManyByUserId : string → Z → option string → list ChatHubSession;
  (** the workflow or agent relation of a session, converted to a model:
      its name and icon *)
  sessionAgent : ChatHubSession → option (option string * option string);
  getSystemMessage : string → string;
  credentialTypeOf : string → string;
  genericTimezone : string;
}.

(** The rows of the store, the trace of collaborator calls, and the
    variable that the closures of sendHumanMessage and editMessage share
    ([processedAttachments], [newStoredAttachments]). *)
Record World := {
  sessions : list ChatHubSession;
  messages : list ChatHubMessage;
  trace : list Event;
  storedAttachments : list IBinaryData;
}.

Definition M (A : Type) : Type := World → Outcome A * World.

#[global] Instance M_ret : MRet M := λ A a w, (Ok a, w).
#[global] Instance M_bind : MBind M := λ A B k m w,
  match m w with
  | (Ok a, w') => k a w'
  | (Throw e, w') => (Throw e, w')
  end.

Definition throw {A} (e : Error) : M A := λ w, (Throw e, w).

Definition tryCatch {A} (body : M A) (handler : Error → M A) : M A := λ w,
  match body w with
  | (Ok a, w') => (Ok a, w')
  | (Throw e, w') => handler e w'
  end.

Definition getWorld : M World := λ w, (Ok w, w).

Definition emit (ev : Event) : M unit := λ w,
  (Ok tt, {| sessions := sessions w; messages := messages w;
             trace := trace w ++ [ev];
             storedAttachments := storedAttachments w |}).

Definition setStoredAttachments (atts : list IBinaryData) : M unit := λ w,
  (Ok tt, {| sessions := sessions w; messages := messages w;
             trace := trace w; storedAttachments := atts |}).

Definition setMessages (ms : list ChatHubMessage) : M unit := λ w,
  (Ok tt, {| sessions := sessions w; messages := ms;
             trace := trace w; storedAttachments := storedAttachments w |}).

Definition setSessions (ss : list ChatHubSession) : M unit := λ w,
  (Ok tt, {| sessions := ss; messages := messages w;
             trace := trace w; storedAttachments := storedAttachments w |}).

Definition liftOutcome {A} (o : Outcome A) : M A := λ w, (o, w).

Definition failWith (e : option Error) : M unit :=
  match e with
  | Some e => throw e
  | None => mret tt
  end.

(** A call that returns nothing. *)
Definition call (env : Env) (ev : Event) : M unit :=
  emit ev ≫= λ _, failWith (fails env ev).

(** [manager.transaction(async (trx) => body)]: the rows written by the
    body are kept only if it returns and the commit succeeds; what was done
    outside the store stays done. *)
Definition rollback (before after : World) : World :=
  {| sessions := sessions before; messages := messages before;
     trace := trace after; storedAttachments := storedAttachments after |}.

Definition transaction {A} (env : Env) (body : M A) : M A := λ w,
  match body w with
  | (Ok a, w') =>
      match dbFails env Commit with
      | None => (Ok a, w')
      | Some e => (Throw e, rollback w w')
      end
  | (Throw e, w') => (Throw e, rollback w w')
  end.

(** [void promise]: the caller goes on, a rejection is not observed. *)
Definition detached (m : M unit) : M unit := λ w,
  (Ok tt, snd (m w)).

(** *** The repositories *)

(** Modelled from the spec: ChatHubMessageRepository.getOneById is not in
    the sources at hand; the spec has the message store keyed by session
    and looked up by message id within a session. *)
Definition messageGetOneById (id sessionId : string) : M (option ChatHubMessage) :=
  w ← getWorld;
  mret (List.find
          (λ m, bool_decide (msg_id m = id ∧ msg_sessionId m = sessionId))
          (messages w)).

(** Modelled from the spec: the [messages] relation of a session entity
    (entity and repository are not in the sources at hand): a session owns
    the messages that carry its id. *)
Definition sessionMessages (sessionId : string) (w : World) : list ChatHubMessage :=
  filter (λ m, msg_sessionId m = sessionId) (messages w).

(** Modelled from the spec: ChatHubSessionRepository.getOneById is not in
    the sources at hand; it returns the session with the given id owned by
    the given user, with its messages loaded. *)
Definition sessionGetOneById (sessionId userId : string)
  : M (option (ChatHubSession * option (list ChatHubMessage))) :=
  w ← getWorld;
  mret ((λ s, (s, Some (sessionMessages sessionId w))) <$>
        List.find
          (λ s, bool_decide (sess_id s = sessionId ∧ sess_ownerId s = userId))
          (sessions w)).

(** Modelled from the spec: ChatHubSessionRepository.existsById is not in
    the sources at hand; an existence check for a session of a user. *)
Definition sessionExistsById (sessionId userId : string) : M bool :=
  w ← getWorld;
  mret (existsb
          (λ s, bool_decide (sess_id s = sessionId ∧ sess_ownerId s = userId))
          (sessions w)).

Definition withStatus (st : ChatHubMessageStatus) (m : ChatHubMessage)
  : ChatHubMessage :=
  {| msg_id := msg_id m; msg_sessionId := msg_sessionId m;
     msg_type := msg_type m; msg_content := msg_content m;
     msg_previousMessageId := msg_previousMessageId m;
     msg_retryOfMessageId := msg_retryOfMessageId m;
     msg_revisionOfMessageId := msg_revisionOfMessageId m;
     msg_status := st; msg_executionId := msg_executionId m;
     msg_execution := msg_execution m; msg_attachments := msg_attachments m |}.

Definition withContent (content : string) (m : ChatHubMessage)
  : ChatHubMessage :=
  {| msg_id := msg_id m; msg_sessionId := msg_sessionId m;
     msg_type := msg_type m; msg_content := content;
     msg_previousMessageId := msg_previousMessageId m;
     msg_retryOfMessageId := msg_retryOfMessageId m;
     msg_revisionOfMessageId := msg_revisionOfMessageId m;
     msg_status := msg_status m; msg_executionId := msg_executionId m;
     msg_execution := msg_execution m; msg_attachments := msg_attachments m |}.

(** Modelled from the spec: ChatHubMessageRepository.updateChatMessage is
    not in the sources at hand; it sets the given fields on the row with
    the given id and leaves every other row and field as it is. *)
Definition updateRows (id : string) (fields : ChatHubMessage → ChatHubMessage)
    (rows : list ChatHubMessage) : list ChatHubMessage :=
  map (λ m, if bool_decide (msg_id m = id) then fields m else m) rows.

(** [messageRepository.updateChatMessage(id, fields, trx)] *)
Definition updateChatMessage (env : Env) (id : string)
    (fields : ChatHubMessage → ChatHubMessage) : M unit :=
  failWith (dbFails env (UpdateMessage id)) ≫= λ _,
  w ← getWorld;
  setMessages (updateRows id fields (messages w)).

(** Modelled from the spec: ChatHubMessageRepository.createHumanMessage is
    not in the sources at hand; it inserts one human message row made of
    the request's session id, message id and text, the given attachments,
    parent and revision root. *)
Definition humanMessageRow (sessionId messageId message : string)
    (attachments : list IBinaryData) (previousMessageId : option string)
    (revisionOfMessageId : option string) : ChatHubMessage :=
  {| msg_id := messageId; msg_sessionId := sessionId; msg_type := TyHuman;
     msg_content := message; msg_previousMessageId := previousMessageId;
     msg_retryOfMessageId := None;
     msg_revisionOfMessageId := revisionOfMessageId;
     msg_status := StSuccess; msg_executionId := None;
     msg_execution := None; msg_attachments := Some attachments |}.

(** [messageRepository.createHumanMessage(payload, attachments, user,
    previousMessageId, model, revisionOfMessageId, trx)] *)
Definition createHumanMessage (env : Env) (sessionId messageId message : string)
    (attachments : list IBinaryData) (previousMessageId : option string)
    (revisionOfMessageId : option string) : M unit :=
  let row := humanMessageRow sessionId messageId message attachments
               previousMessageId revisionOfMessageId in
  failWith (dbFails env (InsertMessage row)) ≫= λ _,
  w ← getWorld;
  setMessages (messages w ++ [row]).

(** Modelled from the spec: ChatHubSessionRepository.createChatSession is
    not in the sources at hand; it inserts the session row it is given,
    bound to exactly one reply source. *)
Definition sessionRow (sessionId ownerId : string)
    (model : ChatHubConversationModel) (credentialId : option string)
    (tools : list string) (agentName : option string) : ChatHubSession :=
  {| sess_id := sessionId; sess_ownerId := ownerId; sess_title := "New Chat";
     sess_provider := modelProvider model;
     sess_model := match model with LLMModel _ m => Some m | _ => None end;
     sess_workflowId := match model with N8nModel w => Some w | _ => None end;
     sess_agentId := match model with CustomAgentModel a => Some a | _ => None end;
     sess_credentialId := credentialId; sess_agentName := agentName;
     sess_tools := tools |}.

(** *** Private helpers of the service *)

Definition pickCredentialId (env : Env) (provider : ChatHubProvider)
    (credentials : gmap string (option string)) : option string :=
  match provider with
  | ProvN8n | ProvCustomAgent => None
  | ProvLLM p => mjoin (credentials !! credentialTypeOf env p)
  end.

Definition getModelCredential (env : Env) (model : ChatHubConversationModel)
    (credentials : gmap string (option string)) : option string :=
  match modelProvider model with
  | ProvN8n => None
  | provider => pickCredentialId env provider credentials
  end.

Definition ensurePreviousMessage (previousMessageId : option string)
    (sessionId : string) : M (option ChatHubMessage) :=
  match previousMessageId with
  | Some id =>
      if truthy previousMessageId then
        previousMessage ← messageGetOneById id sessionId;
        match previousMessage with
        | None => throw (BadRequestError
                    "The previous message does not exist in the session")
        | Some m => mret (Some m)
        end
      else mret None
  | None => mret None
  end.

Definition getChatSession (user : User) (sessionId : string)
  : M (option (ChatHubSession * option (list ChatHubMessage))) :=
  sessionGetOneById sessionId (user_id user).

Definition getChatMessage (sessionId messageId : string) : M ChatHubMessage :=
  message ← messageGetOneById messageId sessionId;
  match message with
  | None => throw (NotFoundError "Chat message not found")
  | Some m => mret m
  end.

Definition ensureConversation (userId sessionId : string) : M unit :=
  sessionExists ← sessionExistsById sessionId userId;
  if sessionExists : bool then mret tt
  else throw (NotFoundError "Chat session not found").

Definition CHAT_TRIGGER_NODE_TYPE : string :=
  "@n8n/n8n-nodes-langchain.chatTrigger".

Definition ensureValidModel (env : Env) (user : User)
    (model : ChatHubConversationModel) : M unit :=
  match model with
  | CustomAgentModel agentId =>
      match getAgentById env (user_id user) agentId with
      | None => throw (BadRequestError
                  "Agent not found for chat session initialization")
      | Some _ => mret tt
      end
  | N8nModel workflowId =>
      match findWorkflowForUser env workflowId (user_id user) with
      | Some (Some nodes) =>
          if existsb (λ ty, bool_decide (ty = CHAT_TRIGGER_NODE_TYPE)) nodes
          then mret tt
          else throw (BadRequestError
                 "Chat trigger not found in workflow for chat session initialization")
      | _ => throw (BadRequestError
               "Workflow not found for chat session initialization")
      end
  | LLMModel _ _ => mret tt
  end.

Definition createChatSession (env : Env) (user : User) (sessionId : string)
    (model : ChatHubConversationModel) (credentialId : option string)
    (tools : list string) (agentName : option string)
  : M (ChatHubSession * option (list ChatHubMessage)) :=
  ensureValidModel env user model ≫= λ _,
  let row := sessionRow sessionId (user_id user) model credentialId tools
               agentName in
  failWith (dbFails env (InsertSession row)) ≫= λ _,
  w ← getWorld;
  setSessions (sessions w ++ [row]) ≫= λ _,
  mret (row, None).

(** The history of the turn: [buildMessageHistory] always returns (see
    [historyIds_Chain]), so the default is never used. *)
Definition messageHistory (rows : option (list ChatHubMessage))
    (lastMessageId : option string) : list ChatHubMessage :=
  default []
    (History.buildMessageHistory (History.fromEntries (nullish rows []))
       lastMessageId).

Definition isEmbedding (file : ChatHubAgentKnowledgeItem) : bool :=
  match file with
  | EmbeddingItem _ _ => true
  | FileItem _ => false
  end.

(** The [for (const item of knowledgeItems)] check. *)
Fixpoint checkKnowledgeItems (embeddingProvider : option string)
    (items : list ChatHubAgentKnowledgeItem) : M unit :=
  match items with
  | [] => mret tt
  | FileItem _ :: rest => checkKnowledgeItems embeddingProvider rest
  | EmbeddingItem fileName provider :: rest =>
      if bool_decide (Some provider ≠ embeddingProvider) then
        throw (BadRequestError
          ("Credential for processing agent's file knowledge is missing. Configure credential for "
             ++ provider ++ " or remove '" ++ interpolate fileName
             ++ "' from agent."))
      else checkKnowledgeItems embeddingProvider rest
  end.

Definition prepareReplyWorkflow (env : Env) (user : User) (sessionId : string)
    (credentials : gmap string (option string))
    (model : ChatHubConversationModel) (history : list ChatHubMessage)
    (input : ChatInput) (tools : list string) (timeZone : string)
  : M PreparedChatWorkflow :=
  match model with
  | N8nModel workflowId =>
      let ev := PrepareWorkflowAgentWorkflow sessionId workflowId input in
      emit ev ≫= λ _, liftOutcome (prepared env ev)
  | CustomAgentModel agentId =>
      match getAgentById env (user_id user) agentId with
      | None => throw (BadRequestError "Agent not found")
      | Some agent =>
          let memoryKey := getAgentMemoryKey env (user_id user) agentId in
          let knowledgeItems := List.filter isEmbedding (agent_files agent) in
          embeddingModel ←
            match knowledgeItems with
            | EmbeddingItem _ provider :: _ =>
                if truthy (agent_credentialId agent) then
                  liftOutcome
                    (determineEmbeddingProvider env (user_id user)
                       (agent_provider agent) (agent_credentialId agent)
                       provider)
                else mret None
            | _ => mret None
            end;
          checkKnowledgeItems embeddingModel knowledgeItems ≫= λ _,
          conversation ←
            liftOutcome
              (buildConversationHistory (fetch env) history
                 (agent_provider agent) (agent_model agent) (agent_files agent));
          let ev := PrepareChatAgentWorkflow sessionId agentId conversation input
                      (agent_systemPrompt agent ++ newline ++ newline
                         ++ getSystemMessage env timeZone)
                      ((λ p, (memoryKey, p)) <$> embeddingModel) in
          emit ev ≫= λ _, liftOutcome (prepared env ev)
      end
  | LLMModel provider modelName =>
      conversation ←
        liftOutcome
          (buildConversationHistory (fetch env) history provider modelName []);
      let ev := PrepareBaseChatWorkflow sessionId model conversation input
                  ("You are a helpful assistant." ++ newline ++ newline
                     ++ getSystemMessage env timeZone)
                  tools in
      emit ev ≫= λ _, liftOutcome (prepared env ev)
  end.

(** [`${error}`] *)
Definition errorText (e : Error) : string :=
  match e with
  | BadRequestError msg => "BadRequestError: " ++ msg
  | NotFoundError msg => "NotFoundError: " ++ msg
  | UnexpectedError msg => "UnexpectedError: " ++ msg
  | OperationalError msg => "OperationalError: " ++ msg
  | TypeError msg => "TypeError: " ++ msg
  | ExternalError msg => "Error: " ++ msg
  end.

(** The private [executeChatWorkflowWithCleanup]. Every caller discards its
    promise with [void], so it is modelled at the call site as [detached]:
    the execution and the title generation are sequenced here, where the
    source lets them run after the method has returned. *)
Definition executeChatWorkflowWithCleanup (env : Env)
    (model : ChatHubConversationModel) (workflow : PreparedChatWorkflow)
    (sessionId previousMessageId : string) (retryOfMessageId : option string)
    (originalPreviousMessageId : option string)
    (humanMessage : string) (processedAttachments : list IBinaryData)
  : M unit :=
  call env (ExecuteChatWorkflow model workflow sessionId previousMessageId
              retryOfMessageId) ≫= λ _,
  match originalPreviousMessageId with
  | None =>
      if bool_decide (humanMessage ≠ "") then
        tryCatch
          (call env (GenerateSessionTitle sessionId humanMessage
                       processedAttachments model))
          (λ error, emit (Warn ("Title generation failed: " ++ errorText error)))
      else mret tt
  | Some _ => mret tt
  end.

Definition attachmentInfo (a : IBinaryData) : AttachmentInfo :=
  {| ai_id := bd_id a; ai_fileName := nullish (bd_fileName a) "file";
     ai_mimeType := bd_mimeType a |}.

(** The [catch] block shared by sendHumanMessage and editMessage. *)
Definition cleanupAndRethrow {A} (env : Env) (error : Error) : M A :=
  w ← getWorld;
  let attachments := storedAttachments w in
  (if bool_decide (0 < length attachments)%nat then
     tryCatch (call env (DeleteAttachments attachments))
       (λ _, emit (Warn ("Could not clean up " ++ pretty (length attachments)
                           ++ " files")))
   else mret tt) ≫= λ _,
  throw error.

(** *** Public methods *)

(** [!message.executionId]: a missing id and the number zero are falsy. *)
Definition truthyNumber (x : option Z) : bool :=
  match x with
  | Some n => bool_decide (n ≠ 0)
  | None => false
  end.

Definition stopGeneration (env : Env) (user : User)
    (sessionId messageId : string) : M unit :=
  ensureConversation (user_id user) sessionId ≫= λ _,
  message ← getChatMessage sessionId messageId;
  if negb (bool_decide (msg_type message = TyAi)) then
    throw (BadRequestError "Can only stop AI messages")
  else
    match msg_execution message with
    | Some execution =>
        if negb (truthyNumber (msg_executionId message)) then
          throw (BadRequestError
                   "Message is not associated with a workflow execution")
        else if negb (bool_decide (msg_status message = StRunning)) then
          throw (BadRequestError
                   "Can only stop messages that are currently running")
        else
          call env (StopExecution (exec_id execution)
                      (exec_workflowId execution)) ≫= λ _,
          updateChatMessage env messageId (withStatus StCancelled)
    | None =>
        throw (BadRequestError
                 "Message is not associated with a workflow execution")
    end.

(** The closure that sendHumanMessage runs inside the transaction. *)
Definition sendHumanMessageTransaction (env : Env) (user : User)
    (payload : HumanMessagePayload)
  : M (PreparedChatWorkflow * option ChatHubMessage) :=
  let sessionId := hp_sessionId payload in
  let messageId := hp_messageId payload in
  let message := hp_message payload in
  let model := hp_model payload in
  let credentials := hp_credentials payload in
  let previousMessageId := hp_previousMessageId payload in
  let tools := hp_tools payload in
  let attachments := hp_attachments payload in
  let tz := nullish (hp_timeZone payload) (genericTimezone env) in
  let credentialId := getModelCredential env model credentials in
  session ← getChatSession user sessionId;
  session ←
    match session with
    | Some session => mret session
    | None => createChatSession env user sessionId model credentialId
                tools (hp_agentName payload)
    end;
  previousMessage ← ensurePreviousMessage previousMessageId sessionId;
  let history := messageHistory (snd session) previousMessageId in
  let ev := StoreMessageAttachments sessionId messageId attachments in
  processedAttachments ← (emit ev ≫= λ _, liftOutcome (stored env ev));
  setStoredAttachments processedAttachments ≫= λ _,
  createHumanMessage env sessionId messageId message
    processedAttachments previousMessageId None ≫= λ _,
  replyWorkflow ←
    prepareReplyWorkflow env user sessionId credentials model history
      {| ci_message := message; ci_attachments := processedAttachments |}
      tools tz;
  mret (replyWorkflow, previousMessage).

(** What sendHumanMessage does once the transaction has committed: the
    broadcast, then resuming a waiting execution or starting a new one.
    The test [if (!workflow)] of the source cannot fire on a prepared
    workflow object and is left out. *)
Definition sendHumanMessageLaunch (env : Env) (user : User)
    (payload : HumanMessagePayload)
    (result : PreparedChatWorkflow * option ChatHubMessage) : M unit :=
  let sessionId := hp_sessionId payload in
  let messageId := hp_messageId payload in
  let message := hp_message payload in
  let model := hp_model payload in
  let previousMessageId := hp_previousMessageId payload in
  let '(workflow, previousMessage) := result in
  w ← getWorld;
  let processedAttachments := storedAttachments w in
  call env (SendHumanMessage (user_id user) sessionId messageId
              previousMessageId message
              (map attachmentInfo processedAttachments)) ≫= λ _,
  let resumable :=
    match previousMessage with
    | Some previous =>
        bool_decide (modelProvider model = ProvN8n)
        && bool_decide (pw_responseMode workflow = "responseNodes")
        && bool_decide (msg_status previous = StWaiting)
        && truthyNumber (msg_executionId previous)
    | None => false
    end in
  match previousMessage, resumable with
  | Some previous, true =>
      match msg_executionId previous ≫= findSingleExecution env with
      | None => throw (OperationalError "Chat session has expired.")
      | Some executionId =>
          emit (Debug ("Resuming execution " ++ executionId
                         ++ " from waiting state for session " ++ sessionId))
            ≫= λ _,
          updateChatMessage env (msg_id previous) (withStatus StSuccess)
            ≫= λ _,
          detached (call env (ResumeChatExecution executionId message sessionId
                                messageId model (pw_responseMode workflow)))
      end
  | _, _ =>
      detached (executeChatWorkflowWithCleanup env model workflow sessionId
                  messageId None previousMessageId message processedAttachments)
  end.

Definition sendHumanMessage (env : Env) (user : User)
    (payload : HumanMessagePayload) : M unit :=
  setStoredAttachments [] ≫= λ _,
  result ←
    tryCatch (transaction env (sendHumanMessageTransaction env user payload))
      (cleanupAndRethrow env);
  sendHumanMessageLaunch env user payload result.

(** [originalAttachments[index]] for an index taken from the request. *)
Definition attachmentAt (originalAttachments : list IBinaryData) (index : Z)
  : option IBinaryData :=
  if bool_decide (0 ≤ index) then originalAttachments !! Z.to_nat index
  else None.

Definition keptAttachments (originalAttachments : list IBinaryData)
    (keepAttachmentIndices : list Z) : list IBinaryData :=
  omap (attachmentAt originalAttachments) keepAttachmentIndices.

(** The closure that editMessage runs inside the transaction. *)
Definition editMessageTransaction (env : Env) (user : User)
    (payload : EditMessagePayload)
  : M (option PreparedChatWorkflow * list IBinaryData) :=
  let sessionId := ep_sessionId payload in
  let editId := ep_editId payload in
  let messageId := ep_messageId payload in
  let message := ep_message payload in
  let model := ep_model payload in
  let credentials := ep_credentials payload in
  let tz := nullish (ep_timeZone payload) (genericTimezone env) in
  session ← getChatSession user sessionId;
  match session with
  | None => throw (NotFoundError "Chat session not found")
  | Some session =>
      messageToEdit ← getChatMessage (sess_id (fst session)) editId;
      match msg_type messageToEdit with
      | TyAi =>
          if bool_decide (modelProvider model = ProvN8n) then
            throw (BadRequestError
              "Editing AI messages with n8n workflow agents is not supported")
          else
            updateChatMessage env editId (withContent message) ≫= λ _,
            mret (None, [])
      | TyHuman =>
          let history :=
            messageHistory (snd session)
              (msg_previousMessageId messageToEdit) in
          let revisionOfMessageId :=
            nullish (msg_revisionOfMessageId messageToEdit)
              (msg_id messageToEdit) in
          let originalAttachments :=
            nullish (msg_attachments messageToEdit) [] in
          let kept :=
            keptAttachments originalAttachments
              (ep_keepAttachmentIndices payload) in
          newStoredAttachments ←
            match ep_newAttachments payload return M (list IBinaryData) with
            | [] => mret []
            | newAttachments =>
                let ev := StoreMessageAttachments sessionId messageId
                            newAttachments in
                emit ev ≫= λ _, liftOutcome (stored env ev)
            end;
          setStoredAttachments newStoredAttachments ≫= λ _,
          let attachments := (kept ++ newStoredAttachments)%list in
          createHumanMessage env sessionId messageId message attachments
            (msg_previousMessageId messageToEdit)
            (Some revisionOfMessageId) ≫= λ _,
          workflow ←
            prepareReplyWorkflow env user sessionId credentials model
              history
              {| ci_message := message; ci_attachments := attachments |}
              (sess_tools (fst session)) tz;
          mret (Some workflow, attachments)
      | _ => throw (BadRequestError
               "Only human and AI messages can be edited")
      end
  end.

Definition editMessage (env : Env) (user : User)
    (payload : EditMessagePayload) : M unit :=
  let sessionId := ep_sessionId payload in
  let editId := ep_editId payload in
  let messageId := ep_messageId payload in
  let message := ep_message payload in
  let model := ep_model payload in
  setStoredAttachments [] ≫= λ _,
  result ←
    tryCatch (transaction env (editMessageTransaction env user payload))
      (cleanupAndRethrow env);
  match result with
  | (None, _) => mret tt
  | (Some workflow, combinedAttachments) =>
      call env (SendMessageEdit (user_id user) sessionId editId messageId
                  message (map attachmentInfo combinedAttachments)) ≫= λ _,
      detached (executeChatWorkflowWithCleanup env model workflow sessionId
                  messageId None None "" [])
  end.

(** [history.filter((m) => m.type === 'human').pop()] *)
Definition lastHuman (history : list ChatHubMessage) : option ChatHubMessage :=
  last (List.filter (λ m, bool_decide (msg_type m = TyHuman)) history).

(** [history.indexOf(x)]: the first index holding [x]. The elements of a
    history have pairwise different ids, so comparing the records is
    comparing the objects. *)
Definition indexOf (history : list ChatHubMessage) (x : ChatHubMessage)
  : option nat :=
  fst <$> list_find (λ m, m = x) history.

(** [if (i !== -1) history.splice(i + 1)] *)
Definition truncateAfter (history : list ChatHubMessage) (x : ChatHubMessage)
  : list ChatHubMessage :=
  match indexOf history x with
  | Some i => take (S i) history
  | None => history
  end.

(** The closure that regenerateAIMessage runs inside the transaction. *)
Definition regenerateTransaction (env : Env) (user : User)
    (payload : RegenerateMessagePayload)
  : M (string * string * PreparedChatWorkflow) :=
  let sessionId := rp_sessionId payload in
  let retryId := rp_retryId payload in
  let model := rp_model payload in
  let credentials := rp_credentials payload in
  let tz := nullish (rp_timeZone payload) (genericTimezone env) in
  session ← getChatSession user sessionId;
  match session with
  | None => throw (NotFoundError "Chat session not found")
  | Some session =>
      messageToRetry ← getChatMessage (sess_id (fst session)) retryId;
      if negb (bool_decide (msg_type messageToRetry = TyAi)) then
        throw (BadRequestError "Can only retry AI messages")
      else
        let history :=
          messageHistory (snd session)
            (msg_previousMessageId messageToRetry) in
        match lastHuman history with
        | None => throw (BadRequestError
                    "No human message found to base the retry on")
        | Some lastHumanMessage =>
            let history := truncateAfter history lastHumanMessage in
            let retryOfMessageId :=
              nullish (msg_retryOfMessageId messageToRetry)
                (msg_id messageToRetry) in
            let message := msg_content lastHumanMessage in
            let attachments :=
              nullish (msg_attachments lastHumanMessage) [] in
            workflow ←
              prepareReplyWorkflow env user sessionId credentials model
                history
                {| ci_message := message; ci_attachments := attachments |}
                (sess_tools (fst session)) tz;
            mret (retryOfMessageId, msg_id lastHumanMessage, workflow)
        end
  end.

Definition regenerateAIMessage (env : Env) (user : User)
    (payload : RegenerateMessagePayload) : M unit :=
  result ← transaction env (regenerateTransaction env user payload);
  let '(retryOfMessageId, previousMessageId, workflow) := result in
  detached (executeChatWorkflowWithCleanup env (rp_model payload) workflow
              (rp_sessionId payload) previousMessageId (Some retryOfMessageId)
              None "" []).

Record ReconnectResult := {
  rr_hasActiveStream : bool;
  rr_currentMessageId : option string;
  rr_pendingChunks : list StreamChunk;
  rr_lastSequenceNumber : Z;
}.

Definition reconnectToStream (env : Env) (sessionId : string)
    (lastReceivedSequence : Z) : ReconnectResult :=
  let pendingChunks := getPendingChunks env sessionId lastReceivedSequence in
  {| rr_hasActiveStream := hasActiveStream env sessionId;
     rr_currentMessageId := getCurrentMessageId env sessionId;
     rr_pendingChunks := pendingChunks;
     rr_lastSequenceNumber :=
       match last pendingChunks with
       | Some chunk => sequenceNumber chunk
       | None => lastReceivedSequence
       end |}.

Record ChatHubSessionDto := {
  dto_id : string;
  dto_title : string;
  dto_ownerId : string;
  dto_credentialId : option string;
  dto_provider : ChatHubProvider;
  dto_model : option string;
  dto_workflowId : option string;
  dto_agentId : option string;
  dto_agentName : string;
  dto_agentIcon : option string;
  dto_tools : list string;
}.

(** The timestamps of the entity are left out of the DTO. *)
Definition convertSessionEntityToDto (env : Env) (session : ChatHubSession)
  : ChatHubSessionDto :=
  let agent := sessionAgent env session in
  {| dto_id := sess_id session;
     dto_title := sess_title session;
     dto_ownerId := sess_ownerId session;
     dto_credentialId := sess_credentialId session;
     dto_provider := sess_provider session;
     dto_model := sess_model session;
     dto_workflowId := sess_workflowId session;
     dto_agentId := sess_agentId session;
     dto_agentName :=
       nullish (agent ≫= fst)
         (nullish (sess_agentName session) (nullish (sess_model session) ""));
     dto_agentIcon := agent ≫= snd;
     dto_tools := sess_tools session |}.

Record ChatHubConversationsResponse := {
  cr_data : list ChatHubSessionDto;
  cr_nextCursor : option string;
  cr_hasMore : bool;
}.

(** [sessions.slice(0, limit)] for an integer [limit]; a negative end
    counts from the end of the array. *)
Definition slice0 {A} (l : list A) (limit : Z) : list A :=
  if bool_decide (0 ≤ limit) then take (Z.to_nat limit) l
  else take (Z.to_nat (Z.of_nat (length l) + limit)) l.

Definition getConversations (env : Env) (userId : string) (limit : Z)
    (cursor : option string) : Outcome ChatHubConversationsResponse :=
  let sessions := getManyByUserId env userId (limit + 1) cursor in
  let hasMore := bool_decide (limit < Z.of_nat (length sessions)) in
  let data := if hasMore then slice0 sessions limit else sessions in
  nextCursor ←
    (if hasMore then
       match last data with
       | Some session => Ok (Some (sess_id session))
       | None => Throw (TypeError
                   "Cannot read properties of undefined (reading 'id')")
       end
     else Ok None);
  Ok {| cr_data := map (convertSessionEntityToDto env) data;
        cr_nextCursor := nextCursor;
        cr_hasMore := hasMore |}.

(** *** Notions used to state the properties *)

(** The largest sequence number in a list of chunks. *)
Definition maxSequence (chunks : list StreamChunk) : option Z :=
  foldr (λ c acc, Some (match acc with
                        | Some m => sequenceNumber c `max` m
                        | None => sequenceNumber c
                        end)) None chunks.

(** The contract of getPendingChunks: only chunks after [since], in
    increasing order of sequence number. *)
Definition increasingAfter (since : Z) (chunks : list StreamChunk) : Prop :=
  Forall (λ c, since < sequenceNumber c) chunks ∧
  StronglySorted (λ a b, sequenceNumber a < sequenceNumber b) chunks.


(** The row a lookup by id within a session returns. *)
Definition findMessage (id sessionId : string) (w : World)
  : option ChatHubMessage :=
  List.find (λ m, bool_decide (msg_id m = id ∧ msg_sessionId m = sessionId))
    (messages w).

Definition findSession (sessionId userId : string) (w : World)
  : option ChatHubSession :=
  List.find (λ s, bool_decide (sess_id s = sessionId ∧ sess_ownerId s = userId))
    (sessions w).

Definition withTrace (w : World) (events : list Event) : World :=
  {| sessions := sessions w; messages := messages w;
     trace := trace w ++ events;
     storedAttachments := storedAttachments w |}.

(** [w'] differs from [w] only by calls made to collaborators. *)
Definition outside (w w' : World) : Prop :=
  sessions w' = sessions w ∧ messages w' = messages w ∧
  storedAttachments w' = storedAttachments w ∧
  trace w `prefix_of` trace w'.

Definition outsideOnly {A} (m : M A) : Prop :=
  ∀ w, outside w (snd (m w)).

(** [w'] differs from [w] only by rows written to the store. *)
Definition rowsOnly {A} (m : M A) : Prop :=
  ∀ w, storedAttachments (snd (m w)) = storedAttachments w ∧
       trace (snd (m w)) = trace w.

(** The state in which sendHumanMessage and editMessage enter their
    transaction: the shared variable holds the empty list. *)
Definition resetStored (w : World) : World :=
  {| sessions := sessions w; messages := messages w; trace := trace w;
     storedAttachments := [] |}.

(** What the [catch] block adds to the trace when [attachments] were
    stored: the deletion, and a warning if the deletion itself failed. *)
Definition cleanupEvents (env : Env) (attachments : list IBinaryData)
  : list Event :=
  DeleteAttachments attachments ::
  match fails env (DeleteAttachments attachments) with
  | Some _ => [Warn ("Could not clean up " ++ pretty (length attachments)
                       ++ " files")]
  | None => []
  end.

(** What holds of the shared variable once attachments were stored: it
    holds the list that the store call [ev] returned, and that call is in
    the trace. *)
Definition storedBy (env : Env) (ev : Event) (w : World) : Prop :=
  stored env ev = Ok (storedAttachments w) ∧ ev ∈ trace w.

End Service.

(** ** Sample data *)

Module Samples.
Import Conversation.

Definition mkMessage (id : string) (ty : ChatHubMessageType)
    (content : string) (prev : option string) : ChatHubMessage :=
  {| msg_id := id; msg_sessionId := "s1"; msg_type := ty;
     msg_content := content; msg_previousMessageId := prev;
     msg_retryOfMessageId := None; msg_revisionOfMessageId := None;
     msg_status := StSuccess; msg_executionId := None;
     msg_execution := None; msg_attachments := None |}.

Definition withAttachments (m : ChatHubMessage) (atts : list IBinaryData)
  : ChatHubMessage :=
  {| msg_id := msg_id m; msg_sessionId := msg_sessionId m;
     msg_type := msg_type m; msg_content := msg_content m;
     msg_previousMessageId := msg_previousMessageId m;
     msg_retryOfMessageId := msg_retryOfMessageId m;
     msg_revisionOfMessageId := msg_revisionOfMessageId m;
     msg_status := msg_status m; msg_executionId := msg_executionId m;
     msg_execution := msg_execution m; msg_attachments := Some atts |}.

Definition textFile (name data : string) : IBinaryData :=
  {| bd_id := Some name; bd_fileName := Some name;
     bd_mimeType := "text/plain"; bd_data := data |}.

(** An attachment service that serves the stored bytes. *)
Definition servingFetch : Fetch :=
  {| getAsBuffer := λ a, Ok (bd_data a);
     getDataUrl := λ a, Ok ("data:" ++ bd_mimeType a ++ ";base64," ++ bd_data a);
     getMimeTypeModality := λ _, MdImage;
     getModelMetadata := λ _ _, {| inputModalities := [MdText; MdImage] |} |}.

(** An attachment service whose storage is unreachable. *)
Definition failingFetch : Fetch :=
  {| getAsBuffer := λ _, Throw (ExternalError "ENOENT");
     getDataUrl := λ _, Throw (ExternalError "ENOENT");
     getMimeTypeModality := λ _, MdImage;
     getModelMetadata := λ _ _, {| inputModalities := [MdText; MdImage] |} |}.

(** A text of [n] characters. *)
Fixpoint filler (n : nat) : string :=
  match n with
  | O => EmptyString
  | S n' => String "a"%char (filler n')
  end.


(** A three-message history, oldest first: a very long text, then a
    message with a small text attachment, then a message with a text
    attachment that is larger than the whole budget. *)
Definition smallFile : IBinaryData := textFile "small.txt" "abc".
Definition olderMessage : ChatHubMessage :=
  withAttachments (mkMessage "m2" TyHuman "older" (Some "m1")) [smallFile].



Import Service.

Definition sampleWorkflow : PreparedChatWorkflow :=
  {| pw_workflowData := "workflow"; pw_executionData := "trigger input";
     pw_responseMode := "streaming" |}.

Definition mkSession (id owner : string) (provider : ChatHubProvider)
  : ChatHubSession :=
  {| sess_id := id; sess_ownerId := owner; sess_title := "New Chat";
     sess_provider := provider; sess_model := Some "gpt-4";
     sess_workflowId := None; sess_agentId := None;
     sess_credentialId := None; sess_agentName := None; sess_tools := [] |}.

Definition sampleSessions : list ChatHubSession :=
  [mkSession "s1" "u1" (ProvLLM "openai");
   mkSession "s2" "u1" (ProvLLM "openai");
   mkSession "s3" "u1" (ProvLLM "openai")].

Definition sampleBuffer : list StreamChunk :=
  [{| sequenceNumber := 1; chunk_content := "Hel" |};
   {| sequenceNumber := 2; chunk_content := "lo " |};
   {| sequenceNumber := 3; chunk_content := "wor" |};
   {| sequenceNumber := 4; chunk_content := "ld" |}].

(** Collaborators that all succeed. *)
Definition quietEnv : Env :=
  {| fetch := servingFetch;
     stored := λ ev,
       match ev with
       | StoreMessageAttachments _ _ atts => Ok atts
       | _ => Ok []
       end;
     prepared := λ _, Ok sampleWorkflow;
     fails := λ _, None;
     dbFails := λ _, None;
     getAgentById := λ _ _, None;
     getAgentMemoryKey := λ userId agentId, userId ++ ":" ++ agentId;
     determineEmbeddingProvider := λ _ _ _ _, Ok None;
     findWorkflowForUser := λ _ _, None;
     findSingleExecution := λ _, None;
     hasActiveStream := λ _, true;
     getCurrentMessageId := λ _, Some "m2";
     getPendingChunks := λ _ since,
       List.filter (λ c, bool_decide (since < sequenceNumber c)) sampleBuffer;
     getManyByUserId := λ _ limit _, take (Z.to_nat limit) sampleSessions;
     sessionAgent := λ _, None;
     getSystemMessage := λ tz, "The time zone is " ++ tz;
     credentialTypeOf := λ provider, provider ++ "Api";
     genericTimezone := "UTC" |}.

(** The same collaborators, except that inserting a message row fails and
    that deleting attachments fails too. *)
Definition brokenEnv : Env :=
  {| fetch := fetch quietEnv;
     stored := stored quietEnv;
     prepared := prepared quietEnv;
     fails := λ ev,
       match ev with
       | DeleteAttachments _ => Some (ExternalError "unlink failed")
       | _ => None
       end;
     dbFails := λ wr,
       match wr with
       | InsertMessage _ => Some (ExternalError "insert failed")
       | _ => None
       end;
     getAgentById := getAgentById quietEnv;
     getAgentMemoryKey := getAgentMemoryKey quietEnv;
     determineEmbeddingProvider := determineEmbeddingProvider quietEnv;
     findWorkflowForUser := findWorkflowForUser quietEnv;
     findSingleExecution := findSingleExecution quietEnv;
     hasActiveStream := hasActiveStream quietEnv;
     getCurrentMessageId := getCurrentMessageId quietEnv;
     getPendingChunks := getPendingChunks quietEnv;
     getManyByUserId := getManyByUserId quietEnv;
     sessionAgent := sessionAgent quietEnv;
     getSystemMessage := getSystemMessage quietEnv;
     credentialTypeOf := credentialTypeOf quietEnv;
     genericTimezone := genericTimezone quietEnv |}.

Definition sampleUser : User := {| user_id := "u1" |}.

(** An AI reply that is being generated by execution 7. *)
Definition runningReply : ChatHubMessage :=
  {| msg_id := "m2"; msg_sessionId := "s1"; msg_type := TyAi;
     msg_content := "Hel"; msg_previousMessageId := Some "m1";
     msg_retryOfMessageId := None; msg_revisionOfMessageId := None;
     msg_status := StRunning; msg_executionId := Some 7;
     msg_execution := Some {| exec_id := "7"; exec_workflowId := "wf1" |};
     msg_attachments := None |}.

Definition sampleWorld : World :=
  {| sessions := sampleSessions;
     messages := [mkMessage "m1" TyHuman "Hello" None; runningReply];
     trace := []; storedAttachments := [] |}.

Definition samplePayload : HumanMessagePayload :=
  {| hp_sessionId := "s1"; hp_messageId := "m3";
     hp_message := "And this file?";
     hp_model := LLMModel "openai" "gpt-4"; hp_credentials := ∅;
     hp_previousMessageId := Some "m2"; hp_tools := [];
     hp_attachments := [smallFile]; hp_timeZone := None;
     hp_agentName := None |}.

Definition sampleEdit : EditMessagePayload :=
  {| ep_sessionId := "s1"; ep_editId := "m1"; ep_messageId := "m4";
     ep_message := "Hello again";
     ep_model := LLMModel "openai" "gpt-4"; ep_credentials := ∅;
     ep_timeZone := None; ep_keepAttachmentIndices := [0];
     ep_newAttachments := [smallFile] |}.

(** A session bound to a hosted workflow, with one exchange. *)
Definition n8nWorld : World :=
  {| sessions := [mkSession "s1" "u1" ProvN8n];
     messages := [mkMessage "m1" TyHuman "Hello" None;
                  mkMessage "m2" TyAi "Hi there" (Some "m1")];
     trace := []; storedAttachments := [] |}.

(** A request to edit the AI message m2 that names a raw model. *)
Definition aiEdit : EditMessagePayload :=
  {| ep_sessionId := "s1"; ep_editId := "m2"; ep_messageId := "m5";
     ep_message := "Hi there!";
     ep_model := LLMModel "openai" "gpt-4"; ep_credentials := ∅;
     ep_timeZone := None; ep_keepAttachmentIndices := [];
     ep_newAttachments := [] |}.

(** A human message, a failed AI attempt answering it, and a retry of that
    attempt: m1 ← m2 ← m3. *)
Definition retryWorld : World :=
  {| sessions := sampleSessions;
     messages := [mkMessage "m1" TyHuman "Hello" None;
                  mkMessage "m2" TyAi "(failed)" (Some "m1");
                  mkMessage "m3" TyAi "Hi" (Some "m2")];
     trace := []; storedAttachments := [] |}.

Definition retryPayload : RegenerateMessagePayload :=
  {| rp_sessionId := "s1"; rp_retryId := "m3";
     rp_model := LLMModel "openai" "gpt-4"; rp_credentials := ∅;
     rp_timeZone := None |}.

End Samples.

(** ** Sessions: updating and reading a conversation *)

Module Sessions.
Import Conversation Service.

(** [updates.agent] of a ChatHubUpdateConversationRequest. *)
Record AgentUpdate := {
  au_model : ChatHubConversationModel;
  au_name : string;
}.

(** The request of updateSession; a key that is [undefined] is [None], so
    a [credentialId] that is present and [null] is [Some None]. *)
Record ChatHubUpdateConversationRequest := {
  up_agent : option AgentUpdate;
  up_title : option string;
  up_credentialId : option (option string);
  up_tools : option (list string);
}.

(** [Partial<IChatHubSession>]: the columns that the update sets. *)
Record SessionUpdates := {
  su_agentName : option string;
  su_provider : option ChatHubProvider;
  su_model : option (option string);
  su_credentialId : option (option string);
  su_agentId : option (option string);
  su_workflowId : option (option string);
  su_title : option string;
  su_tools : option (list string);
}.

(** [const sessionUpdates = {}] *)
Definition noUpdates : SessionUpdates :=
  {| su_agentName := None; su_provider := None; su_model := None;
     su_credentialId := None; su_agentId := None; su_workflowId := None;
     su_title := None; su_tools := None |}.

(** The assignments of the [if (updates.agent)] block. *)
Definition agentUpdates (agent : AgentUpdate) : SessionUpdates :=
  let model := au_model agent in
  {| su_agentName := Some (au_name agent);
     su_provider := Some (modelProvider model);
     su_model := Some (match model with
                       | N8nModel _ | CustomAgentModel _ => None
                       | LLMModel _ name => Some name
                       end);
     su_credentialId := Some None;
     su_agentId := Some (match model with
                         | CustomAgentModel agentId => Some agentId
                         | _ => None
                         end);
     su_workflowId := Some (match model with
                            | N8nModel workflowId => Some workflowId
                            | _ => None
                            end);
     su_title := None; su_tools := None |}.

(** The three [if (updates.x !== undefined) sessionUpdates.x = updates.x]
    assignments, made after those of the agent. *)
Definition requestUpdates (updates : ChatHubUpdateConversationRequest)
    (sessionUpdates : SessionUpdates) : SessionUpdates :=
  {| su_agentName := su_agentName sessionUpdates;
     su_provider := su_provider sessionUpdates;
     su_model := su_model sessionUpdates;
     su_credentialId :=
       match up_credentialId updates with
       | Some credentialId => Some credentialId
       | None => su_credentialId sessionUpdates
       end;
     su_agentId := su_agentId sessionUpdates;
     su_workflowId := su_workflowId sessionUpdates;
     su_title :=
       match up_title updates with
       | Some title => Some title
       | None => su_title sessionUpdates
       end;
     su_tools :=
       match up_tools updates with
       | Some tools => Some tools
       | None => su_tools sessionUpdates
       end |}.

(** Modelled from the spec: ChatHubSessionRepository.updateChatSession is
    not in the sources at hand; it sets the given columns on the session
    row with the given id and leaves every other row and column as it
    is. *)
Definition applyUpdates (u : SessionUpdates) (s : ChatHubSession)
  : ChatHubSession :=
  {| sess_id := sess_id s; sess_ownerId := sess_ownerId s;
     sess_title := default (sess_title s) (su_title u);
     sess_provider := default (sess_provider s) (su_provider u);
     sess_model := default (sess_model s) (su_model u);
     sess_workflowId := default (sess_workflowId s) (su_workflowId u);
     sess_agentId := default (sess_agentId s) (su_agentId u);
     sess_credentialId := default (sess_credentialId s) (su_credentialId u);
     sess_agentName :=
       match su_agentName u with
       | Some name => Some name
       | None => sess_agentName s
       end;
     sess_tools := default (sess_tools s) (su_tools u) |}.

Definition updateSessionRows (id : string) (u : SessionUpdates)
    (rows : list ChatHubSession) : list ChatHubSession :=
  map (λ s, if bool_decide (sess_id s = id) then applyUpdates u s else s) rows.

(** [sessionRepository.updateChatSession(sessionId, sessionUpdates)];
    [updateFails] is the failing write. *)
Definition updateChatSession (updateFails : SessionUpdates → option Error)
    (id : string) (u : SessionUpdates) : M unit :=
  failWith (updateFails u) ≫= λ _,
  w ← getWorld;
  setSessions (updateSessionRows id u (sessions w)).

(** The result of the repository call, which the source hands back to its
    caller, is left out. *)
Definition updateSession (env : Env)
    (updateFails : SessionUpdates → option Error) (user : User)
    (sessionId : string) (updates : ChatHubUpdateConversationRequest)
  : M unit :=
  ensureConversation (user_id user) sessionId ≫= λ _,
  sessionUpdates ←
    match up_agent updates with
    | Some agent =>
        ensureValidModel env user (au_model agent) ≫= λ _,
        mret (agentUpdates agent)
    | None => mret noUpdates
    end;
  updateChatSession updateFails sessionId
    (requestUpdates updates sessionUpdates).

(** The DTO of a message; the columns that the embedding of the message
    entity leaves out (name, model columns, timestamps) are left out here
    too. An attachment is reduced to its file name and MIME type. *)
Record ChatHubMessageDto := {
  md_id : string;
  md_sessionId : string;
  md_type : ChatHubMessageType;
  md_content : string;
  md_executionId : option Z;
  md_status : ChatHubMessageStatus;
  md_previousMessageId : option string;
  md_retryOfMessageId : option string;
  md_revisionOfMessageId : option string;
  md_attachments : list (option string * string);
}.

Definition convertMessageToDto (message : ChatHubMessage) : ChatHubMessageDto :=
  {| md_id := msg_id message;
     md_sessionId := msg_sessionId message;
     md_type := msg_type message;
     md_content := msg_content message;
     md_executionId := msg_executionId message;
     md_status := msg_status message;
     md_previousMessageId := msg_previousMessageId message;
     md_retryOfMessageId := msg_retryOfMessageId message;
     md_revisionOfMessageId := msg_revisionOfMessageId message;
     md_attachments :=
       map (λ a, (bd_fileName a, bd_mimeType a))
         (nullish (msg_attachments message) []) |}.

Record ChatHubConversationResponse := {
  resp_session : ChatHubSessionDto;
  resp_messages : gmap string ChatHubMessageDto;
}.

(** [Object.fromEntries(messages.map((m) => [m.id, convertMessageToDto(m)]))] *)
Definition messagesById (messages : list ChatHubMessage)
  : gmap string ChatHubMessageDto :=
  foldl (λ acc m, <[msg_id m := convertMessageToDto m]> acc) ∅ messages.

Definition getConversation (env : Env) (userId sessionId : string)
  : M ChatHubConversationResponse :=
  session ← sessionGetOneById sessionId userId;
  match session with
  | None => throw (NotFoundError "Chat session not found")
  | Some session =>
      let messages := nullish (snd session) [] in
      mret {| resp_session := convertSessionEntityToDto env (fst session);
              resp_messages := messagesById messages |}
  end.

End Sessions.

(** ** Notions used to state further properties *)

Module Notions.
Import Conversation Service Sessions.


(** The messages that the history builder does not skip. *)
Definition replayable (history : list ChatHubMessage) : list ChatHubMessage :=
  filter (λ m, len (msg_content m) ≠ 0) history.

(** [r] is an entry built for message [m]: same role, shown in the UI, the
    plain text of [m] when it has no attachment, and otherwise the text of
    [m] followed by one or two blocks per attachment. *)
Definition entryFor (m : ChatHubMessage) (r : MessageRecord) : Prop :=
  mr_type r = typeMap (msg_type m) ∧ mr_hideFromUI r = false ∧
  match nullish (msg_attachments m) [] with
  | [] => mr_message r = PlainText (msg_content m)
  | attachments =>
      ∃ blocks, mr_message r = Blocks (TextBlock (msg_content m) :: blocks) ∧
                (length attachments ≤ length blocks ≤ 2 * length attachments)%nat
  end.

(** The hidden entry that carries the context files. *)
Definition contextEntry (n : nat) (r : MessageRecord) : Prop :=
  mr_type r = RtUser ∧ mr_hideFromUI r = true ∧
  ∃ blocks, mr_message r = Blocks blocks ∧
            (n ≤ length blocks ≤ 2 * n)%nat.

(** The blocks of an entry; a plain entry has none. *)
Definition entryBlocks (r : MessageRecord) : list ContentBlock :=
  match mr_message r with
  | PlainText _ => []
  | Blocks blocks => blocks
  end.

(** Every attachment the history builder may fetch: those of the messages
    and the inline context files. *)
Definition fetchable (history : list ChatHubMessage)
    (contextFiles : list ChatHubAgentKnowledgeItem) : list IBinaryData :=
  (history ≫= λ m, nullish (msg_attachments m) [])
    ++ omap (λ file, match file with
                     | FileItem a => Some a
                     | EmbeddingItem _ _ => None
                     end) contextFiles.

(** The attachment service threw [e] when asked for [a]. *)
Definition fetchFailed (f : Fetch) (e : Error) (a : IBinaryData) : Prop :=
  getAsBuffer f a = Throw e ∨ getDataUrl f a = Throw e.

(** A media block is justified by an attachment [a] of the given list: it
    is the data URL of [a], [a] is not a text file and the model accepts
    its modality. *)
Definition mediaFrom (f : Fetch) (md : ChatModelMetadataDto)
    (attachments : list IBinaryData) (b : ContentBlock) : Prop :=
  match b with
  | TextBlock _ => True
  | ImageUrlBlock url =>
      ∃ a, a ∈ attachments ∧ getDataUrl f a = Ok url ∧
           isTextFile (bd_mimeType a) = false ∧
           getMimeTypeModality f (bd_mimeType a) ∈ inputModalities md
  end.

(** A conversation without branches, oldest first: the first message has
    no parent and every other message names the one before it. *)
Fixpoint linkedFrom (previous : option string) (rows : list ChatHubMessage)
  : Prop :=
  match rows with
  | [] => True
  | m :: rest =>
      msg_previousMessageId m = previous ∧ msg_id m ≠ "" ∧
      linkedFrom (Some (msg_id m)) rest
  end.

Definition linear (rows : list ChatHubMessage) : Prop :=
  linkedFrom None rows ∧ NoDup (msg_id <$> rows).

(** What the private executeChatWorkflowWithCleanup adds to the trace
    after the execution request: the title request, when the execution
    call returned and the message is a non-empty first message, and a
    warning when the title request threw. *)
Definition titleEvents (env : Env) (model : ChatHubConversationModel)
    (workflow : PreparedChatWorkflow) (sessionId previousMessageId : string)
    (retryOfMessageId originalPreviousMessageId : option string)
    (humanMessage : string) (processedAttachments : list IBinaryData)
  : list Event :=
  let title := GenerateSessionTitle sessionId humanMessage
                 processedAttachments model in
  match fails env (ExecuteChatWorkflow model workflow sessionId
                     previousMessageId retryOfMessageId),
        originalPreviousMessageId with
  | None, None =>
      if bool_decide (humanMessage ≠ "") then
        title ::
        match fails env title with
        | Some error => [Warn ("Title generation failed: " ++ errorText error)]
        | None => []
        end
      else []
  | _, _ => []
  end.

(** The model may start a session of the user: a workflow of the user
    with an active version that holds a chat trigger, an agent of the
    user, or any pair of provider and model. *)
Definition validModel (env : Env) (user : User)
    (model : ChatHubConversationModel) : Prop :=
  match model with
  | N8nModel workflowId =>
      ∃ nodes, findWorkflowForUser env workflowId (user_id user)
               = Some (Some nodes) ∧
               CHAT_TRIGGER_NODE_TYPE ∈ nodes
  | CustomAgentModel agentId =>
      is_Some (getAgentById env (user_id user) agentId)
  | LLMModel _ _ => True
  end.

(** The providers of the embedded knowledge files of an agent. *)
Definition embeddingProviders (files : list ChatHubAgentKnowledgeItem)
  : list string :=
  omap (λ file, match file with
                | EmbeddingItem _ provider => Some provider
                | FileItem _ => None
                end) files.

(** The previous message is a question of a hosted workflow that waits
    for its answer. *)
Definition awaitsInput (model : ChatHubConversationModel)
    (workflow : PreparedChatWorkflow) (previous : ChatHubMessage) : Prop :=
  modelProvider model = ProvN8n ∧ pw_responseMode workflow = "responseNodes" ∧
  msg_status previous = StWaiting ∧
  truthyNumber (msg_executionId previous) = true.

(** Two session rows are bound to the same reply source. *)
Definition sameBinding (s1 s2 : ChatHubSession) : Prop :=
  sess_provider s1 = sess_provider s2 ∧ sess_model s1 = sess_model s2 ∧
  sess_workflowId s1 = sess_workflowId s2 ∧ sess_agentId s1 = sess_agentId s2.

Definition isResume (ev : Event) : bool :=
  match ev with
  | ResumeChatExecution _ _ _ _ _ _ => true
  | _ => false
  end.

Definition isExecute (ev : Event) : bool :=
  match ev with
  | ExecuteChatWorkflow _ _ _ _ _ => true
  | _ => false
  end.

End Notions.

(** ** Further sample data *)

Module Cases.
Import Conversation Service Sessions Samples.

Definition photo : IBinaryData :=
  {| bd_id := Some "photo.png"; bd_fileName := Some "photo.png";
     bd_mimeType := "image/png"; bd_data := "iVBOR" |}.

(** An exchange without attachments whose reply is still empty. *)
Definition plainHistory : list ChatHubMessage :=
  [mkMessage "m1" TyHuman "Hello" None;
   mkMessage "m2" TyAi "" (Some "m1");
   mkMessage "m3" TyHuman "Anyone?" (Some "m2")].

(** An exchange whose last message carries a text file and an image. *)
Definition illustratedMessage : ChatHubMessage :=
  withAttachments (mkMessage "m2" TyHuman "Look" (Some "m1")) [smallFile; photo].

Definition illustratedHistory : list ChatHubMessage :=
  [mkMessage "m1" TyHuman "Hello" None; illustratedMessage].





(** A message that names a parent which is not in the session. *)
Definition danglingPayload : HumanMessagePayload :=
  {| hp_sessionId := "s1"; hp_messageId := "m3"; hp_message := "Hello?";
     hp_model := LLMModel "openai" "gpt-4"; hp_credentials := ∅;
     hp_previousMessageId := Some "m9"; hp_tools := [];
     hp_attachments := [smallFile]; hp_timeZone := None;
     hp_agentName := None |}.

(** An agent of user u1 with an embedded document and an inline file. *)
Definition librarian : ChatHubAgent :=
  {| agent_id := "a1"; agent_provider := "openai"; agent_model := "gpt-4";
     agent_credentialId := Some "cred1";
     agent_systemPrompt := "You answer from the library.";
     agent_files := [FileItem smallFile;
                     EmbeddingItem (Some "catalogue.pdf") "openai"] |}.

(** The collaborators of [quietEnv], with the agent, a waiting execution
    that is still there, and an embedding provider for every credential. *)
Definition agentEnv : Env :=
  {| fetch := fetch quietEnv;
     stored := stored quietEnv;
     prepared := prepared quietEnv;
     fails := fails quietEnv;
     dbFails := dbFails quietEnv;
     getAgentById := λ userId agentId,
       if bool_decide (userId = "u1" ∧ agentId = "a1") then Some librarian
       else None;
     getAgentMemoryKey := getAgentMemoryKey quietEnv;
     determineEmbeddingProvider := λ _ _ _ provider, Ok (Some provider);
     findWorkflowForUser := findWorkflowForUser quietEnv;
     findSingleExecution := λ _, Some "7";
     hasActiveStream := hasActiveStream quietEnv;
     getCurrentMessageId := getCurrentMessageId quietEnv;
     getPendingChunks := getPendingChunks quietEnv;
     getManyByUserId := getManyByUserId quietEnv;
     sessionAgent := sessionAgent quietEnv;
     getSystemMessage := getSystemMessage quietEnv;
     credentialTypeOf := credentialTypeOf quietEnv;
     genericTimezone := genericTimezone quietEnv |}.

(** A conversation that starts with a system message. *)
Definition systemWorld : World :=
  {| sessions := sampleSessions;
     messages := [mkMessage "m0" TySystem "Be brief." None;
                  mkMessage "m1" TyHuman "Hello" (Some "m0")];
     trace := []; storedAttachments := [] |}.

Definition systemEdit : EditMessagePayload :=
  {| ep_sessionId := "s1"; ep_editId := "m0"; ep_messageId := "m4";
     ep_message := "Be verbose.";
     ep_model := LLMModel "openai" "gpt-4"; ep_credentials := ∅;
     ep_timeZone := None; ep_keepAttachmentIndices := [];
     ep_newAttachments := [] |}.

(** A request to hand the session to the agent and rename it. *)
Definition toLibrarian : ChatHubUpdateConversationRequest :=
  {| up_agent := Some {| au_model := CustomAgentModel "a1";
                         au_name := "Librarian" |};
     up_title := Some "Library"; up_credentialId := None; up_tools := None |}.

Definition writesFail : SessionUpdates → option Error :=
  λ _, Some (ExternalError "connection lost").

Definition writesSucceed : SessionUpdates → option Error := λ _, None.

End Cases.

(** * Properties *)

(** ** buildMessageHistory *)

Section history_props.
Import History.
Context (messages : gmap string ChatHubMessage).




Lemma size_difference_lt (X V : gset string) c :
  c ∈ X → c ∉ V → (size (X ∖ ({[c]} ∪ V)) < size (X ∖ V))%nat.
Proof.
  intros Hin Hout. apply subset_size. split; [set_solver|].
  intros Hsub. assert (c ∈ X ∖ ({[c]} ∪ V)) by set_solver. set_solver.
Qed.

Lemma walk_None fuel visited acc :
  walk fuel messages visited acc None = Some acc.
Proof. by destruct fuel. Qed.


(** Loop invariant: from a collected chain whose head's parent is
    [current], enough fuel lets the loop finish on a chain that extends
    it and at whose head the loop condition fails. *)
Lemma walk_Chain start fuel : ∀ acc current,
  Chain messages start acc →
  head acc ≫= parent messages = current →
  (size (dom messages ∖ list_to_set acc) < fuel)%nat →
  ∃ ids, walk fuel messages (list_to_set acc) acc current = Some ids ∧
         Chain messages start ids ∧ stopped messages ids ∧ acc `suffix_of` ids.
Proof.
  induction fuel as [|fuel IH]; intros acc current Hc Hcur Hfuel; [lia|].
  destruct acc as [|h t]; [inversion Hc|]. simpl in Hcur.
  destruct current as [c|]; last first.
  { exists (h :: t). split; [done|]. split; [done|]. split; [|done].
    exists h. split; [done|]. left. by rewrite Hcur. }
  simpl walk.
  destruct (bool_decide (c ≠ "")) eqn:Hne; simpl; last first.
  { exists (h :: t). split; [done|]. split; [done|]. split; [|done].
    exists h. split; [done|]. left. rewrite Hcur. simpl. by rewrite Hne. }
  apply bool_decide_eq_true in Hne.
  destruct (bool_decide (c ∉ _)) eqn:Hvis; simpl; last first.
  { apply bool_decide_eq_false in Hvis.
    exists (h :: t). split; [done|]. split; [done|]. split; [|done].
    exists h. split; [done|]. right. exists c. split; [done|].
    apply dec_stable in Hvis. set_solver. }
  apply bool_decide_eq_true in Hvis.
  assert (Hfresh : c ∉ h :: t) by set_solver.
  assert (Hc' : Chain messages start (c :: h :: t)) by by constructor.
  destruct (messages !! c) as [m|] eqn:Hm.
  - destruct (IH (c :: h :: t) (parent messages c) Hc' eq_refl)
      as (ids & Hw & Hids & Hstop & Hsuf).
    + assert (c ∈ dom messages) as Hdom by (apply elem_of_dom; eauto).
      pose proof (size_difference_lt (dom messages) (list_to_set (h :: t)) c
                    Hdom Hvis) as Hlt.
      simpl in *. lia.
    + exists ids. split; [exact Hw|]. split; [done|]. split; [done|].
      etrans; [|exact Hsuf]. by apply suffix_cons_r.
  - assert (Hp : parent messages c = None) by (unfold parent; by rewrite Hm).
    rewrite Hp. change ({[c]} ∪ list_to_set (h :: t))
      with (list_to_set (C:=gset string) (c :: h :: t)).
    rewrite walk_None. exists (c :: h :: t).
    split; [done|]. split; [done|]. split; [|by apply suffix_cons_r].
    exists c. split; [done|]. left. by rewrite Hp.
Qed.

(** The loop as the source starts it: it finishes within
    [size messages + 1] iterations. *)
Lemma historyIds_Chain (start : string) :
  start ≠ "" →
  ∃ ids, historyIds messages (Some start) = Some ids ∧
         Chain messages start ids ∧ stopped messages ids.
Proof.
  intros Hne. unfold historyIds. simpl walk.
  rewrite (bool_decide_true (start ≠ "")) by done.
  rewrite bool_decide_true by set_solver. simpl.
  destruct (messages !! start) as [m|] eqn:Hm.
  - destruct (walk_Chain start (size messages) [start] (parent messages start))
      as (ids & Hw & Hc & Hs & _).
    + by constructor.
    + done.
    + assert (start ∈ dom messages) as Hdom by (apply elem_of_dom; eauto).
      pose proof (size_difference_lt (dom messages) ∅ start Hdom) as Hlt.
      rewrite <- (size_dom messages).
      assert (dom messages ∖ ∅ = dom messages) as Hd by set_solver.
      rewrite Hd in Hlt. simpl. apply Hlt. set_solver.
    + exists ids. split; [exact Hw|done].
  - assert (Hp : parent messages start = None) by (unfold parent; by rewrite Hm).
    rewrite Hp, walk_None. exists [start]. split; [done|].
    split; [by constructor|]. exists start. split; [done|]. left. by rewrite Hp.
Qed.




End history_props.

(** The manufactured cycle A→B→A, walked from A: the walk stops when it
    meets A again and returns B then A. *)
Example buildMessageHistory_cycle :
  let a := Samples.mkMessage "A" TyHuman "hi" (Some "B") in
  let b := Samples.mkMessage "B" TyAi "hello" (Some "A") in
  History.buildMessageHistory (History.fromEntries [a; b]) (Some "A")
  = Some [b; a].
Proof. vm_compute. reflexivity. Qed.

(** A dangling link: C names a parent that is not in the mapping. *)
Example buildMessageHistory_dangling :
  let c := Samples.mkMessage "C" TyHuman "hi" (Some "gone") in
  History.buildMessageHistory (History.fromEntries [c]) (Some "C") = Some [c].
Proof. vm_compute. reflexivity. Qed.

(** ** buildContentBlockForAttachment *)

Section attachment_props.
Import Conversation.
Context (f : Fetch).



End attachment_props.


(** ** buildConversationHistory: sizes *)

Section size_props.
Import Conversation.
Context (f : Fetch).


















End size_props.

(** ** buildConversationHistory: what happens once the budget is reached *)

Section saturation_props.
Import Conversation.
Local Open Scope list_scope.
Context (f : Fetch).










End saturation_props.

(** ** buildConversationHistory: one step at a time *)

Section step_props.
Import Conversation.
Local Open Scope list_scope.
Context (f : Fetch).






End step_props.

(** ** buildConversationHistory: the budget *)

Section budget_props.
Import Conversation.
Local Open Scope list_scope.




End budget_props.

Section budget_examples.
Import Conversation.
Local Open Scope list_scope.





End budget_examples.

(** ** reconnectToStream *)

Section stream_props.
Import Service.
Local Open Scope list_scope.

Lemma maxSequence_last since chunks :
  increasingAfter since chunks →
  maxSequence chunks = sequenceNumber <$> last chunks.
Proof.
  intros [_ Hsorted].
  induction chunks as [|c chunks IH]; [done|].
  apply StronglySorted_inv in Hsorted as [Hrest Hall].
  cbn [maxSequence foldr]. fold (maxSequence chunks). rewrite (IH Hrest).
  destruct chunks as [|c' chunks]; [done|].
  rewrite last_cons_cons.
  destruct (last (c' :: chunks)) as [l|] eqn:Hlast;
    [|by apply last_None in Hlast].
  simpl. f_equal.
  apply last_Some_elem_of in Hlast.
  rewrite Forall_forall in Hall. specialize (Hall _ Hlast). lia.
Qed.

Lemma sorted_le_last chunks l c :
  StronglySorted (λ a b, sequenceNumber a < sequenceNumber b) chunks →
  last chunks = Some l → c ∈ chunks →
  sequenceNumber c ≤ sequenceNumber l.
Proof.
  induction chunks as [|c0 chunks IH]; intros Hsorted Hlast Hc; [done|].
  apply StronglySorted_inv in Hsorted as [Hrest Hall].
  destruct chunks as [|c1 chunks].
  - simpl in Hlast. apply list_elem_of_singleton in Hc. simplify_eq. lia.
  - rewrite last_cons_cons in Hlast.
    apply elem_of_cons in Hc as [->|Hc]; [|by apply IH].
    apply last_Some_elem_of in Hlast.
    rewrite Forall_forall in Hall. specialize (Hall _ Hlast). lia.
Qed.

(** C9. The result carries the pending chunks that the stream service
    returned for [lastReceivedSequence]; [lastSequenceNumber] is the
    sequence number of the last of them, and [lastReceivedSequence] when
    there is none. When the service
    honours its contract (only chunks after [lastReceivedSequence], in
    increasing order), [lastSequenceNumber] is the largest sequence number
    among the pending chunks, or [lastReceivedSequence] when there is none,
    and it is never below [lastReceivedSequence]. *)
Theorem reconnectToStream_lastSequenceNumber (env : Env) (sessionId : string)
    (lastReceivedSequence : Z) :
  let r := reconnectToStream env sessionId lastReceivedSequence in
  rr_pendingChunks r = getPendingChunks env sessionId lastReceivedSequence ∧
  rr_lastSequenceNumber r
    = default lastReceivedSequence
        (sequenceNumber <$> last (rr_pendingChunks r)) ∧
  (rr_pendingChunks r = [] → rr_lastSequenceNumber r = lastReceivedSequence) ∧
  (increasingAfter lastReceivedSequence (rr_pendingChunks r) →
     rr_lastSequenceNumber r
       = default lastReceivedSequence (maxSequence (rr_pendingChunks r)) ∧
     (∀ c, c ∈ rr_pendingChunks r → sequenceNumber c ≤ rr_lastSequenceNumber r) ∧
     lastReceivedSequence ≤ rr_lastSequenceNumber r).
Proof.
  cbn [reconnectToStream rr_pendingChunks rr_lastSequenceNumber].
  set (chunks := getPendingChunks env sessionId lastReceivedSequence).
  split; [done|]. split; [by destruct (last chunks)|].
  split; [by intros ->|].
  intros Hinc. rewrite (maxSequence_last _ _ Hinc).
  destruct Hinc as [Hafter Hsorted].
  destruct (last chunks) as [l|] eqn:Hlast; simpl.
  - split; [done|].
    assert (l ∈ chunks) as Hin by by apply last_Some_elem_of.
    split.
    + intros c Hc. by eapply sorted_le_last.
    + rewrite Forall_forall in Hafter. specialize (Hafter _ Hin). lia.
  - apply last_None in Hlast. rewrite Hlast. split; [done|]. split; [|lia].
    intros c Hc. set_solver.
Qed.

End stream_props.

Lemma reconnectToStream_lastSequenceNumber_witness :
  Service.increasingAfter 2
    (Service.rr_pendingChunks
       (Service.reconnectToStream Samples.quietEnv "s1" 2)) ∧
  Service.rr_lastSequenceNumber
    (Service.reconnectToStream Samples.quietEnv "s1" 2) = 4 ∧
  2 ≤ Service.rr_lastSequenceNumber
        (Service.reconnectToStream Samples.quietEnv "s1" 2).
Proof.
  assert (Service.increasingAfter 2
            (Service.rr_pendingChunks
               (Service.reconnectToStream Samples.quietEnv "s1" 2))) as Hinc.
  { split.
    - repeat constructor.
    - repeat constructor. }
  destruct (reconnectToStream_lastSequenceNumber Samples.quietEnv "s1" 2)
    as (_ & _ & _ & Hmax).
  destruct (Hmax Hinc) as (Heq & _ & Hle).
  split; [exact Hinc|]. split; [exact Heq|exact Hle].
Defined.

(** ** getConversations *)

Section listing_props.
Import Service.
Local Open Scope list_scope.

(** C10. For a positive limit the method asks the repository for
    [limit + 1] sessions and succeeds; [hasMore] tells whether more than
    [limit] came back; the data are the first [limit] of them in that case
    and all of them otherwise, so never more than [limit]; [nextCursor] is
    the id of the last returned session when [hasMore], and null
    otherwise. *)
Theorem getConversations_page (env : Env) (userId : string) (limit : Z)
    (cursor : option string) :
  0 < limit →
  let found := getManyByUserId env userId (limit + 1) cursor in
  let more := bool_decide (limit < Z.of_nat (length found)) in
  let page := if more then take (Z.to_nat limit) found else found in
  ∃ response,
    getConversations env userId limit cursor = Ok response ∧
    cr_hasMore response = more ∧
    cr_data response = map (convertSessionEntityToDto env) page ∧
    Z.of_nat (length (cr_data response)) ≤ limit ∧
    cr_nextCursor response = (if more then sess_id <$> last page else None) ∧
    (more = true → is_Some (cr_nextCursor response)).
Proof.
  intros Hlimit found more page. unfold getConversations.
  fold found. fold more. unfold slice0.
  rewrite (bool_decide_true (0 ≤ limit)) by lia. fold page.
  assert (Z.of_nat (length page) ≤ limit) as Hlen.
  { subst page more. case_bool_decide; [|lia]. rewrite length_take. lia. }
  destruct more eqn:Hmore.
  - assert (page ≠ []) as Hne.
    { subst page. subst more. apply bool_decide_eq_true in Hmore.
      intros Hnil. apply (f_equal length) in Hnil.
      rewrite length_take in Hnil. simpl in Hnil. lia. }
    destruct (last page) as [l|] eqn:Hlast;
      [|by apply last_None in Hlast].
    eexists. split; [reflexivity|]. cbn.
    rewrite length_map. repeat split; eauto.
  - eexists. split; [reflexivity|]. cbn.
    rewrite length_map. repeat split; eauto. done.
Qed.

End listing_props.

Lemma getConversations_page_witness :
  0 < 2 ∧
  ∃ response,
    Service.getConversations Samples.quietEnv "u1" 2 None = Ok response ∧
    Service.cr_hasMore response = true ∧
    Service.cr_nextCursor response = Some "s2" ∧
    Z.of_nat (length (Service.cr_data response)) ≤ 2.
Proof.
  split; [lia|].
  destruct (getConversations_page Samples.quietEnv "u1" 2 None ltac:(lia))
    as (response & Hrun & Hmore & Hdata & Hlen & Hcursor & _).
  exists response. split; [exact Hrun|]. split; [exact Hmore|].
  split; [exact Hcursor|exact Hlen].
Defined.

(** ** stopGeneration *)

Section stop_props.
Import Service.
Local Open Scope list_scope.

Lemma existsb_find {A} (P : A → bool) (l : list A) :
  existsb P l = true ↔ is_Some (List.find P l).
Proof.
  induction l as [|x l IH]; simpl.
  - split; [done|]. by intros [? ?].
  - destruct (P x); simpl; [|exact IH]. split; eauto.
Qed.



End stop_props.


(** A reply whose generation has finished cannot be stopped. *)
Example stopGeneration_success_rejected :
  let done := Service.withStatus StSuccess Samples.runningReply in
  let w := {| Service.sessions := Samples.sampleSessions;
              Service.messages := [done];
              Service.trace := []; Service.storedAttachments := [] |} in
  Service.stopGeneration Samples.quietEnv Samples.sampleUser "s1" "m2" w
  = (Throw (BadRequestError
              "Can only stop messages that are currently running"), w).
Proof. vm_compute. reflexivity. Qed.

(** ** Reasoning about computations of the service *)

Ltac run_monad :=
  unfold mbind, Service.M_bind, mret, Service.M_ret, Service.getWorld,
    Service.throw;
  cbn beta iota.


Section monad_props.
Import Service Conversation.
Local Open Scope list_scope.

Lemma bind_run {A B} (m : M A) (k : A → M B) w :
  (m ≫= k) w = match m w with
               | (Ok a, w') => k a w'
               | (Throw e, w') => (Throw e, w')
               end.
Proof. reflexivity. Qed.

Lemma bind_inv {A B} (m : M A) (k : A → M B) w r w' :
  (m ≫= k) w = (r, w') →
  (∃ a w1, m w = (Ok a, w1) ∧ k a w1 = (r, w')) ∨
  (∃ e, m w = (Throw e, w') ∧ r = Throw e).
Proof.
  rewrite bind_run. destruct (m w) as [[a|e] w1]; intros H.
  - left. eauto.
  - right. injection H as <- <-. eauto.
Qed.

Lemma outside_refl w : outside w w.
Proof. by repeat split. Qed.

Lemma outside_trans w1 w2 w3 : outside w1 w2 → outside w2 w3 → outside w1 w3.
Proof.
  intros (? & ? & ? & ?) (? & ? & ? & ?).
  repeat split; try congruence. by etrans.
Qed.

Lemma outsideOnly_ret {A} (a : A) : outsideOnly (mret a).
Proof. intros w. apply outside_refl. Qed.

Lemma outsideOnly_throw {A} e : outsideOnly (throw (A:=A) e).
Proof. intros w. apply outside_refl. Qed.

Lemma outsideOnly_liftOutcome {A} (o : Outcome A) : outsideOnly (liftOutcome o).
Proof. intros w. apply outside_refl. Qed.


Lemma outsideOnly_emit ev : outsideOnly (emit ev).
Proof. intros w. repeat split. by apply prefix_app_r. Qed.

Lemma outsideOnly_bind {A B} (m : M A) (k : A → M B) :
  outsideOnly m → (∀ a, outsideOnly (k a)) → outsideOnly (m ≫= k).
Proof.
  intros Hm Hk w. rewrite bind_run. specialize (Hm w).
  destruct (m w) as [[a|e] w1]; simpl in *; [|done].
  eapply outside_trans; [exact Hm|]. apply Hk.
Qed.


Lemma outsideOnly_detached (m : M unit) : outsideOnly m → outsideOnly (detached m).
Proof. intros Hm w. apply Hm. Qed.


Lemma outsideOnly_checkKnowledgeItems p items :
  outsideOnly (checkKnowledgeItems p items).
Proof.
  induction items as [|[a|fileName provider] items IH]; cbn [checkKnowledgeItems].
  - apply outsideOnly_ret.
  - exact IH.
  - case_bool_decide; [apply outsideOnly_throw|exact IH].
Qed.

Lemma outsideOnly_prepareReplyWorkflow env user sessionId credentials model
    history input tools tz :
  outsideOnly (prepareReplyWorkflow env user sessionId credentials model
                 history input tools tz).
Proof.
  unfold prepareReplyWorkflow. destruct model as [workflowId|agentId|provider name].
  - apply outsideOnly_bind; [apply outsideOnly_emit|].
    intros _. apply outsideOnly_liftOutcome.
  - destruct (getAgentById env (user_id user) agentId) as [agent|];
      [|apply outsideOnly_throw].
    apply outsideOnly_bind.
    { destruct (List.filter isEmbedding (agent_files agent)) as [|[a|fn p] rest];
        try apply outsideOnly_ret.
      destruct (truthy (agent_credentialId agent));
        [apply outsideOnly_liftOutcome|apply outsideOnly_ret]. }
    intros embeddingModel. apply outsideOnly_bind;
      [apply outsideOnly_checkKnowledgeItems|].
    intros _. apply outsideOnly_bind; [apply outsideOnly_liftOutcome|].
    intros conversation. apply outsideOnly_bind; [apply outsideOnly_emit|].
    intros _. apply outsideOnly_liftOutcome.
  - apply outsideOnly_bind; [apply outsideOnly_liftOutcome|].
    intros conversation. apply outsideOnly_bind; [apply outsideOnly_emit|].
    intros _. apply outsideOnly_liftOutcome.
Qed.


(** Reads of the store leave the world as it is. *)
Lemma getChatSession_run user sessionId w :
  getChatSession user sessionId w
  = (Ok ((λ s, (s, Some (sessionMessages sessionId w))) <$>
         findSession sessionId (user_id user) w), w).
Proof. reflexivity. Qed.

Lemma getChatMessage_run sessionId messageId w :
  getChatMessage sessionId messageId w
  = match findMessage messageId sessionId w with
    | Some m => (Ok m, w)
    | None => (Throw (NotFoundError "Chat message not found"), w)
    end.
Proof.
  unfold getChatMessage, messageGetOneById, findMessage.
  run_monad. by destruct (List.find _ _).
Qed.

Lemma ensurePreviousMessage_world previousMessageId sessionId w :
  snd (ensurePreviousMessage previousMessageId sessionId w) = w.
Proof.
  unfold ensurePreviousMessage. destruct previousMessageId as [id|]; [|done].
  destruct (truthy (Some id)); [|done].
  unfold messageGetOneById. run_monad.
  by destruct (List.find _ _).
Qed.

Lemma rowsOnly_createHumanMessage env sessionId messageId message atts prev rev :
  rowsOnly (createHumanMessage env sessionId messageId message atts prev rev).
Proof.
  intros w. unfold createHumanMessage. rewrite bind_run.
  destruct (dbFails env _); cbn; done.
Qed.

Lemma rowsOnly_updateChatMessage env id fields :
  rowsOnly (updateChatMessage env id fields).
Proof.
  intros w. unfold updateChatMessage. rewrite bind_run.
  destruct (dbFails env _); cbn; done.
Qed.

Lemma rowsOnly_createChatSession env user sessionId model cred tools name :
  rowsOnly (createChatSession env user sessionId model cred tools name).
Proof.
  intros w. unfold createChatSession, ensureValidModel, failWith, setSessions.
  run_monad.
  destruct model as [workflowId|agentId|p n].
  - destruct (findWorkflowForUser env workflowId (user_id user)) as [[nodes|]|];
      try done.
    destruct (existsb _ nodes); [|done].
    cbn beta iota. by destruct (dbFails env _).
  - destruct (getAgentById env (user_id user) agentId); [|done].
    cbn beta iota. by destruct (dbFails env _).
  - by destruct (dbFails env _).
Qed.

(** The transaction keeps what its body did outside the store. *)
Lemma transaction_run {A} env (body : M A) w :
  transaction env body w
  = match body w with
    | (Ok a, w') =>
        match dbFails env Commit with
        | None => (Ok a, w')
        | Some e => (Throw e, rollback w w')
        end
    | (Throw e, w') => (Throw e, rollback w w')
    end.
Proof. reflexivity. Qed.

Lemma transaction_outside {A} env (body : M A) w :
  storedAttachments (snd (transaction env body w))
    = storedAttachments (snd (body w)) ∧
  trace (snd (transaction env body w)) = trace (snd (body w)).
Proof.
  rewrite transaction_run. destruct (body w) as [[a|e] w']; [|done].
  by destruct (dbFails env Commit).
Qed.

End monad_props.

(** ** Cleanup of stored attachments when the transaction fails *)

Section cleanup_props.
Import Service Conversation.
Local Open Scope list_scope.

Lemma storedBy_outside env ev w w' :
  storedAttachments w' = storedAttachments w →
  trace w `prefix_of` trace w' →
  storedBy env ev w → storedBy env ev w'.
Proof.
  intros Hs [evs Ht] [Hst Hin]. split; [by rewrite Hs|].
  rewrite Ht. set_solver.
Qed.

(** Inserting the message row and preparing the reply, the last steps of
    either closure, leave the shared variable alone. *)
Lemma persist_and_prepare_outside env w sessionId messageId message atts
    prev rev user credentials model history input tools tz {A}
    (k : PreparedChatWorkflow → M A) :
  (∀ wf w1, snd (k wf w1) = w1) →
  let w' :=
    snd ((createHumanMessage env sessionId messageId message atts prev rev
            ≫= λ _,
          workflow ← prepareReplyWorkflow env user sessionId credentials
                       model history input tools tz;
          k workflow) w) in
  storedAttachments w' = storedAttachments w ∧ trace w `prefix_of` trace w'.
Proof.
  intros Hk. rewrite bind_run.
  pose proof (rowsOnly_createHumanMessage env sessionId messageId message atts
                prev rev w) as [Hs1 Ht1].
  destruct (createHumanMessage _ _ _ _ _ _ _ w) as [[[]|e] w1]; simpl in *.
  - rewrite bind_run.
    pose proof (outsideOnly_prepareReplyWorkflow env user sessionId credentials
                  model history input tools tz w1) as (_ & _ & Hs2 & Ht2).
    destruct (prepareReplyWorkflow _ _ _ _ _ _ _ _ _ w1) as [[wf|e] w2];
      simpl in *; rewrite ?Hk; (split; [congruence|by rewrite <- Ht1]).
  - split; [done|by rewrite Ht1].
Qed.

Lemma persist_and_prepare_keeps env w sessionId messageId message atts
    prev rev user credentials model history input tools tz {A}
    (k : PreparedChatWorkflow → M A) :
  (∀ wf w1, snd (k wf w1) = w1) →
  storedAttachments
    (snd ((createHumanMessage env sessionId messageId message atts prev rev
             ≫= λ _,
           workflow ← prepareReplyWorkflow env user sessionId credentials
                        model history input tools tz;
           k workflow) w))
  = storedAttachments w.
Proof. intros Hk. by apply persist_and_prepare_outside. Qed.

Lemma persist_and_prepare_stored env ev w sessionId messageId message atts
    prev rev user credentials model history input tools tz {A}
    (k : PreparedChatWorkflow → M A) :
  storedBy env ev w →
  (∀ wf w1, snd (k wf w1) = w1) →
  storedBy env ev
    (snd ((createHumanMessage env sessionId messageId message atts prev rev
             ≫= λ _,
           workflow ← prepareReplyWorkflow env user sessionId credentials
                        model history input tools tz;
           k workflow) w)).
Proof.
  intros Hst Hk.
  eapply storedBy_outside; [| |exact Hst];
    by apply persist_and_prepare_outside.
Qed.

Lemma sendHumanMessageTransaction_stored env user payload w :
  storedAttachments w = [] →
  let w' := snd (sendHumanMessageTransaction env user payload w) in
  storedAttachments w' = [] ∨
  storedBy env
    (StoreMessageAttachments (hp_sessionId payload) (hp_messageId payload)
       (hp_attachments payload)) w'.
Proof.
  intros Hempty. unfold sendHumanMessageTransaction.
  rewrite bind_run, getChatSession_run.
  rewrite bind_run.
  assert (∃ r1 w1,
    match (λ s, (s, Some (sessionMessages (hp_sessionId payload) w))) <$>
          findSession (hp_sessionId payload) (user_id user) w with
    | Some session => mret session
    | None => createChatSession env user (hp_sessionId payload)
                (hp_model payload)
                (getModelCredential env (hp_model payload)
                   (hp_credentials payload))
                (hp_tools payload) (hp_agentName payload)
    end w = (r1, w1) ∧ storedAttachments w1 = []) as (r1 & w1 & -> & Hw1).
  { destruct (findSession _ _ w) as [s|]; cbn [fmap option_fmap option_map].
    - eexists _, _. split; [reflexivity|done].
    - pose proof (rowsOnly_createChatSession env user (hp_sessionId payload)
                    (hp_model payload)
                    (getModelCredential env (hp_model payload)
                       (hp_credentials payload))
                    (hp_tools payload) (hp_agentName payload) w) as [Hs _].
      destruct (createChatSession _ _ _ _ _ _ _ w) as [r1 w1].
      eexists _, _. split; [reflexivity|]. simpl in Hs. congruence. }
  destruct r1 as [session|e]; [|by left].
  rewrite bind_run.
  pose proof (ensurePreviousMessage_world (hp_previousMessageId payload)
                (hp_sessionId payload) w1) as Hprev.
  destruct (ensurePreviousMessage _ _ w1) as [[previous|e] w2];
    simpl in Hprev; subst w2; [|by left].
  cbv zeta. rewrite bind_run.
  set (ev := StoreMessageAttachments _ _ _).
  rewrite bind_run. cbn [emit]. unfold liftOutcome at 1.
  destruct (stored env ev) as [atts|e] eqn:Hstored; [|by left].
  rewrite bind_run. cbn [setStoredAttachments].
  right. apply persist_and_prepare_stored; [|done].
  split; [done|]. cbn [trace]. set_solver.
Qed.

Lemma editMessageTransaction_stored env user payload w :
  storedAttachments w = [] →
  let w' := snd (editMessageTransaction env user payload w) in
  storedAttachments w' = [] ∨
  storedBy env
    (StoreMessageAttachments (ep_sessionId payload) (ep_messageId payload)
       (ep_newAttachments payload)) w'.
Proof.
  intros Hempty. unfold editMessageTransaction.
  rewrite bind_run, getChatSession_run.
  destruct (findSession _ _ w) as [s|]; cbn [fmap option_fmap option_map];
    [|by left].
  rewrite bind_run, getChatMessage_run. cbn [fst snd].
  destruct (findMessage _ _ w) as [m|]; [|by left].
  destruct (msg_type m).
  - cbv zeta. rewrite bind_run.
    destruct (ep_newAttachments payload) as [|a atts0] eqn:Hnew.
    + cbn [mret M_ret]. rewrite bind_run. cbn [setStoredAttachments].
      left. etrans; [by apply persist_and_prepare_keeps|done].
    + set (ev := StoreMessageAttachments _ _ _).
      rewrite bind_run. cbn [emit]. unfold liftOutcome at 1.
      destruct (stored env ev) as [atts|e] eqn:Hstored; [|by left].
      rewrite bind_run. cbn [setStoredAttachments].
      right. apply persist_and_prepare_stored; [|done].
      split; [done|]. cbn [trace]. set_solver.
  - case_bool_decide; [by left|].
    rewrite bind_run.
    pose proof (rowsOnly_updateChatMessage env (ep_editId payload)
                  (withContent (ep_message payload)) w) as [Hs _].
    destruct (updateChatMessage _ _ _ w) as [[[]|e] w1]; simpl in *; left;
      congruence.
  - by left.
  - by left.
Qed.

Lemma cleanupAndRethrow_run {A} env e w :
  storedAttachments w ≠ [] →
  cleanupAndRethrow (A:=A) env e w
  = (Throw e, withTrace w (cleanupEvents env (storedAttachments w))).
Proof.
  intros Hne. unfold cleanupAndRethrow, call, tryCatch, emit, cleanupEvents,
    withTrace.
  run_monad.
  rewrite bool_decide_true by (destruct (storedAttachments w); simpl; [done|lia]).
  cbn [trace sessions messages storedAttachments].
  destruct (fails env (DeleteAttachments (storedAttachments w))) as [e'|];
    cbn [failWith]; run_monad; cbn [trace sessions messages storedAttachments];
    [|done].
  by rewrite <- app_assoc.
Qed.

(** C4. When the transaction of sendHumanMessage or of editMessage fails
    after the attachment service stored attachments (a non-empty list), the
    shared variable holds exactly the list that the store call returned;
    the method then asks the attachment service to delete exactly that
    list, records a warning if the deletion itself throws, and throws the
    error of the transaction. Nothing else happens: no broadcast, no
    execution. *)
Theorem failed_transaction_cleanup (env : Env) (user : User) :
  (∀ payload w e w1,
     transaction env (sendHumanMessageTransaction env user payload)
       (resetStored w) = (Throw e, w1) →
     storedAttachments w1 ≠ [] →
     storedBy env
       (StoreMessageAttachments (hp_sessionId payload) (hp_messageId payload)
          (hp_attachments payload)) w1 ∧
     sendHumanMessage env user payload w
     = (Throw e, withTrace w1 (cleanupEvents env (storedAttachments w1)))) ∧
  (∀ payload w e w1,
     transaction env (editMessageTransaction env user payload)
       (resetStored w) = (Throw e, w1) →
     storedAttachments w1 ≠ [] →
     storedBy env
       (StoreMessageAttachments (ep_sessionId payload) (ep_messageId payload)
          (ep_newAttachments payload)) w1 ∧
     editMessage env user payload w
     = (Throw e, withTrace w1 (cleanupEvents env (storedAttachments w1)))).
Proof.
  split; intros payload w e w1 Hfail Hne.
  - split.
    + pose proof (transaction_outside env
                    (sendHumanMessageTransaction env user payload)
                    (resetStored w)) as [Hs Ht].
      rewrite Hfail in Hs, Ht. simpl in Hs, Ht.
      destruct (sendHumanMessageTransaction_stored env user payload
                  (resetStored w) eq_refl) as [Hnil|[Hst Hin]].
      * congruence.
      * split; [by rewrite Hs|by rewrite Ht].
    + unfold sendHumanMessage. rewrite bind_run.
      change (setStoredAttachments [] w) with (Ok tt, resetStored w).
      cbn beta iota. rewrite bind_run. unfold tryCatch at 1.
      rewrite Hfail. by rewrite cleanupAndRethrow_run.
  - split.
    + pose proof (transaction_outside env
                    (editMessageTransaction env user payload)
                    (resetStored w)) as [Hs Ht].
      rewrite Hfail in Hs, Ht. simpl in Hs, Ht.
      destruct (editMessageTransaction_stored env user payload
                  (resetStored w) eq_refl) as [Hnil|[Hst Hin]].
      * congruence.
      * split; [by rewrite Hs|by rewrite Ht].
    + unfold editMessage. cbv zeta. rewrite bind_run.
      change (setStoredAttachments [] w) with (Ok tt, resetStored w).
      cbn beta iota. rewrite bind_run. unfold tryCatch at 1.
      rewrite Hfail. by rewrite cleanupAndRethrow_run.
Qed.

End cleanup_props.

Lemma failed_transaction_cleanup_witness :
  let failed events :=
    (Throw (A:=unit) (ExternalError "insert failed"),
     {| Service.sessions := Samples.sampleSessions;
        Service.messages := Service.messages Samples.sampleWorld;
        Service.trace := events;
        Service.storedAttachments := [Samples.smallFile] |}) in
  Service.sendHumanMessage Samples.brokenEnv Samples.sampleUser
    Samples.samplePayload Samples.sampleWorld
  = failed [Service.StoreMessageAttachments "s1" "m3" [Samples.smallFile];
            Service.DeleteAttachments [Samples.smallFile];
            Service.Warn "Could not clean up 1 files"] ∧
  Service.editMessage Samples.brokenEnv Samples.sampleUser
    Samples.sampleEdit Samples.sampleWorld
  = failed [Service.StoreMessageAttachments "s1" "m4" [Samples.smallFile];
            Service.DeleteAttachments [Samples.smallFile];
            Service.Warn "Could not clean up 1 files"].
Proof.
  intros failed.
  destruct (failed_transaction_cleanup Samples.brokenEnv Samples.sampleUser)
    as [Hsend Hedit].
  split.
  - refine (proj2 (Hsend Samples.samplePayload Samples.sampleWorld
                     (ExternalError "insert failed")
                     {| Service.sessions := Samples.sampleSessions;
                        Service.messages := Service.messages Samples.sampleWorld;
                        Service.trace :=
                          [Service.StoreMessageAttachments "s1" "m3"
                             [Samples.smallFile]];
                        Service.storedAttachments := [Samples.smallFile] |}
                     _ _)).
    + vm_compute. reflexivity.
    + discriminate.
  - refine (proj2 (Hedit Samples.sampleEdit Samples.sampleWorld
                     (ExternalError "insert failed")
                     {| Service.sessions := Samples.sampleSessions;
                        Service.messages := Service.messages Samples.sampleWorld;
                        Service.trace :=
                          [Service.StoreMessageAttachments "s1" "m4"
                             [Samples.smallFile]];
                        Service.storedAttachments := [Samples.smallFile] |}
                     _ _)).
    + vm_compute. reflexivity.
    + discriminate.
Defined.

(** ** editMessage on an AI message *)

Section edit_ai_props.
Import Service Conversation.
Local Open Scope list_scope.

Lemma updateRows_length id fields rows :
  length (updateRows id fields rows) = length rows.
Proof. unfold updateRows. by rewrite length_map. Qed.

Lemma editMessage_ai_run env user payload w s m :
  findSession (ep_sessionId payload) (user_id user) w = Some s →
  findMessage (ep_editId payload) (sess_id s) w = Some m →
  msg_type m = TyAi →
  editMessage env user payload w
  = if bool_decide (modelProvider (ep_model payload) = ProvN8n) then
      (Throw (BadRequestError
                "Editing AI messages with n8n workflow agents is not supported"),
       resetStored w)
    else
      match dbFails env (UpdateMessage (ep_editId payload)),
            dbFails env Commit with
      | None, None =>
          (Ok tt,
           {| sessions := sessions w;
              messages := updateRows (ep_editId payload)
                            (withContent (ep_message payload)) (messages w);
              trace := trace w; storedAttachments := [] |})
      | Some e, _ | None, Some e => (Throw e, resetStored w)
      end.
Proof.
  intros Hs Hm Hty.
  unfold editMessage. cbv zeta.
  rewrite !bind_run.
  change (setStoredAttachments [] w) with (Ok tt, resetStored w).
  cbn beta iota. rewrite !bind_run. unfold tryCatch. rewrite !transaction_run.
  unfold editMessageTransaction.
  rewrite !bind_run, !getChatSession_run.
  change (findSession (ep_sessionId payload) (user_id user) (resetStored w))
    with (findSession (ep_sessionId payload) (user_id user) w).
  rewrite Hs. cbn [fmap option_fmap option_map fst snd].
  rewrite !bind_run, !getChatMessage_run.
  change (findMessage (ep_editId payload) (sess_id s) (resetStored w))
    with (findMessage (ep_editId payload) (sess_id s) w).
  rewrite Hm, Hty. cbn beta iota.
  case_bool_decide as Hprov.
  - unfold throw, cleanupAndRethrow. run_monad. done.
  - unfold updateChatMessage. rewrite !bind_run.
    destruct (dbFails env (UpdateMessage (ep_editId payload))) as [e|];
      cbn [failWith].
    + unfold throw, cleanupAndRethrow. run_monad. done.
    + run_monad. unfold setMessages. cbn beta iota.
      destruct (dbFails env Commit) as [e|]; [|done].
      unfold cleanupAndRethrow. run_monad. done.
Qed.

(** C7, as the code has it. For an edit that targets an AI message: when
    the provider of the model named in the request is n8n, the call is
    rejected with a BadRequestError and no row changes (the provider stored
    on the session is not consulted); otherwise the content of the target
    row is overwritten in place, unless the store rejects the update or the
    commit, in which case that error is thrown and no row changes. In all
    cases no collaborator is called (nothing is stored, broadcast, prepared
    or executed), the sessions are untouched and the number of message rows
    is unchanged. *)
Theorem editMessage_ai_in_place (env : Env) (user : User)
    (payload : EditMessagePayload) (w : World) (s : ChatHubSession)
    (m : ChatHubMessage) :
  findSession (ep_sessionId payload) (user_id user) w = Some s →
  findMessage (ep_editId payload) (sess_id s) w = Some m →
  msg_type m = TyAi →
  let r := fst (editMessage env user payload w) in
  let w' := snd (editMessage env user payload w) in
  trace w' = trace w ∧ sessions w' = sessions w ∧
  length (messages w') = length (messages w) ∧
  if bool_decide (modelProvider (ep_model payload) = ProvN8n) then
    r = Throw (BadRequestError
                 "Editing AI messages with n8n workflow agents is not supported") ∧
    messages w' = messages w
  else
    match dbFails env (UpdateMessage (ep_editId payload)), dbFails env Commit with
    | None, None =>
        r = Ok tt ∧
        messages w' = updateRows (ep_editId payload)
                        (withContent (ep_message payload)) (messages w)
    | Some e, _ | None, Some e =>
        r = Throw e ∧ messages w' = messages w
    end.
Proof.
  intros Hs Hm Hty. cbv zeta.
  rewrite (editMessage_ai_run env user payload w s m Hs Hm Hty).
  case_bool_decide; [done|].
  destruct (dbFails env (UpdateMessage _)); [done|].
  destruct (dbFails env Commit); [done|].
  cbn. by rewrite updateRows_length.
Qed.

End edit_ai_props.

(** The session is bound to the hosted-workflow provider, the request names
    another model: the edit is not rejected and the content is
    overwritten. *)
Lemma editMessage_ai_ignores_session_provider :
  Service.sess_provider <$> Service.findSession "s1" "u1" Samples.n8nWorld
    = Some Service.ProvN8n ∧
  Service.editMessage Samples.quietEnv Samples.sampleUser Samples.aiEdit
    Samples.n8nWorld
  = (Ok tt,
     {| Service.sessions := Service.sessions Samples.n8nWorld;
        Service.messages :=
          [Samples.mkMessage "m1" TyHuman "Hello" None;
           Samples.mkMessage "m2" TyAi "Hi there!" (Some "m1")];
        Service.trace := []; Service.storedAttachments := [] |}).
Proof. split; vm_compute; reflexivity. Qed.

Lemma editMessage_ai_in_place_witness :
  fst (Service.editMessage Samples.quietEnv Samples.sampleUser Samples.aiEdit
         Samples.n8nWorld) = Ok tt ∧
  Service.trace
    (snd (Service.editMessage Samples.quietEnv Samples.sampleUser
            Samples.aiEdit Samples.n8nWorld)) = [] ∧
  Service.messages
    (snd (Service.editMessage Samples.quietEnv Samples.sampleUser
            Samples.aiEdit Samples.n8nWorld))
  = [Samples.mkMessage "m1" TyHuman "Hello" None;
     Samples.mkMessage "m2" TyAi "Hi there!" (Some "m1")].
Proof.
  pose proof (editMessage_ai_in_place Samples.quietEnv Samples.sampleUser
                Samples.aiEdit Samples.n8nWorld
                (Samples.mkSession "s1" "u1" Service.ProvN8n)
                (Samples.mkMessage "m2" TyAi "Hi there" (Some "m1"))
                eq_refl eq_refl eq_refl) as (Htrace & _ & _ & Hr & Hrows).
  split; [exact Hr|]. split; [exact Htrace|exact Hrows].
Defined.

(** ** editMessage on a human message *)

Section edit_human_props.
Import Service Conversation.
Local Open Scope list_scope.

Lemma cleanupAndRethrow_throws {A} env e w :
  fst (cleanupAndRethrow (A:=A) env e w) = Throw e.
Proof.
  unfold cleanupAndRethrow, call, tryCatch, emit. run_monad.
  destruct (bool_decide _); [|done].
  destruct (fails env _); cbn [failWith]; run_monad; done.
Qed.



End edit_human_props.


(** ** regenerateAIMessage *)

Section regenerate_props.
Import Service Conversation.
Local Open Scope list_scope.







End regenerate_props.


(** Regenerating m3: the history given to the model is m1 alone (the failed
    attempt m2 is left out), the execution is launched after m1 as a retry
    of m3, and the three rows are still there. *)
Example regenerateAIMessage_run :
  Service.regenerateAIMessage Samples.quietEnv Samples.sampleUser
    Samples.retryPayload Samples.retryWorld
  = (Ok tt,
     {| Service.sessions := Samples.sampleSessions;
        Service.messages := Service.messages Samples.retryWorld;
        Service.trace :=
          [Service.PrepareBaseChatWorkflow "s1"
             (Service.LLMModel "openai" "gpt-4")
             [{| Conversation.mr_type := Conversation.RtUser;
                 Conversation.mr_message := Conversation.PlainText "Hello";
                 Conversation.mr_hideFromUI := false |}]
             {| Service.ci_message := "Hello"; Service.ci_attachments := [] |}
             ("You are a helpful assistant." ++ Conversation.newline
                ++ Conversation.newline ++ "The time zone is UTC")
             [];
           Service.ExecuteChatWorkflow (Service.LLMModel "openai" "gpt-4")
             Samples.sampleWorkflow "s1" "m1" (Some "m3")];
        Service.storedAttachments := [] |}).
Proof. vm_compute. reflexivity. Qed.

(** ** Runs on small inputs *)

(** With a budget of 100 characters: the newer message's 200-character file
    does not fit and is replaced, the older message's 3-character file is
    still inlined afterwards. *)
Example conversationWithin_small_budget :
  let newer :=
    Samples.withAttachments (Samples.mkMessage "m3" TyHuman "newer" (Some "m2"))
      [Samples.textFile "big.txt" (Samples.filler 200)] in
  Conversation.conversationWithin Samples.servingFetch 100
    {| Conversation.inputModalities := [Conversation.MdText] |}
    [Samples.olderMessage; newer] []
  = Ok ([ {| Conversation.mr_type := Conversation.RtUser;
             Conversation.mr_message :=
               Conversation.Blocks
                 [Conversation.TextBlock "older";
                  Conversation.TextBlock
                    (Conversation.inlineText "File" Samples.smallFile "abc")];
             Conversation.mr_hideFromUI := false |};
          {| Conversation.mr_type := Conversation.RtUser;
             Conversation.mr_message :=
               Conversation.Blocks
                 [Conversation.TextBlock "newer";
                  Conversation.sizePlaceholder "File"
                    (Conversation.FileItem
                       (Samples.textFile "big.txt" (Samples.filler 200)))];
             Conversation.mr_hideFromUI := false |} ],
        88).
Proof. vm_compute. reflexivity. Qed.

(** Sending the first message of a new session: the session row and the
    message row are created, the attachment is stored, the reply is
    prepared from an empty history, the message is broadcast, the execution
    is started and a title is generated. *)
Example sendHumanMessage_first_message :
  let payload :=
    {| Service.hp_sessionId := "s9"; Service.hp_messageId := "m1";
       Service.hp_message := "Hello";
       Service.hp_model := Service.LLMModel "openai" "gpt-4";
       Service.hp_credentials := ∅; Service.hp_previousMessageId := None;
       Service.hp_tools := []; Service.hp_attachments := [];
       Service.hp_timeZone := None; Service.hp_agentName := None |} in
  let w := {| Service.sessions := []; Service.messages := [];
              Service.trace := []; Service.storedAttachments := [] |} in
  let input := {| Service.ci_message := "Hello";
                  Service.ci_attachments := [] |} in
  Service.sendHumanMessage Samples.quietEnv Samples.sampleUser payload w
  = (Ok tt,
     {| Service.sessions :=
          [Service.sessionRow "s9" "u1" (Service.LLMModel "openai" "gpt-4")
             None [] None];
        Service.messages :=
          [Service.humanMessageRow "s9" "m1" "Hello" [] None None];
        Service.trace :=
          [Service.StoreMessageAttachments "s9" "m1" [];
           Service.PrepareBaseChatWorkflow "s9"
             (Service.LLMModel "openai" "gpt-4") [] input
             ("You are a helpful assistant." ++ Conversation.newline
                ++ Conversation.newline ++ "The time zone is UTC")
             [];
           Service.SendHumanMessage "u1" "s9" "m1" None "Hello" [];
           Service.ExecuteChatWorkflow (Service.LLMModel "openai" "gpt-4")
             Samples.sampleWorkflow "s9" "m1" None;
           Service.GenerateSessionTitle "s9" "Hello" []
             (Service.LLMModel "openai" "gpt-4")];
        Service.storedAttachments := [] |}).
Proof. vm_compute. reflexivity. Qed.

(** * Further properties *)

(** ** buildConversationHistory: shape of the result *)

Section conversation_shape.
Import Conversation Notions.
Local Open Scope list_scope.
Context (f : Fetch).

Lemma replayable_cons_empty m msgs :
  len (msg_content m) = 0 → replayable (m :: msgs) = replayable msgs.
Proof. intros H. unfold replayable. by rewrite filter_cons_False by tauto. Qed.

Lemma replayable_cons m msgs :
  len (msg_content m) ≠ 0 → replayable (m :: msgs) = m :: replayable msgs.
Proof. intros H. unfold replayable. by rewrite filter_cons_True. Qed.



(** One call of the per-attachment procedure returns one or two blocks. *)
Lemma buildContentBlock_length file s maxSize md prefix blocks :
  buildContentBlockForAttachment f file s maxSize md prefix = Ok blocks →
  (1 ≤ length blocks ≤ 2)%nat.
Proof.
  unfold buildContentBlockForAttachment, tryBlock.
  case_bool_decide; [intros [= <-]; simpl; lia|].
  destruct file as [a|fileName provider]; [|intros [= <-]; simpl; lia].
  destruct (isTextFile (bd_mimeType a)).
  - destruct (getAsBuffer f a); [|done].
    case_bool_decide; intros [= <-]; simpl; lia.
  - case_bool_decide; simpl; [|intros [= <-]; simpl; lia].
    destruct (getDataUrl f a); [|done].
    case_bool_decide; intros [= <-]; simpl; lia.
Qed.

Lemma attachmentLoop_length maxSize md atts : ∀ blocks s blocks' s',
  attachmentLoop f maxSize md atts blocks s = Ok (blocks', s') →
  ∃ added, blocks' = blocks ++ added ∧
           (length atts ≤ length added ≤ 2 * length atts)%nat.
Proof.
  induction atts as [|a atts IH]; intros blocks s blocks' s' Hrun.
  - injection Hrun as <- <-. exists []. rewrite app_nil_r. split; [done|simpl; lia].
  - cbn [attachmentLoop] in Hrun.
    destruct (buildContentBlockForAttachment f (FileItem a) s maxSize md "File")
      as [bs|e] eqn:Hcall; [|done].
    cbn [mbind Outcome_bind] in Hrun.
    apply buildContentBlock_length in Hcall.
    destruct (IH _ _ _ _ Hrun) as (added & -> & Hlen).
    exists (bs ++ added). rewrite <- app_assoc. split; [done|].
    rewrite length_app. simpl. lia.
Qed.

Lemma contextLoop_length maxSize md total files : ∀ i blocks s blocks' s',
  contextLoop f maxSize md total i files blocks s = Ok (blocks', s') →
  ∃ added, blocks' = blocks ++ added ∧
           (length files ≤ length added ≤ 2 * length files)%nat.
Proof.
  induction files as [|file files IH]; intros i blocks s blocks' s' Hrun.
  - injection Hrun as <- <-. exists []. rewrite app_nil_r. split; [done|simpl; lia].
  - cbn [contextLoop] in Hrun.
    destruct (buildContentBlockForAttachment f file s maxSize md
                (contextPrefix i total)) as [bs|e] eqn:Hcall; [|done].
    cbn [mbind Outcome_bind] in Hrun.
    apply buildContentBlock_length in Hcall.
    destruct (IH _ _ _ _ _ Hrun) as (added & -> & Hlen).
    exists (bs ++ added). rewrite <- app_assoc. split; [done|].
    rewrite length_app. simpl. lia.
Qed.

Lemma messageLoop_entries maxSize md msgs : ∀ vals s vals' s',
  messageLoop f maxSize md msgs vals s = Ok (vals', s') →
  ∃ entries, vals' = vals ++ entries ∧
             Forall2 entryFor (replayable msgs) entries.
Proof.
  induction msgs as [|m msgs IH]; intros vals s vals' s' Hrun.
  - injection Hrun as <- <-. exists []. rewrite app_nil_r. split; [done|].
    constructor.
  - cbn [messageLoop] in Hrun. case_bool_decide as Hempty.
    { rewrite replayable_cons_empty by done. by eapply IH. }
    rewrite replayable_cons by done.
    destruct (nullish (msg_attachments m) []) as [|a atts] eqn:Hatts.
    + destruct (IH _ _ _ _ Hrun) as (entries & -> & Hent).
      eexists (_ :: entries). rewrite <- app_assoc. split; [done|].
      constructor; [|done]. unfold entryFor. rewrite Hatts. done.
    + destruct (attachmentLoop f maxSize md (a :: atts) _ _)
        as [[blocks s1]|e] eqn:Hloop; [|done].
      cbn [mbind Outcome_bind] in Hrun.
      apply attachmentLoop_length in Hloop as (added & -> & Hlen).
      destruct (IH _ _ _ _ Hrun) as (entries & -> & Hent).
      eexists (_ :: entries). rewrite <- app_assoc. split; [done|].
      constructor; [|done]. unfold entryFor. rewrite Hatts.
      split; [done|]. split; [done|]. by exists added.
Qed.

(** X2. Whenever the history builder returns, the result is, in this
    order: the hidden user entry for the context files (present exactly
    when there is at least one context file; it holds one or two blocks per
    file), then one entry per message with a non-empty text, in the order
    of the history. The entry of a message has the role of the message and
    is shown in the UI; it is the plain text of the message when the
    message has no attachment, and otherwise the text block followed by one
    or two blocks per attachment. Messages with an empty text leave no
    entry. *)
Theorem buildConversationHistory_shape (history : list ChatHubMessage)
    (provider model : string) (contextFiles : list ChatHubAgentKnowledgeItem)
    (records : list MessageRecord) :
  buildConversationHistory f history provider model contextFiles = Ok records →
  ∃ hidden entries,
    records = hidden ++ entries ∧
    Forall2 entryFor (replayable history) entries ∧
    match contextFiles with
    | [] => hidden = []
    | _ => ∃ r, hidden = [r] ∧ contextEntry (length contextFiles) r
    end.
Proof.
  unfold buildConversationHistory, conversationWithin.
  destruct (messageLoop f maxTotalPayloadSize _ (reverse history) [] 0)
    as [[vals s1]|e] eqn:Hmsgs; [|done].
  cbn [mbind Outcome_bind].
  destruct (contextLoop f maxTotalPayloadSize _ (length contextFiles) 0
              contextFiles [] s1) as [[cblocks s2]|e] eqn:Hctx; [|done].
  cbn [mbind Outcome_bind fmap Outcome_fmap fst]. intros [= <-].
  apply messageLoop_entries in Hmsgs as (entries & -> & Hent).
  apply contextLoop_length in Hctx as (added & -> & Hlen).
  cbn [app] in *.
  apply Forall2_reverse in Hent.
  unfold replayable in Hent. rewrite filter_reverse, reverse_involutive in Hent.
  destruct contextFiles as [|file files].
  - destruct added as [|b added]; [|simpl in Hlen; lia].
    exists [], (reverse entries). done.
  - destruct added as [|b added]; [simpl in Hlen; lia|].
    eexists [_], (reverse entries). rewrite reverse_app. cbn [reverse].
    split; [done|]. split; [done|].
    eexists. split; [done|]. split; [done|]. split; [done|].
    by eexists.
Qed.

End conversation_shape.

(** ** buildConversationHistory: errors and media blocks *)

Section conversation_fetches.
Import Conversation Notions.
Local Open Scope list_scope.
Context (f : Fetch).

Lemma buildContentBlock_throw file s maxSize md prefix e :
  buildContentBlockForAttachment f file s maxSize md prefix = Throw e →
  ∃ a, file = FileItem a ∧ fetchFailed f e a.
Proof.
  unfold buildContentBlockForAttachment, tryBlock, fetchFailed.
  case_bool_decide; [done|].
  destruct file as [a|fileName provider]; [|done].
  destruct (isTextFile (bd_mimeType a)).
  - destruct (getAsBuffer f a) as [c|e'] eqn:Hb.
    + by case_bool_decide.
    + intros [= <-]. eauto.
  - case_bool_decide; simpl; [|done].
    destruct (getDataUrl f a) as [u|e'] eqn:Hu.
    + by case_bool_decide.
    + intros [= <-]. eauto.
Qed.

Lemma attachmentLoop_throw maxSize md atts : ∀ blocks s e,
  attachmentLoop f maxSize md atts blocks s = Throw e →
  ∃ a, a ∈ atts ∧ fetchFailed f e a.
Proof.
  induction atts as [|a atts IH]; intros blocks s e Hrun; [done|].
  cbn [attachmentLoop] in Hrun.
  destruct (buildContentBlockForAttachment f (FileItem a) s maxSize md "File")
    as [bs|e'] eqn:Hcall; cbn [mbind Outcome_bind] in Hrun.
  - destruct (IH _ _ _ Hrun) as (a' & Hin & Hf). exists a'. set_solver.
  - injection Hrun as ->.
    apply buildContentBlock_throw in Hcall as (a' & [= <-] & Hf).
    exists a. set_solver.
Qed.

Lemma messageLoop_throw maxSize md msgs : ∀ vals s e,
  messageLoop f maxSize md msgs vals s = Throw e →
  ∃ a, a ∈ (msgs ≫= λ m, nullish (msg_attachments m) []) ∧ fetchFailed f e a.
Proof.
  induction msgs as [|m msgs IH]; intros vals s e Hrun; [done|].
  cbn [messageLoop] in Hrun.
  assert (∀ a, a ∈ (msgs ≫= λ m, nullish (msg_attachments m) []) →
               a ∈ ((m :: msgs) ≫= λ m, nullish (msg_attachments m) []))
    as Hrest by (intros a Ha; cbn; set_solver).
  case_bool_decide as Hempty.
  { destruct (IH _ _ _ Hrun) as (a & Hin & Hf). eauto. }
  destruct (nullish (msg_attachments m) []) as [|a0 atts] eqn:Hatts.
  { destruct (IH _ _ _ Hrun) as (a & Hin & Hf). eauto. }
  destruct (attachmentLoop f maxSize md (a0 :: atts) _ _)
    as [[blocks s1]|e'] eqn:Hloop; cbn [mbind Outcome_bind] in Hrun.
  - destruct (IH _ _ _ Hrun) as (a & Hin & Hf). eauto.
  - injection Hrun as ->.
    apply attachmentLoop_throw in Hloop as (a & Hin & Hf).
    exists a. split; [|done]. cbn. rewrite Hatts. set_solver.
Qed.

Lemma contextLoop_throw maxSize md total files : ∀ i blocks s e,
  contextLoop f maxSize md total i files blocks s = Throw e →
  ∃ a, FileItem a ∈ files ∧ fetchFailed f e a.
Proof.
  induction files as [|file files IH]; intros i blocks s e Hrun; [done|].
  cbn [contextLoop] in Hrun.
  destruct (buildContentBlockForAttachment f file s maxSize md _)
    as [bs|e'] eqn:Hcall; cbn [mbind Outcome_bind] in Hrun.
  - destruct (IH _ _ _ _ Hrun) as (a' & Hin & Hf). exists a'. set_solver.
  - injection Hrun as ->.
    apply buildContentBlock_throw in Hcall as (a' & -> & Hf).
    exists a'. set_solver.
Qed.

Lemma fetchable_history history contextFiles a :
  a ∈ (history ≫= λ m, nullish (msg_attachments m) []) →
  a ∈ fetchable history contextFiles.
Proof. unfold fetchable. set_solver. Qed.

Lemma fetchable_context history contextFiles a :
  FileItem a ∈ contextFiles → a ∈ fetchable history contextFiles.
Proof.
  intros Hin. unfold fetchable. apply elem_of_app. right.
  apply list_elem_of_omap. by exists (FileItem a).
Qed.

Lemma bind_reverse_elem (history : list ChatHubMessage) a :
  a ∈ (reverse history ≫= λ m, nullish (msg_attachments m) []) →
  a ∈ (history ≫= λ m, nullish (msg_attachments m) []).
Proof.
  rewrite !list_elem_of_bind. intros (m & Ha & Hm). exists m.
  split; [done|]. by apply elem_of_reverse.
Qed.

(** X3. The history builder throws only what the attachment service threw:
    if it fails with error [e], then [e] was thrown by [getAsBuffer] or
    [getDataUrl] for an attachment of a message of the history or for an
    inline context file. In particular it returns whenever these two
    fetches do not throw. *)
Theorem buildConversationHistory_throws_fetch_error
    (history : list ChatHubMessage) (provider model : string)
    (contextFiles : list ChatHubAgentKnowledgeItem) (e : Error) :
  buildConversationHistory f history provider model contextFiles = Throw e →
  ∃ a, a ∈ fetchable history contextFiles ∧
       (getAsBuffer f a = Throw e ∨ getDataUrl f a = Throw e).
Proof.
  unfold buildConversationHistory, conversationWithin.
  destruct (messageLoop f maxTotalPayloadSize _ (reverse history) [] 0)
    as [[vals s1]|e'] eqn:Hmsgs; cbn [mbind Outcome_bind].
  - destruct (contextLoop f maxTotalPayloadSize _ (length contextFiles) 0
                contextFiles [] s1) as [[cblocks s2]|e''] eqn:Hctx;
      cbn [mbind Outcome_bind fmap Outcome_fmap]; [done|].
    intros [= <-]. apply contextLoop_throw in Hctx as (a & Hin & Hf).
    exists a. split; [by apply fetchable_context|done].
  - cbn [fmap Outcome_fmap]. intros [= <-].
    apply messageLoop_throw in Hmsgs as (a & Hin & Hf).
    exists a. split; [|done].
    by apply fetchable_history, bind_reverse_elem.
Qed.

Lemma mediaFrom_mono md atts atts' b :
  (∀ a, a ∈ atts → a ∈ atts') →
  mediaFrom f md atts b → mediaFrom f md atts' b.
Proof.
  intros Hsub. destruct b as [t|url]; [done|].
  intros (a & Hin & Hrest). exists a. split; [by apply Hsub|done].
Qed.

Lemma buildContentBlock_media file s maxSize md prefix blocks atts :
  (∀ a, file = FileItem a → a ∈ atts) →
  buildContentBlockForAttachment f file s maxSize md prefix = Ok blocks →
  Forall (mediaFrom f md atts) blocks.
Proof.
  intros Hfile. unfold buildContentBlockForAttachment, tryBlock.
  case_bool_decide; [intros [= <-]; by repeat constructor|].
  destruct file as [a|fileName provider];
    [|intros [= <-]; by repeat constructor].
  destruct (isTextFile (bd_mimeType a)) eqn:Htext.
  - destruct (getAsBuffer f a); [|done].
    case_bool_decide; intros [= <-]; by repeat constructor.
  - case_bool_decide as Hmod; simpl; [|intros [= <-]; by repeat constructor].
    destruct (getDataUrl f a) as [url|] eqn:Hurl; [|done].
    case_bool_decide; intros [= <-]; repeat constructor.
    exists a. split; [by apply Hfile|done].
Qed.

Lemma attachmentLoop_media maxSize md atts all : ∀ blocks s blocks' s',
  (∀ a, a ∈ atts → a ∈ all) →
  Forall (mediaFrom f md all) blocks →
  attachmentLoop f maxSize md atts blocks s = Ok (blocks', s') →
  Forall (mediaFrom f md all) blocks'.
Proof.
  induction atts as [|a atts IH]; intros blocks s blocks' s' Hsub Hb Hrun.
  - by injection Hrun as <- <-.
  - cbn [attachmentLoop] in Hrun.
    destruct (buildContentBlockForAttachment f (FileItem a) s maxSize md "File")
      as [bs|e] eqn:Hcall; [|done].
    cbn [mbind Outcome_bind] in Hrun.
    eapply IH; [| |exact Hrun]; [set_solver|].
    apply Forall_app. split; [done|].
    eapply buildContentBlock_media; [|exact Hcall].
    intros a' [= <-]. set_solver.
Qed.

Lemma messageLoop_media maxSize md msgs all : ∀ vals s vals' s',
  (∀ a, a ∈ (msgs ≫= λ m, nullish (msg_attachments m) []) → a ∈ all) →
  Forall (λ r, Forall (mediaFrom f md all) (entryBlocks r)) vals →
  messageLoop f maxSize md msgs vals s = Ok (vals', s') →
  Forall (λ r, Forall (mediaFrom f md all) (entryBlocks r)) vals'.
Proof.
  induction msgs as [|m msgs IH]; intros vals s vals' s' Hsub Hv Hrun.
  - by injection Hrun as <- <-.
  - cbn [messageLoop] in Hrun.
    assert (∀ a, a ∈ (msgs ≫= λ m, nullish (msg_attachments m) []) → a ∈ all)
      as Hrest by (intros a Ha; apply Hsub; cbn; set_solver).
    case_bool_decide as Hempty; [by eapply IH|].
    destruct (nullish (msg_attachments m) []) as [|a0 atts] eqn:Hatts.
    + eapply IH; [done| |exact Hrun].
      apply Forall_app. split; [done|]. by repeat constructor.
    + destruct (attachmentLoop f maxSize md (a0 :: atts) _ _)
        as [[blocks s1]|e] eqn:Hloop; [|done].
      cbn [mbind Outcome_bind] in Hrun.
      eapply IH; [done| |exact Hrun].
      apply Forall_app. split; [done|]. repeat constructor.
      cbn [entryBlocks mr_message].
      eapply attachmentLoop_media; [| |exact Hloop].
      * intros a Ha. apply Hsub. cbn. rewrite Hatts. set_solver.
      * by repeat constructor.
Qed.

Lemma contextLoop_media maxSize md total files all : ∀ i blocks s blocks' s',
  (∀ a, FileItem a ∈ files → a ∈ all) →
  Forall (mediaFrom f md all) blocks →
  contextLoop f maxSize md total i files blocks s = Ok (blocks', s') →
  Forall (mediaFrom f md all) blocks'.
Proof.
  induction files as [|file files IH]; intros i blocks s blocks' s' Hsub Hb Hrun.
  - by injection Hrun as <- <-.
  - cbn [contextLoop] in Hrun.
    destruct (buildContentBlockForAttachment f file s maxSize md _)
      as [bs|e] eqn:Hcall; [|done].
    cbn [mbind Outcome_bind] in Hrun.
    eapply IH; [| |exact Hrun]; [set_solver|].
    apply Forall_app. split; [done|].
    eapply buildContentBlock_media; [|exact Hcall].
    intros a' ->. set_solver.
Qed.

(** X4. Every media block ([image_url]) that the history builder returns is
    the data URL of an attachment of the history or of an inline context
    file, that attachment is not a text file, and the model declares its
    modality among its input modalities. A model that declares no input
    modality therefore receives text blocks only. *)
Theorem buildConversationHistory_media_supported
    (history : list ChatHubMessage) (provider model : string)
    (contextFiles : list ChatHubAgentKnowledgeItem)
    (records : list MessageRecord) :
  buildConversationHistory f history provider model contextFiles = Ok records →
  ∀ r url, r ∈ records → ImageUrlBlock url ∈ entryBlocks r →
    ∃ a, a ∈ fetchable history contextFiles ∧ getDataUrl f a = Ok url ∧
         isTextFile (bd_mimeType a) = false ∧
         getMimeTypeModality f (bd_mimeType a)
           ∈ inputModalities (getModelMetadata f provider model).
Proof.
  unfold buildConversationHistory, conversationWithin.
  set (md := getModelMetadata f provider model).
  set (all := fetchable history contextFiles).
  destruct (messageLoop f maxTotalPayloadSize md (reverse history) [] 0)
    as [[vals s1]|e] eqn:Hmsgs; [|done].
  cbn [mbind Outcome_bind].
  destruct (contextLoop f maxTotalPayloadSize md (length contextFiles) 0
              contextFiles [] s1) as [[cblocks s2]|e] eqn:Hctx; [|done].
  cbn [mbind Outcome_bind fmap Outcome_fmap fst]. intros [= <-] r url Hr Hurl.
  assert (Forall (λ r, Forall (mediaFrom f md all) (entryBlocks r)) vals) as Hv.
  { eapply messageLoop_media; [|constructor|exact Hmsgs].
    intros a Ha. by apply fetchable_history, bind_reverse_elem. }
  assert (Forall (mediaFrom f md all) cblocks) as Hc.
  { eapply contextLoop_media; [|constructor|exact Hctx].
    intros a Ha. by apply fetchable_context. }
  rewrite elem_of_reverse in Hr.
  assert (Forall (mediaFrom f md all) (entryBlocks r)) as Hblocks.
  { destruct cblocks as [|b cblocks]; cbn beta iota in Hr.
    - rewrite Forall_forall in Hv. by apply Hv.
    - apply elem_of_app in Hr as [Hr|Hr].
      + rewrite Forall_forall in Hv. by apply Hv.
      + apply list_elem_of_singleton in Hr as ->. exact Hc. }
  rewrite Forall_forall in Hblocks. exact (Hblocks _ Hurl).
Qed.

End conversation_fetches.

(** ** buildMessageHistory: known conversations *)

Section history_more.
Import History Notions.
Local Open Scope list_scope.

Lemma fromEntries_snoc rows x :
  fromEntries (rows ++ [x]) = <[msg_id x := x]> (fromEntries rows).
Proof. unfold fromEntries. by rewrite foldl_app. Qed.

(** With distinct ids, every row is found under its own id. *)
Lemma fromEntries_lookup rows x :
  NoDup (msg_id <$> rows) → x ∈ rows →
  fromEntries rows !! msg_id x = Some x.
Proof.
  induction rows as [|y rows IH] using rev_ind; intros Hnd Hin; [set_solver|].
  rewrite fromEntries_snoc. rewrite fmap_app in Hnd.
  apply NoDup_app in Hnd as (Hnd & Hdisj & _).
  apply elem_of_app in Hin as [Hin|Hin].
  - rewrite lookup_insert_ne; [by apply IH|].
    intros Heq. apply (Hdisj (msg_id x)).
    + by apply list_elem_of_fmap_2.
    + rewrite <- Heq. set_solver.
  - apply list_elem_of_singleton in Hin as ->. by rewrite lookup_insert_eq.
Qed.

Lemma lookupAll_rows (rows part : list ChatHubMessage) :
  NoDup (msg_id <$> rows) → (∀ x, x ∈ part → x ∈ rows) →
  lookupAll (fromEntries rows) (msg_id <$> part) = part.
Proof.
  intros Hnd. unfold lookupAll.
  induction part as [|x part IH]; intros Hsub; [done|].
  cbn [fmap list_fmap omap list_omap].
  rewrite fromEntries_lookup by set_solver.
  f_equal. apply IH. set_solver.
Qed.

(** In a linked list of rows, the parent of a row is the row before it. *)
Lemma linkedFrom_middle previous l1 x l2 :
  linkedFrom previous (l1 ++ x :: l2) →
  msg_previousMessageId x = default previous (Some ∘ msg_id <$> last l1) ∧
  msg_id x ≠ "".
Proof.
  revert previous. induction l1 as [|y l1 IH]; intros previous Hl.
  - destruct Hl as (Hp & Hne & _). done.
  - destruct Hl as (_ & _ & Hl). destruct (IH _ Hl) as [Hprev Hne].
    split; [|done]. rewrite Hprev.
    destruct l1 as [|z l1]; [done|]. rewrite last_cons_cons.
    destruct (last (z :: l1)) eqn:Hlast; [done|].
    by apply last_None in Hlast.
Qed.

Lemma Chain_linear pre m post start ids :
  let rows := pre ++ m :: post in
  linear rows →
  Chain (fromEntries rows) start ids → start = msg_id m →
  ∃ pre1 pre2, pre = pre1 ++ pre2 ∧ ids = msg_id <$> (pre2 ++ [m]).
Proof.
  intros rows [Hlinked Hnd] Hchain ->.
  induction Hchain as [Hne|p h t Hchain IH Hparent Hp Hfresh].
  - exists pre, []. by rewrite app_nil_r.
  - destruct IH as (pre1 & pre2 & -> & Hids).
    assert (∃ x rest, pre2 ++ [m] = x :: rest) as (x & rest & Hx).
    { destruct pre2; simpl; eauto. }
    rewrite Hx in Hids. cbn in Hids. injection Hids as -> ->.
    assert (x ∈ rows) as Hin.
    { subst rows. assert (x ∈ pre2 ++ [m]) by (rewrite Hx; set_solver).
      set_solver. }
    unfold parent in Hparent. rewrite fromEntries_lookup in Hparent by done.
    cbn in Hparent.
    assert (rows = pre1 ++ x :: (rest ++ post)) as Hrows.
    { subst rows. rewrite <- app_assoc.
      change (m :: post) with ([m] ++ post). rewrite (app_assoc pre2).
      by rewrite Hx. }
    rewrite Hrows in Hlinked.
    apply linkedFrom_middle in Hlinked as [Hprev _].
    rewrite Hprev in Hparent.
    destruct pre1 as [|y pre1 _] using rev_ind; [done|].
    rewrite last_snoc in Hparent. cbn in Hparent. injection Hparent as <-.
    exists pre1, (y :: pre2). rewrite <- app_assoc. split; [done|].
    change ((y :: pre2) ++ [m]) with (y :: (pre2 ++ [m])). by rewrite Hx.
Qed.

(** X5. In a conversation without branches (the first message has no
    parent, every other names the one before it, ids are distinct and
    non-empty), the history of a message is the conversation up to and
    including that message, in order: looking the rows up by id after
    [Object.fromEntries] and walking the parents gives the rows back. *)
Theorem buildMessageHistory_linear (pre post : list ChatHubMessage)
    (m : ChatHubMessage) :
  linear (pre ++ m :: post) →
  buildMessageHistory (fromEntries (pre ++ m :: post)) (Some (msg_id m))
  = Some (pre ++ [m]).
Proof.
  intros Hlin. pose proof Hlin as [Hlinked Hnd].
  apply linkedFrom_middle in Hlinked as [Hprev Hne].
  unfold buildMessageHistory. cbn [truthy].
  rewrite bool_decide_true by done. cbn [negb].
  destruct (historyIds_Chain (fromEntries (pre ++ m :: post)) (msg_id m) Hne)
    as (ids & -> & Hchain & h & Hhead & Hstop).
  cbn [mbind option_bind]. f_equal.
  destruct (Chain_linear pre m post _ _ Hlin Hchain eq_refl)
    as (pre1 & pre2 & -> & ->).
  assert (∃ x rest, pre2 ++ [m] = x :: rest) as (x & rest & Hx).
  { destruct pre2; simpl; eauto. }
  assert (pre1 = []) as ->; last first.
  { cbn [app]. apply lookupAll_rows; [done|]. intros y Hy.
    change (m :: post) with ([m] ++ post). rewrite app_assoc. set_solver. }
  rewrite Hx in Hhead. cbn in Hhead. injection Hhead as <-.
  assert (x ∈ (pre1 ++ pre2) ++ m :: post) as Hin.
  { assert (x ∈ pre2 ++ [m]) by (rewrite Hx; set_solver). set_solver. }
  assert ((pre1 ++ pre2) ++ m :: post = pre1 ++ x :: (rest ++ post)) as Hrows.
  { rewrite <- app_assoc. change (m :: post) with ([m] ++ post).
    rewrite (app_assoc pre2). by rewrite Hx. }
  pose proof (proj1 Hlin) as Hlinked. rewrite Hrows in Hlinked.
  pose proof Hlinked as Hl2.
  apply linkedFrom_middle in Hlinked as [Hpx _].
  unfold parent in Hstop. rewrite fromEntries_lookup in Hstop by done.
  cbn in Hstop. rewrite Hpx in Hstop.
  destruct pre1 as [|y pre1 _] using rev_ind; [done|]. exfalso.
  rewrite last_snoc in Hstop. cbn in Hstop.
  rewrite Hrows in Hnd.
  rewrite <- app_assoc in Hl2. cbn in Hl2.
  apply linkedFrom_middle in Hl2 as [_ Hy].
  destruct Hstop as [Hfalse|(p & [= <-] & Hp)].
  - by rewrite bool_decide_true in Hfalse.
  - rewrite fmap_app in Hnd. apply NoDup_app in Hnd as (_ & Hdisj & _).
    apply (Hdisj (msg_id y)).
    + apply list_elem_of_fmap_2. set_solver.
    + rewrite Hx in Hp.
      change (x :: rest ++ post) with ((x :: rest) ++ post).
      rewrite fmap_app. set_solver.
Qed.




End history_more.

(** ** Attachments kept by an edit *)

Section kept_props.
Import Service.
Local Open Scope list_scope.

(** X7. The attachments an edit keeps are the originals at the requested
    indices, in the order of the request: an index that is negative or not
    below the number of originals is skipped, an index named twice keeps
    the attachment twice. *)
Theorem keptAttachments_selects (originalAttachments : list IBinaryData)
    (keepAttachmentIndices : list Z) :
  Forall2 (λ index a, originalAttachments !! Z.to_nat index = Some a)
    (filter (λ index, 0 ≤ index < Z.of_nat (length originalAttachments))
       keepAttachmentIndices)
    (keptAttachments originalAttachments keepAttachmentIndices).
Proof.
  unfold keptAttachments.
  induction keepAttachmentIndices as [|i idxs IH]; [constructor|].
  rewrite filter_cons. cbn [omap list_omap]. unfold attachmentAt at 1.
  case_bool_decide as Hi.
  - destruct (originalAttachments !! Z.to_nat i) as [a|] eqn:Ha.
    + apply lookup_lt_Some in Ha as Hlt.
      rewrite decide_True by lia. by constructor.
    + apply lookup_ge_None in Ha. by rewrite decide_False by lia.
  - by rewrite decide_False by lia.
Qed.

(** X8. Keeping every index [0 .. n-1] of the [n] original attachments, in
    order, keeps the original list. *)
Theorem keptAttachments_all (originalAttachments : list IBinaryData) :
  keptAttachments originalAttachments
    (Z.of_nat <$> seq 0 (length originalAttachments))
  = originalAttachments.
Proof.
  unfold keptAttachments.
  assert (∀ pre l : list IBinaryData,
            omap (attachmentAt (pre ++ l))
              (Z.of_nat <$> seq (length pre) (length l)) = l) as Hfrom.
  { intros pre l. revert pre. induction l as [|a l IH]; intros pre; [done|].
    cbn [length seq fmap list_fmap omap list_omap]. unfold attachmentAt at 1.
    rewrite bool_decide_true by lia. rewrite Nat2Z.id.
    rewrite list_lookup_middle by done. f_equal.
    specialize (IH (pre ++ [a])). rewrite <- app_assoc in IH.
    rewrite length_app in IH. cbn in IH.
    by rewrite Nat.add_1_r in IH. }
  exact (Hfrom [] originalAttachments).
Qed.

End kept_props.

(** ** The launch of an execution *)

Section launch_props.
Import Service Notions.
Local Open Scope list_scope.

Lemma withTrace_nil w : withTrace w [] = w.
Proof. destruct w. unfold withTrace. cbn. by rewrite app_nil_r. Qed.

Lemma withTrace_app w evs1 evs2 :
  withTrace (withTrace w evs1) evs2 = withTrace w (evs1 ++ evs2).
Proof. unfold withTrace. cbn. by rewrite app_assoc. Qed.

Lemma call_run env ev w :
  call env ev w
  = (match fails env ev with Some e => Throw e | None => Ok tt end,
     withTrace w [ev]).
Proof.
  unfold call, emit, withTrace. run_monad.
  by destruct (fails env ev).
Qed.

Lemma emit_run ev w : emit ev w = (Ok tt, withTrace w [ev]).
Proof. reflexivity. Qed.

(** The run of the private executeChatWorkflowWithCleanup. *)
Lemma executeChatWorkflowWithCleanup_run env model workflow sessionId
    previousMessageId retryOf original humanMessage atts w :
  executeChatWorkflowWithCleanup env model workflow sessionId
    previousMessageId retryOf original humanMessage atts w
  = (match fails env (ExecuteChatWorkflow model workflow sessionId
                        previousMessageId retryOf) with
     | Some e => Throw e
     | None => Ok tt
     end,
     withTrace w
       (ExecuteChatWorkflow model workflow sessionId previousMessageId retryOf
        :: titleEvents env model workflow sessionId previousMessageId retryOf
             original humanMessage atts)).
Proof.
  unfold executeChatWorkflowWithCleanup, titleEvents.
  rewrite bind_run, call_run.
  destruct (fails env (ExecuteChatWorkflow _ _ _ _ _)) as [e|]; [done|].
  destruct original as [o|].
  - done.
  - case_bool_decide; [|done].
    unfold tryCatch. rewrite call_run.
    destruct (fails env (GenerateSessionTitle _ _ _ _)) as [e|].
    + rewrite emit_run, !withTrace_app. done.
    + by rewrite withTrace_app.
Qed.


End launch_props.

(** ** Sending a human message *)

Section send_props.
Import Service Conversation Notions.
Local Open Scope list_scope.

Lemma ensurePreviousMessage_run previousMessageId sessionId w :
  ensurePreviousMessage previousMessageId sessionId w
  = (match previousMessageId with
     | Some id =>
         if truthy previousMessageId then
           match findMessage id sessionId w with
           | Some m => Ok (Some m)
           | None => Throw (BadRequestError
                       "The previous message does not exist in the session")
           end
         else Ok None
     | None => Ok None
     end, w).
Proof.
  unfold ensurePreviousMessage, findMessage.
  destruct previousMessageId as [id|]; [|done].
  destruct (truthy (Some id)); [|done].
  unfold messageGetOneById. run_monad. by destruct (List.find _ _).
Qed.

Lemma createHumanMessage_run env sessionId messageId message atts prev rev w :
  let row := humanMessageRow sessionId messageId message atts prev rev in
  createHumanMessage env sessionId messageId message atts prev rev w
  = match dbFails env (InsertMessage row) with
    | Some e => (Throw e, w)
    | None => (Ok tt,
               {| sessions := sessions w; messages := messages w ++ [row];
                  trace := trace w;
                  storedAttachments := storedAttachments w |})
    end.
Proof.
  intros row. unfold createHumanMessage. fold row. rewrite bind_run.
  by destruct (dbFails env (InsertMessage row)).
Qed.

Lemma updateChatMessage_run env id fields w :
  updateChatMessage env id fields w
  = match dbFails env (UpdateMessage id) with
    | Some e => (Throw e, w)
    | None => (Ok tt,
               {| sessions := sessions w;
                  messages := updateRows id fields (messages w);
                  trace := trace w;
                  storedAttachments := storedAttachments w |})
    end.
Proof.
  unfold updateChatMessage. rewrite bind_run.
  by destruct (dbFails env (UpdateMessage id)).
Qed.

Lemma existsb_elem_of (x : string) (l : list string) :
  existsb (λ y, bool_decide (y = x)) l = true ↔ x ∈ l.
Proof.
  induction l as [|y l IH]; simpl.
  - split; [done|]. by intros ?%elem_of_nil.
  - rewrite elem_of_cons. case_bool_decide; simpl; [naive_solver|].
    rewrite IH. naive_solver.
Qed.

(** The run of ensureValidModel. *)
Lemma ensureValidModel_run env user model w :
  (ensureValidModel env user model w = (Ok tt, w) ∧ validModel env user model)
  ∨ (∃ msg, ensureValidModel env user model w = (Throw (BadRequestError msg), w)
            ∧ ¬ validModel env user model).
Proof.
  unfold ensureValidModel, validModel.
  destruct model as [workflowId|agentId|p n].
  - destruct (findWorkflowForUser env workflowId (user_id user))
      as [[nodes|]|] eqn:Hfind.
    + destruct (existsb _ nodes) eqn:Hex.
      * left. split; [done|]. exists nodes. split; [done|].
        by apply existsb_elem_of.
      * right. eexists. split; [done|]. intros (nodes' & [= <-] & Hin).
        apply existsb_elem_of in Hin. congruence.
    + right. eexists. split; [done|]. by intros (? & ? & _).
    + right. eexists. split; [done|]. by intros (? & ? & _).
  - destruct (getAgentById env (user_id user) agentId) as [agent|].
    + left. split; [done|]. by eexists.
    + right. eexists. split; [done|]. by intros [? ?].
  - by left.
Qed.

(** The run of createChatSession. *)
Lemma createChatSession_run env user sessionId model cred tools name w :
  let row := sessionRow sessionId (user_id user) model cred tools name in
  (createChatSession env user sessionId model cred tools name w
   = (Ok (row, None),
      {| sessions := sessions w ++ [row]; messages := messages w;
         trace := trace w; storedAttachments := storedAttachments w |})
   ∧ validModel env user model ∧ dbFails env (InsertSession row) = None)
  ∨ (∃ e, createChatSession env user sessionId model cred tools name w
          = (Throw e, w)
          ∧ (validModel env user model →
             dbFails env (InsertSession row) = Some e)).
Proof.
  intros row. unfold createChatSession. fold row. rewrite bind_run.
  destruct (ensureValidModel_run env user model w)
    as [[-> Hvalid]|(msg & -> & Hinvalid)].
  - rewrite bind_run.
    destruct (dbFails env (InsertSession row)) as [e|] eqn:Hdb; cbn [failWith].
    + right. exists e. done.
    + left. done.
  - right. eexists. split; [done|]. done.
Qed.

(** X10. A session is created only for a model the user may start: a
    workflow of the user with an active version that holds a chat trigger
    node, an agent of the user, or a pair of provider and model. It is then
    added as the last row, bound to that model and owned by the user. When
    the model is refused or the insert fails, nothing changes. *)
Theorem createChatSession_valid_model (env : Env) (user : User)
    (sessionId : string) (model : ChatHubConversationModel)
    (credentialId : option string) (tools : list string)
    (agentName : option string) (w : World) :
  let row := sessionRow sessionId (user_id user) model credentialId tools
               agentName in
  match createChatSession env user sessionId model credentialId tools
          agentName w with
  | (Ok (session, _), w') =>
      validModel env user model ∧ session = row ∧
      sessions w' = sessions w ++ [row] ∧ messages w' = messages w ∧
      trace w' = trace w
  | (Throw e, w') =>
      w' = w ∧
      (¬ validModel env user model → ∃ msg, e = BadRequestError msg)
  end.
Proof.
  intros row.
  destruct (createChatSession_run env user sessionId model credentialId tools
              agentName w) as [(-> & Hvalid & _)|(e & Hrun & Hdb)].
  - done.
  - unfold createChatSession in *. rewrite bind_run in *.
    destruct (ensureValidModel_run env user model w)
      as [[Hok Hvalid]|(msg & Hthrow & Hinvalid)].
    + rewrite Hok in *. rewrite bind_run in *.
      destruct (dbFails env _); cbn [failWith] in *; [|done].
      split; [done|]. tauto.
    + rewrite Hthrow. split; [done|]. eauto.
Qed.

(** The launch: the broadcast, then either the resumption of the waiting
    execution or a new execution. *)
Lemma sendHumanMessageLaunch_run env user payload workflow previousMessage w :
  let sessionId := hp_sessionId payload in
  let messageId := hp_messageId payload in
  let message := hp_message payload in
  let model := hp_model payload in
  let previousMessageId := hp_previousMessageId payload in
  let broadcast :=
    SendHumanMessage (user_id user) sessionId messageId previousMessageId
      message (map attachmentInfo (storedAttachments w)) in
  let execute :=
    (Ok tt,
     withTrace w
       (broadcast ::
        ExecuteChatWorkflow model workflow sessionId messageId None ::
        titleEvents env model workflow sessionId messageId None
          previousMessageId message (storedAttachments w))) in
  sendHumanMessageLaunch env user payload (workflow, previousMessage) w
  = match fails env broadcast with
    | Some e => (Throw e, withTrace w [broadcast])
    | None =>
        match previousMessage with
        | Some previous =>
            if bool_decide (modelProvider model = ProvN8n)
               && bool_decide (pw_responseMode workflow = "responseNodes")
               && bool_decide (msg_status previous = StWaiting)
               && truthyNumber (msg_executionId previous)
            then
              match msg_executionId previous ≫= findSingleExecution env with
              | None => (Throw (OperationalError "Chat session has expired."),
                         withTrace w [broadcast])
              | Some executionId =>
                  let debug :=
                    Debug ("Resuming execution " ++ executionId
                             ++ " from waiting state for session "
                             ++ sessionId) in
                  match dbFails env (UpdateMessage (msg_id previous)) with
                  | Some e => (Throw e, withTrace w [broadcast; debug])
                  | None =>
                      (Ok tt,
                       {| sessions := sessions w;
                          messages := updateRows (msg_id previous)
                                        (withStatus StSuccess) (messages w);
                          trace := trace w ++
                            [broadcast; debug;
                             ResumeChatExecution executionId message sessionId
                               messageId model (pw_responseMode workflow)];
                          storedAttachments := storedAttachments w |})
                  end
              end
            else execute
        | None => execute
        end
    end.
Proof.
  intros sessionId messageId message model previousMessageId broadcast execute.
  unfold sendHumanMessageLaunch.
  fold sessionId messageId message model previousMessageId.
  rewrite bind_run. cbn [getWorld]. fold broadcast.
  rewrite bind_run, call_run.
  destruct (fails env broadcast) as [e|]; [done|].
  assert (detached
            (executeChatWorkflowWithCleanup env model workflow sessionId
               messageId None previousMessageId message (storedAttachments w))
            (withTrace w [broadcast]) = execute) as Hexecute.
  { unfold detached. rewrite executeChatWorkflowWithCleanup_run.
    cbn [snd]. by rewrite withTrace_app. }
  destruct previousMessage as [previous|]; [|exact Hexecute].
  destruct (bool_decide (modelProvider model = ProvN8n)
            && bool_decide (pw_responseMode workflow = "responseNodes")
            && bool_decide (msg_status previous = StWaiting)
            && truthyNumber (msg_executionId previous)); [|exact Hexecute].
  destruct (msg_executionId previous ≫= findSingleExecution env)
    as [executionId|]; [|done].
  rewrite bind_run, emit_run, withTrace_app.
  rewrite bind_run, updateChatMessage_run.
  destruct (dbFails env (UpdateMessage (msg_id previous))) as [e|]; [done|].
  unfold detached. rewrite call_run. unfold withTrace.
  cbn [snd sessions messages trace storedAttachments].
  by rewrite <- !app_assoc.
Qed.

Lemma titleEvents_no_launch env model workflow sessionId previousMessageId
    retryOf original humanMessage atts :
  Forall (λ ev, isResume ev = false ∧ isExecute ev = false)
    (titleEvents env model workflow sessionId previousMessageId retryOf
       original humanMessage atts).
Proof.
  unfold titleEvents.
  destruct (fails env (ExecuteChatWorkflow _ _ _ _ _)); [constructor|].
  destruct original; [constructor|].
  case_bool_decide; [|constructor].
  constructor; [done|]. destruct (fails env _); repeat constructor.
Qed.

Lemma filter_none {A} (P : A → bool) (l : list A) :
  Forall (λ x, P x = false) l → List.filter P l = [].
Proof.
  induction 1 as [|x l Hx _ IH]; [done|]. simpl. by rewrite Hx.
Qed.


(** X12. A launch starts at most one execution: it never both resumes a
    waiting execution and starts a new one, and when it returns it did
    exactly one of the two. It resumes only when the previous message is a
    waiting question of a hosted workflow in [responseNodes] mode. *)
Theorem sendHumanMessageLaunch_one_execution (env : Env) (user : User)
    (payload : HumanMessagePayload) (workflow : PreparedChatWorkflow)
    (previousMessage : option ChatHubMessage) (w : World) :
  let run := sendHumanMessageLaunch env user payload
               (workflow, previousMessage) w in
  ∃ events,
    trace (snd run) = trace w ++ events ∧
    (length (List.filter isResume events)
     + length (List.filter isExecute events) ≤ 1)%nat ∧
    (fst run = Ok tt →
     (length (List.filter isResume events)
      + length (List.filter isExecute events) = 1)%nat) ∧
    (List.filter isResume events ≠ [] →
     ∃ previous, previousMessage = Some previous ∧
                 awaitsInput (hp_model payload) workflow previous).
Proof.
  intros run. subst run. rewrite sendHumanMessageLaunch_run.
  set (broadcast := SendHumanMessage _ _ _ _ _ _).
  set (title := titleEvents _ _ _ _ _ _ _ _ _).
  assert (List.filter isResume title = [] ∧ List.filter isExecute title = [])
    as [Hr He].
  { pose proof (titleEvents_no_launch env (hp_model payload) workflow
                  (hp_sessionId payload) (hp_messageId payload) None
                  (hp_previousMessageId payload) (hp_message payload)
                  (storedAttachments w)) as Hno.
    fold title in Hno. split; apply filter_none;
      eapply Forall_impl; [exact Hno|by intros ? []|exact Hno|by intros ? []]. }
  assert (∀ ex, ∃ events,
            trace (withTrace w (broadcast :: ex :: title))
            = trace w ++ events ∧
            (isExecute ex = true → isResume ex = false →
             (length (List.filter isResume events)
              + length (List.filter isExecute events) = 1)%nat ∧
             List.filter isResume events = [])) as Hexecute.
  { intros ex. eexists. split; [reflexivity|]. intros Hex Hre.
    cbn [List.filter isResume isExecute broadcast]. rewrite Hex, Hre, Hr, He.
    done. }
  destruct (fails env broadcast) as [e|].
  { exists [broadcast]. cbn. repeat split; try done. lia. }
  destruct previousMessage as [previous|]; last first.
  { destruct (Hexecute (ExecuteChatWorkflow (hp_model payload) workflow
                          (hp_sessionId payload) (hp_messageId payload) None))
      as (events & Ht & Hcount).
    destruct (Hcount eq_refl eq_refl) as [Hone Hnone].
    exists events. cbn [fst snd]. rewrite Ht.
    repeat split; try done; lia. }
  destruct (bool_decide (modelProvider (hp_model payload) = ProvN8n)
            && bool_decide (pw_responseMode workflow = "responseNodes")
            && bool_decide (msg_status previous = StWaiting)
            && truthyNumber (msg_executionId previous)) eqn:Hres; last first.
  { destruct (Hexecute (ExecuteChatWorkflow (hp_model payload) workflow
                          (hp_sessionId payload) (hp_messageId payload) None))
      as (events & Ht & Hcount).
    destruct (Hcount eq_refl eq_refl) as [Hone Hnone].
    exists events. cbn [fst snd]. rewrite Ht.
    repeat split; try done; lia. }
  assert (awaitsInput (hp_model payload) workflow previous) as Hawaits.
  { apply andb_prop in Hres as [Hres H4]. apply andb_prop in Hres as [Hres H3].
    apply andb_prop in Hres as [H1 H2].
    apply bool_decide_eq_true in H1, H2, H3. done. }
  destruct (msg_executionId previous ≫= findSingleExecution env)
    as [executionId|].
  - destruct (dbFails env (UpdateMessage (msg_id previous))) as [e|].
    + eexists. split; [reflexivity|]. cbn. repeat split; try done; try lia.
    + eexists. split; [reflexivity|]. cbn. repeat split; eauto.
  - exists [broadcast]. cbn. repeat split; try done. lia.
Qed.

(** What a transaction of sendHumanMessage that returns has done. *)
Lemma sendHumanMessageTransaction_ok env user payload w workflow previous w3 :
  let sessionId := hp_sessionId payload in
  let messageId := hp_messageId payload in
  let model := hp_model payload in
  sendHumanMessageTransaction env user payload w
  = (Ok (workflow, previous), w3) →
  ∃ processed,
    stored env (StoreMessageAttachments sessionId messageId
                  (hp_attachments payload)) = Ok processed ∧
    storedAttachments w3 = processed ∧
    (match findSession sessionId (user_id user) w with
     | Some _ => sessions w3 = sessions w
     | None =>
         validModel env user model ∧
         sessions w3 = sessions w ++
           [sessionRow sessionId (user_id user) model
              (getModelCredential env model (hp_credentials payload))
              (hp_tools payload) (hp_agentName payload)]
     end) ∧
    previous = (if truthy (hp_previousMessageId payload)
                then hp_previousMessageId payload
                       ≫= λ id, findMessage id sessionId w
                else None) ∧
    (truthy (hp_previousMessageId payload) = true → is_Some previous) ∧
    messages w3 = messages w ++
      [humanMessageRow sessionId messageId (hp_message payload) processed
         (hp_previousMessageId payload) None] ∧
    trace w `prefix_of` trace w3.
Proof.
  intros sessionId messageId model. unfold sendHumanMessageTransaction.
  fold sessionId messageId model.
  rewrite bind_run, getChatSession_run. rewrite bind_run.
  set (cred := getModelCredential env model (hp_credentials payload)).
  assert (∃ r1 w1,
    match (λ s, (s, Some (sessionMessages sessionId w))) <$>
          findSession sessionId (user_id user) w with
    | Some session => mret session
    | None => createChatSession env user sessionId model cred
                (hp_tools payload) (hp_agentName payload)
    end w = (r1, w1) ∧
    (is_Some (from_option Some None (match r1 with Ok a => Some a | Throw _ => None end)) →
     messages w1 = messages w ∧ trace w1 = trace w ∧
     match findSession sessionId (user_id user) w with
     | Some _ => sessions w1 = sessions w
     | None =>
         validModel env user model ∧
         sessions w1 = sessions w ++
           [sessionRow sessionId (user_id user) model cred
              (hp_tools payload) (hp_agentName payload)]
     end)) as (r1 & w1 & -> & Hw1).
  { destruct (findSession _ _ w) as [s|]; cbn [fmap option_fmap option_map].
    - eexists _, _. split; [reflexivity|]. done.
    - destruct (createChatSession_run env user sessionId model cred
                  (hp_tools payload) (hp_agentName payload) w)
        as [(-> & Hvalid & _)|(e & -> & _)].
      + eexists _, _. split; [reflexivity|]. done.
      + eexists _, _. split; [reflexivity|]. by intros [? ?]. }
  destruct r1 as [session|e]; [|done].
  destruct Hw1 as (Hm1 & Ht1 & Hs1); [by eexists|].
  rewrite bind_run, ensurePreviousMessage_run.
  assert (findMessage_eq : ∀ id, findMessage id sessionId w1
                                 = findMessage id sessionId w).
  { intros id. unfold findMessage. by rewrite Hm1. }
  destruct (match hp_previousMessageId payload with
            | Some id => if truthy (hp_previousMessageId payload)
                         then match findMessage id sessionId w1 with
                              | Some m => Ok (Some m)
                              | None => Throw _
                              end
                         else Ok None
            | None => Ok None
            end) as [prev|e] eqn:Hprev; [|done].
  cbv zeta. rewrite bind_run.
  set (ev := StoreMessageAttachments _ _ _).
  rewrite bind_run. cbn [emit]. unfold liftOutcome at 1.
  destruct (stored env ev) as [atts|e] eqn:Hstored; [|done].
  rewrite bind_run. cbn [setStoredAttachments].
  rewrite bind_run, createHumanMessage_run.
  destruct (dbFails env (InsertMessage _)) as [e|]; [done|].
  rewrite bind_run.
  match goal with
  | |- context [prepareReplyWorkflow ?e ?u ?s ?c ?m ?h ?i ?t ?z ?w0] =>
      pose proof (outsideOnly_prepareReplyWorkflow e u s c m h i t z w0)
        as (Hs2 & Hm2 & Hst2 & Ht2);
      destruct (prepareReplyWorkflow e u s c m h i t z w0) as [[wf|e'] w2]
  end; [|done].
  intros [= <- <- <-]. cbn [snd sessions messages trace storedAttachments] in *.
  exists atts. split; [done|]. split; [done|].
  split. { destruct (findSession _ _ w); [congruence|].
           destruct Hs1 as [? Hs1]. split; [done|]. congruence. }
  assert (prev = (if truthy (hp_previousMessageId payload)
                  then hp_previousMessageId payload
                         ≫= λ id, findMessage id sessionId w
                  else None)) as Hprev'.
  { destruct (hp_previousMessageId payload) as [id|]; [|by injection Hprev].
    destruct (truthy (Some id)); [|by injection Hprev].
    cbn [mbind option_bind]. rewrite findMessage_eq in Hprev.
    destruct (findMessage id sessionId w); [by injection Hprev|done]. }
  split; [done|].
  split.
  { intros Htruthy. rewrite Htruthy in Hprev.
    destruct (hp_previousMessageId payload) as [id|]; [|done].
    destruct (findMessage id sessionId w1); [|done].
    injection Hprev as <-. by eexists. }
  split; [by rewrite Hm2, Hm1|].
  etrans; [|exact Ht2]. rewrite Ht1. by apply prefix_app_r.
Qed.

End send_props.

Section send_more.
Import Service Conversation Notions.
Local Open Scope list_scope.

Lemma cleanupAndRethrow_nothing_stored {A} env e w :
  storedAttachments w = [] →
  cleanupAndRethrow (A:=A) env e w = (Throw e, w).
Proof.
  intros Hst. unfold cleanupAndRethrow. run_monad. by rewrite Hst.
Qed.

(** X13. A message that names a previous message which is not in the
    session is refused before anything is stored, announced or launched:
    the call throws, the rows and the trace are as before, and a session
    row created for the request is rolled back. On an existing session the
    error is the BadRequestError of ensurePreviousMessage. *)
Theorem sendHumanMessage_unknown_previous (env : Env) (user : User)
    (payload : HumanMessagePayload) (w : World) (id : string) :
  hp_previousMessageId payload = Some id → id ≠ "" →
  findMessage id (hp_sessionId payload) w = None →
  ∃ e, sendHumanMessage env user payload w = (Throw e, resetStored w) ∧
       (is_Some (findSession (hp_sessionId payload) (user_id user) w) →
        e = BadRequestError
              "The previous message does not exist in the session").
Proof.
  intros Hprev Hid Hnone.
  assert (∀ w1, messages w1 = messages w →
            ensurePreviousMessage (hp_previousMessageId payload)
              (hp_sessionId payload) w1
            = (Throw (BadRequestError
                 "The previous message does not exist in the session"), w1))
    as Hensure.
  { intros w1 Hm. rewrite ensurePreviousMessage_run, Hprev. cbn [truthy].
    rewrite bool_decide_true by done.
    unfold findMessage in *. by rewrite Hm, Hnone. }
  unfold sendHumanMessage. rewrite bind_run. cbn [setStoredAttachments].
  change {| sessions := sessions w; messages := messages w; trace := trace w;
            storedAttachments := [] |} with (resetStored w).
  rewrite bind_run. unfold tryCatch. rewrite transaction_run.
  unfold sendHumanMessageTransaction.
  rewrite bind_run, getChatSession_run, bind_run.
  change (findSession (hp_sessionId payload) (user_id user) (resetStored w))
    with (findSession (hp_sessionId payload) (user_id user) w).
  destruct (findSession _ _ w) as [s|]; cbn [fmap option_fmap option_map].
  - cbn [mret M_ret]. rewrite bind_run, Hensure by done.
    eexists. split; [|done].
    rewrite cleanupAndRethrow_nothing_stored by reflexivity. reflexivity.
  - match goal with
    | |- context [createChatSession ?e ?u ?s ?m ?c ?t ?n ?w0] =>
        destruct (createChatSession_run e u s m c t n w0)
          as [(-> & _)|(e' & -> & _)]
    end.
    + rewrite bind_run, Hensure by done.
      eexists. split; [|intros [? ?]; discriminate].
      rewrite cleanupAndRethrow_nothing_stored by reflexivity. reflexivity.
    + exists e'. split; [|intros [? ?]; discriminate].
      rewrite cleanupAndRethrow_nothing_stored by reflexivity. reflexivity.
Qed.

(** X14. When sendHumanMessage returns, the attachment service stored the
    attachments of the request; the session existed, or the model was one
    the user may start and the session was added; exactly one message row
    was added, the human message of the request with the stored
    attachments and the named parent, which exists in the session; the only
    other change to a row is the status of a waiting parent that was
    resumed; and the message was broadcast with the stored attachments. *)
Theorem sendHumanMessage_completes (env : Env) (user : User)
    (payload : HumanMessagePayload) (w w' : World) :
  let sessionId := hp_sessionId payload in
  let messageId := hp_messageId payload in
  let model := hp_model payload in
  sendHumanMessage env user payload w = (Ok tt, w') →
  ∃ processed workflow previous,
    stored env (StoreMessageAttachments sessionId messageId
                  (hp_attachments payload)) = Ok processed ∧
    storedAttachments w' = processed ∧
    (match findSession sessionId (user_id user) w with
     | Some _ => sessions w' = sessions w
     | None =>
         validModel env user model ∧
         sessions w' = sessions w ++
           [sessionRow sessionId (user_id user) model
              (getModelCredential env model (hp_credentials payload))
              (hp_tools payload) (hp_agentName payload)]
     end) ∧
    previous = (if truthy (hp_previousMessageId payload)
                then hp_previousMessageId payload
                       ≫= λ id, findMessage id sessionId w
                else None) ∧
    (truthy (hp_previousMessageId payload) = true → is_Some previous) ∧
    (let rows := messages w ++
       [humanMessageRow sessionId messageId (hp_message payload) processed
          (hp_previousMessageId payload) None] in
     messages w' = rows ∨
     ∃ waiting, previous = Some waiting ∧
                awaitsInput model workflow waiting ∧
                messages w' = updateRows (msg_id waiting)
                                (withStatus StSuccess) rows) ∧
    SendHumanMessage (user_id user) sessionId messageId
      (hp_previousMessageId payload) (hp_message payload)
      (map attachmentInfo processed) ∈ trace w' ∧
    trace w `prefix_of` trace w'.
Proof.
  intros sessionId messageId model.
  unfold sendHumanMessage. rewrite bind_run. cbn [setStoredAttachments].
  change {| sessions := sessions w; messages := messages w; trace := trace w;
            storedAttachments := [] |} with (resetStored w).
  rewrite bind_run. unfold tryCatch. rewrite transaction_run.
  destruct (sendHumanMessageTransaction env user payload (resetStored w))
    as [[[workflow previous]|e] w3] eqn:Hbody; last first.
  { intros Hrun.
    pose proof (cleanupAndRethrow_throws
                  (A:=PreparedChatWorkflow * option ChatHubMessage)
                  env e (rollback (resetStored w) w3)) as Hthrow.
    destruct (cleanupAndRethrow env e _) as [[r|e'] w4]; [done|done]. }
  destruct (dbFails env Commit) as [e|].
  { intros Hrun.
    pose proof (cleanupAndRethrow_throws
                  (A:=PreparedChatWorkflow * option ChatHubMessage)
                  env e (rollback (resetStored w) w3)) as Hthrow.
    destruct (cleanupAndRethrow env e _) as [[r|e'] w4]; [done|done]. }
  apply sendHumanMessageTransaction_ok in Hbody
    as (processed & Hstored & Hst & Hsess & Hprev & Hsome & Hrows & Htrace).
  fold sessionId messageId model in Hstored, Hst, Hsess, Hprev, Hrows.
  change (findSession sessionId (user_id user) (resetStored w))
    with (findSession sessionId (user_id user) w) in Hsess.
  change (sessions (resetStored w)) with (sessions w) in Hsess.
  change (messages (resetStored w)) with (messages w) in Hrows.
  change (trace (resetStored w)) with (trace w) in Htrace.
  assert ((λ id, findMessage id sessionId (resetStored w))
          = (λ id, findMessage id sessionId w)) as Hfind by done.
  rewrite Hfind in Hprev. clear Hfind.
  rewrite sendHumanMessageLaunch_run.
  fold sessionId messageId model. rewrite Hst.
  set (broadcast := SendHumanMessage _ _ _ _ _ _).
  intros Hrun. exists processed, workflow, previous.
  split; [done|].
  assert (∀ evs,
            w' = withTrace w3 (broadcast :: evs) →
            storedAttachments w' = processed ∧
            sessions w' = sessions w3 ∧ messages w' = messages w3 ∧
            broadcast ∈ trace w' ∧ trace w `prefix_of` trace w') as Hexecute.
  { intros evs ->. cbn [withTrace storedAttachments sessions messages trace].
    repeat split; try done.
    - set_solver.
    - etrans; [exact Htrace|]. by apply prefix_app_r. }
  destruct (fails env broadcast) as [e|]; [done|].
  destruct previous as [waiting|]; last first.
  { injection Hrun as <-.
    edestruct Hexecute as (H1 & H2 & H3 & H4 & H5); [reflexivity|].
    rewrite H2, H3. repeat split; try done. by left. }
  destruct (bool_decide (modelProvider model = ProvN8n)
            && bool_decide (pw_responseMode workflow = "responseNodes")
            && bool_decide (msg_status waiting = StWaiting)
            && truthyNumber (msg_executionId waiting)) eqn:Hres; last first.
  { injection Hrun as <-.
    edestruct Hexecute as (H1 & H2 & H3 & H4 & H5); [reflexivity|].
    rewrite H2, H3. repeat split; try done. by left. }
  destruct (msg_executionId waiting ≫= findSingleExecution env)
    as [executionId|]; [|done].
  destruct (dbFails env (UpdateMessage (msg_id waiting))) as [e|]; [done|].
  injection Hrun as <-. cbn [sessions messages trace storedAttachments].
  repeat split; try done.
  - right. exists waiting. split; [done|]. split; [|by rewrite Hrows].
    apply andb_prop in Hres as [Hres H4]. apply andb_prop in Hres as [Hres H3].
    apply andb_prop in Hres as [H1 H2].
    apply bool_decide_eq_true in H1, H2, H3. done.
  - set_solver.
  - etrans; [exact Htrace|]. by apply prefix_app_r.
Qed.

End send_more.

(** ** Requests that are refused *)

Section refusal_props.
Import Service Conversation Sessions Notions.
Local Open Scope list_scope.

Lemma findSession_id sessionId userId w s :
  findSession sessionId userId w = Some s →
  sess_id s = sessionId ∧ sess_ownerId s = userId ∧ s ∈ sessions w.
Proof.
  unfold findSession. intros Hfind.
  apply find_some in Hfind as [Hin Hp]. apply bool_decide_eq_true in Hp.
  destruct Hp. repeat split; try done. by apply list_elem_of_In.
Qed.

Lemma ensureConversation_run userId sessionId w :
  ensureConversation userId sessionId w
  = (match findSession sessionId userId w with
     | Some _ => Ok tt
     | None => Throw (NotFoundError "Chat session not found")
     end, w).
Proof.
  unfold ensureConversation, sessionExistsById, findSession. run_monad.
  destruct (List.find _ (sessions w)) as [s|] eqn:Hfind.
  - assert (existsb
              (λ s, bool_decide (sess_id s = sessionId ∧ sess_ownerId s = userId))
              (sessions w) = true) as ->; [|done].
    apply existsb_find. by eexists.
  - destruct (existsb _ (sessions w)) eqn:Hex; [|done].
    apply existsb_find in Hex as [? Hex]. congruence.
Qed.

Lemma rollback_same w : rollback w w = w.
Proof. by destruct w. Qed.

Lemma rollback_reset w : rollback (resetStored w) (resetStored w) = resetStored w.
Proof. reflexivity. Qed.

(** The run of editMessage when its transaction throws before anything
    was stored. *)
Lemma editMessage_refused env user payload w e :
  editMessageTransaction env user payload (resetStored w)
  = (Throw e, resetStored w) →
  editMessage env user payload w = (Throw e, resetStored w).
Proof.
  intros Hbody. unfold editMessage. rewrite bind_run.
  cbn [setStoredAttachments].
  change {| sessions := sessions w; messages := messages w; trace := trace w;
            storedAttachments := [] |} with (resetStored w).
  rewrite bind_run. unfold tryCatch. rewrite transaction_run, Hbody.
  rewrite rollback_reset.
  rewrite cleanupAndRethrow_nothing_stored by reflexivity. reflexivity.
Qed.

Lemma regenerateAIMessage_refused env user payload w e :
  regenerateTransaction env user payload w = (Throw e, w) →
  regenerateAIMessage env user payload w = (Throw e, w).
Proof.
  intros Hbody. unfold regenerateAIMessage.
  rewrite bind_run, transaction_run, Hbody. by rewrite rollback_same.
Qed.

(** X15. A session id that names no session of the user is answered with
    the NotFoundError of the session by stopGeneration, editMessage,
    regenerateAIMessage, updateSession and getConversation alike, whether
    the session does not exist or belongs to another user. No row changes
    and no collaborator is called. *)
Theorem session_of_another_user (env : Env)
    (updateFails : SessionUpdates → option Error) (user : User)
    (sessionId : string) (w : World) :
  findSession sessionId (user_id user) w = None →
  (∀ messageId,
     stopGeneration env user sessionId messageId w
     = (Throw (NotFoundError "Chat session not found"), w)) ∧
  (∀ payload, ep_sessionId payload = sessionId →
     editMessage env user payload w
     = (Throw (NotFoundError "Chat session not found"), resetStored w)) ∧
  (∀ payload, rp_sessionId payload = sessionId →
     regenerateAIMessage env user payload w
     = (Throw (NotFoundError "Chat session not found"), w)) ∧
  (∀ updates,
     updateSession env updateFails user sessionId updates w
     = (Throw (NotFoundError "Chat session not found"), w)) ∧
  getConversation env (user_id user) sessionId w
  = (Throw (NotFoundError "Chat session not found"), w).
Proof.
  intros Hnone. repeat split.
  - intros messageId. unfold stopGeneration.
    by rewrite bind_run, ensureConversation_run, Hnone.
  - intros payload <-. apply editMessage_refused.
    unfold editMessageTransaction. rewrite bind_run, getChatSession_run.
    change (findSession (ep_sessionId payload) (user_id user) (resetStored w))
      with (findSession (ep_sessionId payload) (user_id user) w).
    by rewrite Hnone.
  - intros payload <-. apply regenerateAIMessage_refused.
    unfold regenerateTransaction. rewrite bind_run, getChatSession_run.
    by rewrite Hnone.
  - intros updates. unfold updateSession.
    by rewrite bind_run, ensureConversation_run, Hnone.
  - unfold getConversation. rewrite bind_run.
    change (sessionGetOneById sessionId (user_id user) w)
      with (getChatSession user sessionId w).
    rewrite getChatSession_run. by rewrite Hnone.
Qed.

(** X16. On a session of the user, a message id that names no message of
    that session is answered with the NotFoundError of the message by
    stopGeneration, editMessage and regenerateAIMessage. No row changes and
    no collaborator is called. *)
Theorem message_of_another_session (env : Env) (user : User)
    (sessionId messageId : string) (w : World) :
  is_Some (findSession sessionId (user_id user) w) →
  findMessage messageId sessionId w = None →
  stopGeneration env user sessionId messageId w
  = (Throw (NotFoundError "Chat message not found"), w) ∧
  (∀ payload, ep_sessionId payload = sessionId → ep_editId payload = messageId →
     editMessage env user payload w
     = (Throw (NotFoundError "Chat message not found"), resetStored w)) ∧
  (∀ payload, rp_sessionId payload = sessionId → rp_retryId payload = messageId →
     regenerateAIMessage env user payload w
     = (Throw (NotFoundError "Chat message not found"), w)).
Proof.
  intros [s Hs] Hnone. pose proof (findSession_id _ _ _ _ Hs) as (Hid & _).
  repeat split.
  - unfold stopGeneration.
    rewrite bind_run, ensureConversation_run, Hs.
    by rewrite bind_run, getChatMessage_run, Hnone.
  - intros payload <- <-. apply editMessage_refused.
    unfold editMessageTransaction. rewrite bind_run, getChatSession_run.
    change (findSession (ep_sessionId payload) (user_id user) (resetStored w))
      with (findSession (ep_sessionId payload) (user_id user) w).
    rewrite Hs. cbn [fmap option_fmap option_map fst].
    rewrite bind_run, getChatMessage_run, Hid.
    change (findMessage (ep_editId payload) (ep_sessionId payload)
              (resetStored w))
      with (findMessage (ep_editId payload) (ep_sessionId payload) w).
    by rewrite Hnone.
  - intros payload <- <-. apply regenerateAIMessage_refused.
    unfold regenerateTransaction. rewrite bind_run, getChatSession_run.
    rewrite Hs. cbn [fmap option_fmap option_map fst].
    by rewrite bind_run, getChatMessage_run, Hid, Hnone.
Qed.

(** X17. Only human and AI messages can be edited: an edit that targets
    a message of any other type throws a BadRequestError, whatever model
    the request names. No row changes, nothing is stored and no
    collaborator is called. *)
Theorem editMessage_other_type (env : Env) (user : User)
    (payload : EditMessagePayload) (w : World) (m : ChatHubMessage) :
  is_Some (findSession (ep_sessionId payload) (user_id user) w) →
  findMessage (ep_editId payload) (ep_sessionId payload) w = Some m →
  msg_type m ≠ TyHuman → msg_type m ≠ TyAi →
  editMessage env user payload w
  = (Throw (BadRequestError "Only human and AI messages can be edited"),
     resetStored w).
Proof.
  intros [s Hs] Hm Hhuman Hai.
  pose proof (findSession_id _ _ _ _ Hs) as (Hid & _).
  apply editMessage_refused.
  unfold editMessageTransaction. rewrite bind_run, getChatSession_run.
  change (findSession (ep_sessionId payload) (user_id user) (resetStored w))
    with (findSession (ep_sessionId payload) (user_id user) w).
  rewrite Hs. cbn [fmap option_fmap option_map fst].
  rewrite bind_run, getChatMessage_run, Hid.
  change (findMessage (ep_editId payload) (ep_sessionId payload)
            (resetStored w))
    with (findMessage (ep_editId payload) (ep_sessionId payload) w).
  rewrite Hm. by destruct (msg_type m).
Qed.

End refusal_props.

(** ** Replies of a custom agent *)

Section agent_props.
Import Service Conversation Sessions Notions.
Local Open Scope list_scope.

Lemma checkKnowledgeItems_run embeddingProvider items w :
  snd (checkKnowledgeItems embeddingProvider items w) = w ∧
  (fst (checkKnowledgeItems embeddingProvider items w) = Ok tt →
   Forall (λ provider, Some provider = embeddingProvider)
     (embeddingProviders items)).
Proof.
  induction items as [|[a|fileName provider] items IH];
    cbn [checkKnowledgeItems embeddingProviders omap list_omap].
  - split; [done|]. constructor.
  - exact IH.
  - case_bool_decide as Hp.
    + split; [done|]. done.
    + destruct IH as [IH1 IH2]. split; [done|]. intros Hok.
      constructor; [|by apply IH2].
      by destruct (decide (Some provider = embeddingProvider)).
Qed.

Lemma embeddingProviders_filter files :
  embeddingProviders (List.filter isEmbedding files) = embeddingProviders files.
Proof.
  induction files as [|[a|fileName provider] files IH]; [done| |];
    cbn [List.filter isEmbedding embeddingProviders omap list_omap];
    [exact IH|]. f_equal. exact IH.
Qed.

(** X18. A custom agent with embedded knowledge files gets a reply
    workflow only when the agent has a credential and the embedding
    provider determined from it, for the provider of the first embedded
    file, is the provider of every embedded file of the agent. The agent
    must be one of the user's. *)
Theorem prepareReplyWorkflow_agent_knowledge (env : Env) (user : User)
    (sessionId agentId : string) (credentials : gmap string (option string))
    (history : list ChatHubMessage) (input : ChatInput) (tools : list string)
    (timeZone : string) (w w' : World) (workflow : PreparedChatWorkflow) :
  prepareReplyWorkflow env user sessionId credentials (CustomAgentModel agentId)
    history input tools timeZone w = (Ok workflow, w') →
  ∃ agent,
    getAgentById env (user_id user) agentId = Some agent ∧
    ∀ provider, provider ∈ embeddingProviders (agent_files agent) →
      truthy (agent_credentialId agent) = true ∧
      ∃ first,
        head (embeddingProviders (agent_files agent)) = Some first ∧
        determineEmbeddingProvider env (user_id user) (agent_provider agent)
          (agent_credentialId agent) first = Ok (Some provider).
Proof.
  unfold prepareReplyWorkflow.
  destruct (getAgentById env (user_id user) agentId) as [agent|]; [|done].
  intros Hrun. exists agent. split; [done|].
  rewrite <- embeddingProviders_filter.
  set (items := List.filter isEmbedding (agent_files agent)) in *.
  rewrite bind_run in Hrun.
  assert (∃ embeddingModel,
    match items with
    | EmbeddingItem _ provider :: _ =>
        if truthy (agent_credentialId agent)
        then liftOutcome
               (determineEmbeddingProvider env (user_id user)
                  (agent_provider agent) (agent_credentialId agent) provider)
        else mret None
    | _ => mret None
    end w = (Ok embeddingModel, w) ∧
    (∀ p, embeddingModel = Some p →
       truthy (agent_credentialId agent) = true ∧
       ∃ first, head (embeddingProviders items) = Some first ∧
                determineEmbeddingProvider env (user_id user)
                  (agent_provider agent) (agent_credentialId agent) first
                = Ok (Some p))) as (embeddingModel & Hdet & Hmodel).
  { destruct items as [|[a|fileName provider] rest] eqn:Hitems.
    - eexists. split; [reflexivity|]. done.
    - assert (FileItem a ∈ List.filter isEmbedding (agent_files agent)) as Hin.
      { fold items. rewrite Hitems. set_solver. }
      apply list_elem_of_In, filter_In in Hin as [_ Hin]. done.
    - destruct (truthy (agent_credentialId agent)) eqn:Htruthy.
      + unfold liftOutcome in *.
        destruct (determineEmbeddingProvider env (user_id user)
                    (agent_provider agent) (agent_credentialId agent) provider)
          as [model|e] eqn:Hdet; [|done].
        eexists. split; [reflexivity|]. intros p ->. split; [done|].
        exists provider. done.
      + eexists. split; [reflexivity|]. done. }
  rewrite Hdet in Hrun. rewrite bind_run in Hrun.
  pose proof (checkKnowledgeItems_run embeddingModel items w) as [Hw Hcheck].
  destruct (checkKnowledgeItems embeddingModel items w) as [[[]|e] w1];
    [|done].
  specialize (Hcheck eq_refl). rewrite Forall_forall in Hcheck.
  intros provider Hin. apply Hmodel. symmetry. by apply Hcheck.
Qed.

(** X19. A request carries a credential into a new session only for a
    pair of provider and model, and then it is the credential that the
    request gives for the credential type of that provider: a hosted
    workflow and a custom agent never get one. *)
Theorem getModelCredential_llm_only (env : Env)
    (model : ChatHubConversationModel)
    (credentials : gmap string (option string)) (credentialId : string) :
  getModelCredential env model credentials = Some credentialId ↔
  ∃ provider name,
    model = LLMModel provider name ∧
    credentials !! credentialTypeOf env provider = Some (Some credentialId).
Proof.
  unfold getModelCredential, pickCredentialId.
  destruct model as [workflowId|agentId|provider name]; cbn [modelProvider].
  - split; [done|]. by intros (? & ? & ? & _).
  - split; [done|]. by intros (? & ? & ? & _).
  - split.
    + intros Hjoin. exists provider, name. split; [done|].
      destruct (credentials !! credentialTypeOf env provider) as [[c|]|];
        cbn in Hjoin; congruence.
    + intros (p & n & [= <- <-] & ->). done.
Qed.

End agent_props.

(** ** Updating and reading a session *)

Section session_props.
Import Service Conversation Sessions Notions.
Local Open Scope list_scope.

Lemma find_updateSessionRows sessionId userId u rows s :
  List.find (λ s, bool_decide (sess_id s = sessionId ∧ sess_ownerId s = userId))
    rows = Some s →
  List.find (λ s, bool_decide (sess_id s = sessionId ∧ sess_ownerId s = userId))
    (updateSessionRows sessionId u rows) = Some (applyUpdates u s).
Proof.
  induction rows as [|x rows IH]; [done|].
  cbn [List.find updateSessionRows map]. fold (updateSessionRows sessionId u rows).
  destruct (decide (sess_id x = sessionId)) as [Hx|Hx].
  - rewrite (bool_decide_true (sess_id x = sessionId)) by done.
    destruct (decide (sess_ownerId x = userId)) as [Ho|Ho].
    + rewrite !bool_decide_true by done. by intros [= <-].
    + rewrite !bool_decide_false by (cbn; tauto). exact IH.
  - rewrite (bool_decide_false (sess_id x = sessionId)) by done.
    rewrite bool_decide_false by tauto. exact IH.
Qed.

Lemma updateChatSession_run updateFails id u w :
  updateChatSession updateFails id u w
  = match updateFails u with
    | Some e => (Throw e, w)
    | None => (Ok tt,
               {| sessions := updateSessionRows id u (sessions w);
                  messages := messages w; trace := trace w;
                  storedAttachments := storedAttachments w |})
    end.
Proof.
  unfold updateChatSession. rewrite bind_run.
  by destruct (updateFails u).
Qed.

(** X20. An update that returns leaves the messages and the trace alone
    and rewrites the session row of the user in place. With an agent in
    the request, the model is one the user may start and the row is bound
    exactly as a new session for that model would be, its agent name is
    the requested one and its credential is cleared unless the request
    names one. Without an agent the binding and the agent name stay. Title
    and tools change only when the request gives them. Sessions with
    another id are untouched. *)
Theorem updateSession_binding (env : Env)
    (updateFails : SessionUpdates → option Error) (user : User)
    (sessionId : string) (updates : ChatHubUpdateConversationRequest)
    (s : ChatHubSession) (w w' : World) :
  findSession sessionId (user_id user) w = Some s →
  updateSession env updateFails user sessionId updates w = (Ok tt, w') →
  ∃ s',
    findSession sessionId (user_id user) w' = Some s' ∧
    match up_agent updates with
    | Some agent =>
        validModel env user (au_model agent) ∧
        sameBinding s'
          (sessionRow sessionId (user_id user) (au_model agent) None [] None) ∧
        sess_agentName s' = Some (au_name agent) ∧
        sess_credentialId s' = default None (up_credentialId updates)
    | None =>
        sameBinding s' s ∧ sess_agentName s' = sess_agentName s ∧
        sess_credentialId s'
        = default (sess_credentialId s) (up_credentialId updates)
    end ∧
    sess_title s' = default (sess_title s) (up_title updates) ∧
    sess_tools s' = default (sess_tools s) (up_tools updates) ∧
    messages w' = messages w ∧ trace w' = trace w ∧
    length (sessions w') = length (sessions w) ∧
    (∀ other, other ∈ sessions w → sess_id other ≠ sessionId →
              other ∈ sessions w').
Proof.
  intros Hs. unfold updateSession.
  rewrite bind_run, ensureConversation_run, Hs. rewrite bind_run.
  assert (∀ u w1,
    updateChatSession updateFails sessionId u w = (Ok tt, w1) →
    findSession sessionId (user_id user) w1 = Some (applyUpdates u s) ∧
    messages w1 = messages w ∧ trace w1 = trace w ∧
    length (sessions w1) = length (sessions w) ∧
    (∀ other, other ∈ sessions w → sess_id other ≠ sessionId →
              other ∈ sessions w1)) as Hwrite.
  { intros u w1. rewrite updateChatSession_run.
    destruct (updateFails u); [done|]. intros [= <-].
    unfold findSession. cbn [sessions messages trace].
    split; [by apply find_updateSessionRows|].
    repeat split; try done.
    - unfold updateSessionRows. by rewrite length_map.
    - intros other Hin Hne. unfold updateSessionRows.
      apply list_elem_of_In, in_map_iff. exists other.
      split; [by rewrite bool_decide_false|by apply list_elem_of_In]. }
  destruct (up_agent updates) as [agent|] eqn:Hagent.
  - rewrite bind_run.
    destruct (ensureValidModel_run env user (au_model agent) w)
      as [[-> Hvalid]|(msg & -> & _)]; [|done].
    cbn [mret M_ret]. intros Hrun.
    apply Hwrite in Hrun as (Hfind & Hm & Ht & Hlen & Hother).
    eexists. split; [exact Hfind|].
    repeat split; try done.
    all: cbn; try done.
    all: by destruct (up_credentialId updates), (up_title updates),
              (up_tools updates), (au_model agent).
  - cbn [mret M_ret]. intros Hrun.
    apply Hwrite in Hrun as (Hfind & Hm & Ht & Hlen & Hother).
    eexists. split; [exact Hfind|].
    repeat split; try done.
    all: cbn; try done.
    all: by destruct (up_credentialId updates), (up_title updates),
              (up_tools updates).
Qed.

(** X21. An update that throws has changed nothing, and it throws for one
    of three reasons only: the session is not one of the user's, the model
    of the requested agent is not one the user may start, or the write to
    the store failed. *)
Theorem updateSession_refused (env : Env)
    (updateFails : SessionUpdates → option Error) (user : User)
    (sessionId : string) (updates : ChatHubUpdateConversationRequest)
    (w w' : World) (e : Error) :
  updateSession env updateFails user sessionId updates w = (Throw e, w') →
  w' = w ∧
  ((findSession sessionId (user_id user) w = None ∧
    e = NotFoundError "Chat session not found") ∨
   (∃ agent msg, up_agent updates = Some agent ∧
                 ¬ validModel env user (au_model agent) ∧
                 e = BadRequestError msg) ∨
   (∃ u, updateFails u = Some e)).
Proof.
  unfold updateSession. rewrite bind_run, ensureConversation_run.
  destruct (findSession sessionId (user_id user) w) as [s|].
  - rewrite bind_run.
    destruct (up_agent updates) as [agent|] eqn:Hagent.
    + rewrite bind_run.
      destruct (ensureValidModel_run env user (au_model agent) w)
        as [[-> Hvalid]|(msg & -> & Hinvalid)].
      * cbn [mret M_ret]. rewrite updateChatSession_run.
        destruct (updateFails _) as [e'|] eqn:Hfail; [|done].
        intros [= <- <-]. split; [done|]. right. right. eauto.
      * intros [= <- <-]. split; [done|]. right. left. eauto.
    + cbn [mret M_ret]. rewrite updateChatSession_run.
      destruct (updateFails _) as [e'|] eqn:Hfail; [|done].
      intros [= <- <-]. split; [done|]. right. right. eauto.
  - intros [= <- <-]. split; [done|]. by left.
Qed.

Lemma messagesById_snoc rows x :
  messagesById (rows ++ [x])
  = <[msg_id x := convertMessageToDto x]> (messagesById rows).
Proof. unfold messagesById. by rewrite foldl_app. Qed.

Lemma messagesById_lookup rows id dto :
  messagesById rows !! id = Some dto →
  ∃ m, m ∈ rows ∧ msg_id m = id ∧ dto = convertMessageToDto m.
Proof.
  induction rows as [|x rows IH] using rev_ind; [done|].
  rewrite messagesById_snoc.
  destruct (decide (msg_id x = id)) as [<-|Hne].
  - rewrite lookup_insert_eq. intros [= <-]. exists x. set_solver.
  - rewrite lookup_insert_ne by done. intros Hl.
    destruct (IH Hl) as (m & Hin & Hid & Hdto). exists m. set_solver.
Qed.

Lemma messagesById_present rows m :
  m ∈ rows → is_Some (messagesById rows !! msg_id m).
Proof.
  induction rows as [|x rows IH] using rev_ind; [by intros ?%elem_of_nil|].
  rewrite messagesById_snoc. intros Hin.
  destruct (decide (msg_id x = msg_id m)) as [Heq|Hne].
  - rewrite Heq, lookup_insert_eq. by eexists.
  - rewrite lookup_insert_ne by done. apply IH. set_solver.
Qed.

(** X22. Reading a conversation changes nothing. For a session of the
    user it returns the DTO of that session and a mapping that has an
    entry for every message of the session and for nothing else: each
    entry is the DTO of a message of this session that carries the id it
    is stored under, so no message of another session is shown. *)
Theorem getConversation_messages (env : Env) (userId sessionId : string)
    (w w' : World) (response : ChatHubConversationResponse) :
  getConversation env userId sessionId w = (Ok response, w') →
  w' = w ∧
  (∃ s, findSession sessionId userId w = Some s ∧
        resp_session response = convertSessionEntityToDto env s) ∧
  (∀ id dto, resp_messages response !! id = Some dto →
     ∃ m, m ∈ messages w ∧ msg_sessionId m = sessionId ∧ msg_id m = id ∧
          dto = convertMessageToDto m) ∧
  (∀ m, m ∈ messages w → msg_sessionId m = sessionId →
     is_Some (resp_messages response !! msg_id m)).
Proof.
  unfold getConversation. rewrite bind_run.
  change (sessionGetOneById sessionId userId w)
    with (getChatSession {| user_id := userId |} sessionId w).
  rewrite getChatSession_run. cbn [user_id].
  destruct (findSession sessionId userId w) as [s|]; [|done].
  cbn [fmap option_fmap option_map fst snd nullish default].
  intros [= <- <-]. split; [done|]. split; [by eexists|].
  cbn [resp_messages]. unfold sessionMessages. split.
  - intros id dto Hl.
    apply messagesById_lookup in Hl as (m & Hin & Hid & Hdto).
    apply list_elem_of_filter in Hin as [Hsess Hin]. eauto.
  - intros m Hin Hsess. apply messagesById_present.
    by apply list_elem_of_filter.
Qed.

End session_props.

(** ** Requests that fail leave no partial write *)

Section atomic_props.
Import Service Conversation Sessions Notions.
Local Open Scope list_scope.

Lemma cleanupAndRethrow_rows {A} env e w :
  sessions (snd (cleanupAndRethrow (A:=A) env e w)) = sessions w ∧
  messages (snd (cleanupAndRethrow (A:=A) env e w)) = messages w ∧
  trace w `prefix_of` trace (snd (cleanupAndRethrow (A:=A) env e w)).
Proof.
  destruct (decide (storedAttachments w = [])) as [Hnil|Hne].
  - by rewrite cleanupAndRethrow_nothing_stored.
  - rewrite cleanupAndRethrow_run by done. cbn. repeat split.
    by apply prefix_app_r.
Qed.

(** The run of a guarded transaction that throws. *)
Lemma guarded_transaction_throws {A} env (body : M A) w e w' :
  tryCatch (transaction env body) (cleanupAndRethrow env) w = (Throw e, w') →
  sessions w' = sessions w ∧ messages w' = messages w.
Proof.
  unfold tryCatch. rewrite transaction_run.
  assert (∀ e0 w3 r,
            cleanupAndRethrow (A:=A) env e0 (rollback w w3) = (r, w') →
            sessions w' = sessions w ∧ messages w' = messages w) as Hclean.
  { intros e0 w3 r Hrun.
    pose proof (cleanupAndRethrow_rows (A:=A) env e0 (rollback w w3))
      as (Hs & Hm & _).
    rewrite Hrun in Hs, Hm. done. }
  destruct (body w) as [[a|e0] w3].
  - destruct (dbFails env Commit) as [e0|]; [|done]. apply Hclean.
  - apply Hclean.
Qed.

Lemma guarded_transaction_returns {A} env (body : M A) w a w' :
  tryCatch (transaction env body) (cleanupAndRethrow env) w = (Ok a, w') →
  body w = (Ok a, w') ∧ dbFails env Commit = None.
Proof.
  unfold tryCatch. rewrite transaction_run.
  assert (∀ e0 w3,
            cleanupAndRethrow (A:=A) env e0 (rollback w w3) = (Ok a, w') →
            False) as Hclean.
  { intros e0 w3 Hrun.
    pose proof (cleanupAndRethrow_throws (A:=A) env e0 (rollback w w3)) as Ht.
    by rewrite Hrun in Ht. }
  destruct (body w) as [[a0|e0] w3].
  - destruct (dbFails env Commit) as [e0|].
    + intros Hrun. by apply Hclean in Hrun.
    + by intros [= <- <-].
  - intros Hrun. by apply Hclean in Hrun.
Qed.

(** X23. A send that throws is all or nothing. Either no row was written:
    the sessions and messages are as before, also when a session had been
    created for the request. Or the transaction had committed the human
    message, as the one new row, and the broadcast was attempted: the
    error then comes from the broadcast, the lookup of the waiting
    execution or the status update that follows. *)
Theorem sendHumanMessage_atomic (env : Env) (user : User)
    (payload : HumanMessagePayload) (w w' : World) (e : Error) :
  let sessionId := hp_sessionId payload in
  let messageId := hp_messageId payload in
  sendHumanMessage env user payload w = (Throw e, w') →
  (sessions w' = sessions w ∧ messages w' = messages w) ∨
  (∃ processed events,
     dbFails env Commit = None ∧
     messages w' = messages w ++
       [humanMessageRow sessionId messageId (hp_message payload) processed
          (hp_previousMessageId payload) None] ∧
     trace w' = trace w ++ events ∧
     SendHumanMessage (user_id user) sessionId messageId
       (hp_previousMessageId payload) (hp_message payload)
       (map attachmentInfo processed) ∈ events).
Proof.
  intros sessionId messageId.
  unfold sendHumanMessage. rewrite bind_run. cbn [setStoredAttachments].
  change {| sessions := sessions w; messages := messages w; trace := trace w;
            storedAttachments := [] |} with (resetStored w).
  rewrite bind_run.
  destruct (tryCatch
              (transaction env (sendHumanMessageTransaction env user payload))
              (cleanupAndRethrow env) (resetStored w))
    as [[[workflow previous]|e0] w3] eqn:Hguard.
  - apply guarded_transaction_returns in Hguard as [Hbody Hcommit].
    apply sendHumanMessageTransaction_ok in Hbody
      as (processed & _ & Hst & _ & _ & _ & Hrows & [before Htrace]).
    fold sessionId messageId in Hrows.
    change (messages (resetStored w)) with (messages w) in Hrows.
    change (trace (resetStored w)) with (trace w) in Htrace.
    rewrite sendHumanMessageLaunch_run.
    fold sessionId messageId. rewrite Hst.
    set (broadcast := SendHumanMessage _ _ _ _ _ _).
    intros Hrun. right. exists processed.
    assert (∀ evs, w' = withTrace w3 (broadcast :: evs) →
              ∃ events,
                dbFails env Commit = None ∧
                messages w' = messages w ++
                  [humanMessageRow sessionId messageId (hp_message payload)
                     processed (hp_previousMessageId payload) None] ∧
                trace w' = trace w ++ events ∧ broadcast ∈ events) as Hdone.
    { intros evs ->. exists (before ++ broadcast :: evs).
      cbn [withTrace messages trace]. rewrite Htrace, <- app_assoc.
      repeat split; try done. set_solver. }
    destruct (fails env broadcast) as [e1|].
    { injection Hrun as <- <-. by apply (Hdone []). }
    destruct previous as [waiting|]; [|done].
    destruct (bool_decide _ && bool_decide _ && bool_decide _
              && truthyNumber _); [|done].
    destruct (msg_executionId waiting ≫= findSingleExecution env)
      as [executionId|].
    + destruct (dbFails env (UpdateMessage (msg_id waiting))) as [e1|];
        [|done].
      injection Hrun as <- <-. by eapply Hdone.
    + injection Hrun as <- <-. by apply (Hdone []).
  - intros [= <- <-]. left.
    by apply guarded_transaction_throws in Hguard.
Qed.

(** X24. An edit that throws is all or nothing. Either no row was
    written: the sessions and messages are as before. Or the transaction
    had committed and the error is the one thrown by the broadcast of the
    edit. *)
Theorem editMessage_atomic (env : Env) (user : User)
    (payload : EditMessagePayload) (w w' : World) (e : Error) :
  editMessage env user payload w = (Throw e, w') →
  (sessions w' = sessions w ∧ messages w' = messages w) ∨
  (∃ attachments,
     dbFails env Commit = None ∧
     fails env
       (SendMessageEdit (user_id user) (ep_sessionId payload)
          (ep_editId payload) (ep_messageId payload) (ep_message payload)
          (map attachmentInfo attachments)) = Some e).
Proof.
  unfold editMessage. rewrite bind_run. cbn [setStoredAttachments].
  change {| sessions := sessions w; messages := messages w; trace := trace w;
            storedAttachments := [] |} with (resetStored w).
  rewrite bind_run.
  destruct (tryCatch
              (transaction env (editMessageTransaction env user payload))
              (cleanupAndRethrow env) (resetStored w))
    as [[[[workflow|] attachments]|e0] w3] eqn:Hguard.
  - apply guarded_transaction_returns in Hguard as [_ Hcommit].
    rewrite bind_run, call_run.
    destruct (fails env (SendMessageEdit _ _ _ _ _ _)) as [e1|] eqn:Hfail;
      [|done].
    intros [= <- <-]. right. eauto.
  - done.
  - intros [= <- <-]. left.
    by apply guarded_transaction_throws in Hguard.
Qed.

End atomic_props.

(** ** Worked cases *)


Lemma buildConversationHistory_shape_witness :
  ∃ records hidden entries,
    Conversation.buildConversationHistory Samples.servingFetch
      Cases.illustratedHistory "openai" "gpt-4"
      [Conversation.FileItem Samples.smallFile] = Ok records ∧
    records = (hidden ++ entries)%list ∧
    Forall2 Notions.entryFor (Notions.replayable Cases.illustratedHistory)
      entries ∧
    ∃ r, hidden = [r] ∧ Notions.contextEntry 1 r.
Proof.
  eexists.
  assert (Conversation.buildConversationHistory Samples.servingFetch
            Cases.illustratedHistory "openai" "gpt-4"
            [Conversation.FileItem Samples.smallFile] = Ok _) as Hrun
    by (vm_compute; reflexivity).
  destruct (buildConversationHistory_shape Samples.servingFetch
              Cases.illustratedHistory "openai" "gpt-4"
              [Conversation.FileItem Samples.smallFile] _ Hrun)
    as (hidden & entries & Hsplit & Hentries & Hhidden).
  exists hidden, entries. split; [exact Hrun|]. split; [exact Hsplit|].
  split; [exact Hentries|exact Hhidden].
Defined.

Lemma buildConversationHistory_throws_fetch_error_witness :
  ∃ a, a ∈ Notions.fetchable Cases.illustratedHistory [] ∧
       (Conversation.getAsBuffer Samples.failingFetch a
        = Throw (ExternalError "ENOENT") ∨
        Conversation.getDataUrl Samples.failingFetch a
        = Throw (ExternalError "ENOENT")).
Proof.
  assert (Conversation.buildConversationHistory Samples.failingFetch
            Cases.illustratedHistory "openai" "gpt-4" []
          = Throw (ExternalError "ENOENT")) as Hrun
    by (vm_compute; reflexivity).
  exact (buildConversationHistory_throws_fetch_error Samples.failingFetch
           Cases.illustratedHistory "openai" "gpt-4" [] _ Hrun).
Defined.

Lemma buildConversationHistory_media_supported_witness :
  ∃ a, a ∈ Notions.fetchable Cases.illustratedHistory [] ∧
       Conversation.getDataUrl Samples.servingFetch a
       = Ok "data:image/png;base64,iVBOR" ∧
       Conversation.isTextFile (bd_mimeType a) = false ∧
       Conversation.getMimeTypeModality Samples.servingFetch (bd_mimeType a)
         ∈ Conversation.inputModalities
             (Conversation.getModelMetadata Samples.servingFetch
                "openai" "gpt-4").
Proof.
  assert (∃ records r,
            Conversation.buildConversationHistory Samples.servingFetch
              Cases.illustratedHistory "openai" "gpt-4" [] = Ok records ∧
            r ∈ records ∧
            Conversation.ImageUrlBlock "data:image/png;base64,iVBOR"
              ∈ Notions.entryBlocks r) as (records & r & Hrun & Hr & Hurl).
  { eexists _, _. split; [vm_compute; reflexivity|].
    split; [apply list_elem_of_further, list_elem_of_here|].
    vm_compute.
    repeat first [apply list_elem_of_here | apply list_elem_of_further]. }
  exact (buildConversationHistory_media_supported Samples.servingFetch
           Cases.illustratedHistory "openai" "gpt-4" [] records Hrun r _
           Hr Hurl).
Defined.

Lemma buildMessageHistory_linear_witness :
  History.buildMessageHistory (History.fromEntries Cases.plainHistory)
    (Some "m2")
  = Some [Samples.mkMessage "m1" TyHuman "Hello" None;
          Samples.mkMessage "m2" TyAi "" (Some "m1")].
Proof.
  assert (Notions.linear Cases.plainHistory) as Hlinear.
  { split; [by repeat split|].
    apply (bool_decide_unpack _). vm_compute. exact I. }
  exact (buildMessageHistory_linear
           [Samples.mkMessage "m1" TyHuman "Hello" None]
           [Samples.mkMessage "m3" TyHuman "Anyone?" (Some "m2")]
           (Samples.mkMessage "m2" TyAi "" (Some "m1")) Hlinear).
Defined.


Lemma sendHumanMessage_unknown_previous_witness :
  Service.sendHumanMessage Samples.quietEnv Samples.sampleUser
    Cases.danglingPayload Samples.sampleWorld
  = (Throw (BadRequestError
              "The previous message does not exist in the session"),
     Samples.sampleWorld).
Proof.
  assert ("m9" ≠ "") as Hid by discriminate.
  destruct (sendHumanMessage_unknown_previous Samples.quietEnv
              Samples.sampleUser Cases.danglingPayload Samples.sampleWorld
              "m9" eq_refl Hid eq_refl) as (e & Hrun & Herror).
  assert (is_Some (Service.findSession "s1" "u1" Samples.sampleWorld)) as Hs
    by (vm_compute; eauto).
  rewrite (Herror Hs) in Hrun. exact Hrun.
Defined.

Lemma sendHumanMessage_completes_witness :
  ∃ w',
    Service.sendHumanMessage Samples.quietEnv Samples.sampleUser
      Samples.samplePayload Samples.sampleWorld = (Ok tt, w') ∧
    Service.storedAttachments w' = [Samples.smallFile] ∧
    Service.SendHumanMessage "u1" "s1" "m3" (Some "m2") "And this file?"
      (map Service.attachmentInfo [Samples.smallFile]) ∈ Service.trace w'.
Proof.
  eexists.
  assert (Service.sendHumanMessage Samples.quietEnv Samples.sampleUser
            Samples.samplePayload Samples.sampleWorld = (Ok tt, _)) as Hrun
    by (vm_compute; reflexivity).
  split; [exact Hrun|].
  destruct (sendHumanMessage_completes Samples.quietEnv Samples.sampleUser
              Samples.samplePayload Samples.sampleWorld _ Hrun)
    as (processed & workflow & previous & Hstored & Hst & _ & _ & _ & _
        & Hsent & _).
  injection Hstored as <-. split; [exact Hst|exact Hsent].
Defined.

Lemma session_of_another_user_witness :
  Service.stopGeneration Samples.quietEnv {| Service.user_id := "u2" |}
    "s1" "m2" Samples.sampleWorld
  = (Throw (NotFoundError "Chat session not found"), Samples.sampleWorld).
Proof.
  exact (proj1 (session_of_another_user Samples.quietEnv Cases.writesSucceed
                  {| Service.user_id := "u2" |} "s1" Samples.sampleWorld
                  eq_refl) "m2").
Defined.

Lemma message_of_another_session_witness :
  Service.stopGeneration Samples.quietEnv Samples.sampleUser "s2" "m2"
    Samples.sampleWorld
  = (Throw (NotFoundError "Chat message not found"), Samples.sampleWorld).
Proof.
  assert (is_Some (Service.findSession "s2" "u1" Samples.sampleWorld)) as Hs
    by (vm_compute; eauto).
  exact (proj1 (message_of_another_session Samples.quietEnv Samples.sampleUser
                  "s2" "m2" Samples.sampleWorld Hs eq_refl)).
Defined.

Lemma editMessage_other_type_witness :
  Service.editMessage Samples.quietEnv Samples.sampleUser Cases.systemEdit
    Cases.systemWorld
  = (Throw (BadRequestError "Only human and AI messages can be edited"),
     Cases.systemWorld).
Proof.
  assert (is_Some (Service.findSession "s1" "u1" Cases.systemWorld)) as Hs
    by (vm_compute; eauto).
  assert (TySystem ≠ TyHuman) as Hhuman by discriminate.
  assert (TySystem ≠ TyAi) as Hai by discriminate.
  exact (editMessage_other_type Samples.quietEnv Samples.sampleUser
           Cases.systemEdit Cases.systemWorld
           (Samples.mkMessage "m0" TySystem "Be brief." None)
           Hs eq_refl Hhuman Hai).
Defined.

Lemma prepareReplyWorkflow_agent_knowledge_witness :
  ∃ agent,
    Service.getAgentById Cases.agentEnv "u1" "a1" = Some agent ∧
    ∀ provider,
      provider ∈ Notions.embeddingProviders (Service.agent_files agent) →
      truthy (Service.agent_credentialId agent) = true ∧
      ∃ first,
        head (Notions.embeddingProviders (Service.agent_files agent))
        = Some first ∧
        Service.determineEmbeddingProvider Cases.agentEnv "u1"
          (Service.agent_provider agent) (Service.agent_credentialId agent)
          first = Ok (Some provider).
Proof.
  assert (∃ w',
    Service.prepareReplyWorkflow Cases.agentEnv Samples.sampleUser "s1" ∅
      (Service.CustomAgentModel "a1") Cases.plainHistory
      {| Service.ci_message := "Anyone?"; Service.ci_attachments := [] |}
      [] "UTC" Samples.sampleWorld = (Ok Samples.sampleWorkflow, w'))
    as [w' Hrun] by (eexists; vm_compute; reflexivity).
  exact (prepareReplyWorkflow_agent_knowledge Cases.agentEnv Samples.sampleUser
           "s1" "a1" ∅ Cases.plainHistory _ [] "UTC" Samples.sampleWorld w'
           Samples.sampleWorkflow Hrun).
Defined.

Lemma updateSession_binding_witness :
  ∃ w' s',
    Sessions.updateSession Cases.agentEnv Cases.writesSucceed
      Samples.sampleUser "s1" Cases.toLibrarian Samples.sampleWorld
    = (Ok tt, w') ∧
    Service.findSession "s1" "u1" w' = Some s' ∧
    Service.sess_provider s' = Service.ProvCustomAgent ∧
    Service.sess_model s' = None ∧
    Service.sess_agentId s' = Some "a1" ∧
    Service.sess_title s' = "Library".
Proof.
  eexists.
  assert (Sessions.updateSession Cases.agentEnv Cases.writesSucceed
            Samples.sampleUser "s1" Cases.toLibrarian Samples.sampleWorld
          = (Ok tt, _)) as Hrun by (vm_compute; reflexivity).
  destruct (updateSession_binding Cases.agentEnv Cases.writesSucceed
              Samples.sampleUser "s1" Cases.toLibrarian
              (Samples.mkSession "s1" "u1" (Service.ProvLLM "openai"))
              Samples.sampleWorld _ eq_refl Hrun)
    as (s' & Hfind & (_ & (Hp & Hm & _ & Ha) & _) & Htitle & _).
  exists s'. split; [exact Hrun|]. split; [exact Hfind|].
  split; [exact Hp|]. split; [exact Hm|]. split; [exact Ha|exact Htitle].
Defined.

Lemma updateSession_refused_witness :
  Sessions.updateSession Cases.agentEnv Cases.writesFail Samples.sampleUser
    "s1" Cases.toLibrarian Samples.sampleWorld
  = (Throw (ExternalError "connection lost"), Samples.sampleWorld).
Proof.
  assert (∃ w', Sessions.updateSession Cases.agentEnv Cases.writesFail
                  Samples.sampleUser "s1" Cases.toLibrarian Samples.sampleWorld
                = (Throw (ExternalError "connection lost"), w'))
    as [w' Hrun] by (eexists; vm_compute; reflexivity).
  destruct (updateSession_refused Cases.agentEnv Cases.writesFail
              Samples.sampleUser "s1" Cases.toLibrarian Samples.sampleWorld
              w' _ Hrun) as [-> _].
  exact Hrun.
Defined.

Lemma getConversation_messages_witness :
  ∃ response,
    Sessions.getConversation Samples.quietEnv "u1" "s1" Samples.sampleWorld
    = (Ok response, Samples.sampleWorld) ∧
    is_Some (Sessions.resp_messages response !! "m2").
Proof.
  assert (∃ response w',
            Sessions.getConversation Samples.quietEnv "u1" "s1"
              Samples.sampleWorld = (Ok response, w'))
    as (response & w' & Hrun) by (eexists _, _; vm_compute; reflexivity).
  destruct (getConversation_messages Samples.quietEnv "u1" "s1"
              Samples.sampleWorld w' response Hrun)
    as (Hw & _ & _ & Hpresent).
  exists response. subst w'. split; [exact Hrun|].
  apply (Hpresent Samples.runningReply).
  - apply list_elem_of_further, list_elem_of_here.
  - reflexivity.
Defined.

Lemma sendHumanMessage_atomic_witness :
  ∃ w',
    Service.sendHumanMessage Samples.brokenEnv Samples.sampleUser
      Samples.samplePayload Samples.sampleWorld
    = (Throw (ExternalError "insert failed"), w') ∧
    Service.sessions w' = Service.sessions Samples.sampleWorld ∧
    Service.messages w' = Service.messages Samples.sampleWorld.
Proof.
  eexists.
  assert (Service.sendHumanMessage Samples.brokenEnv Samples.sampleUser
            Samples.samplePayload Samples.sampleWorld
          = (Throw (ExternalError "insert failed"), _)) as Hrun
    by (vm_compute; reflexivity).
  split; [exact Hrun|].
  destruct (sendHumanMessage_atomic Samples.brokenEnv Samples.sampleUser
              Samples.samplePayload Samples.sampleWorld _ _ Hrun)
    as [Hrows|(processed & events & _ & Hrows & _)].
  - exact Hrows.
  - vm_compute in Hrows. discriminate Hrows.
Defined.

Lemma editMessage_atomic_witness :
  ∃ w',
    Service.editMessage Samples.brokenEnv Samples.sampleUser
      Samples.sampleEdit Samples.sampleWorld
    = (Throw (ExternalError "insert failed"), w') ∧
    Service.sessions w' = Service.sessions Samples.sampleWorld ∧
    Service.messages w' = Service.messages Samples.sampleWorld.
Proof.
  eexists.
  assert (Service.editMessage Samples.brokenEnv Samples.sampleUser
            Samples.sampleEdit Samples.sampleWorld
          = (Throw (ExternalError "insert failed"), _)) as Hrun
    by (vm_compute; reflexivity).
  split; [exact Hrun|].
  destruct (editMessage_atomic Samples.brokenEnv Samples.sampleUser
              Samples.sampleEdit Samples.sampleWorld _ _ Hrun)
    as [Hrows|(attachments & _ & Hfail)].
  - exact Hrows.
  - vm_compute in Hfail. discriminate Hfail.
Defined.
